(** * Fusion360-AgenticCAD: the cross-thread bridge and the agent loop

    A shallow embedding of
    - [fusion_addin/FusionBridge/bridge_server.py]: the task queue, the
      pending-result map, the custom-event handler that drains the queue on
      the Fusion thread, the blocking submit, the tool registry and the HTTP
      request handler, with what its base class in [http.server] does to a
      request before the handler sees it;
    - [client/chat_cli.py]: JSON extraction from model output, the tool
      router and the bounded agent loop;
    - [client/run_agent.py]: the scripted agent loop;
    - [mcp_server/server.py]: the four MCP tools;
    - [fusion_addin/FusionBridge/FusionBridge.py]: loading and unloading the
      add-in, with [start] and [stop] of the bridge.

    Python values that cross these functions are JSON-shaped, exceptions are
    values, and code that touches the module-level globals is written in a
    state-and-exception monad over an explicit [World].

    The file has two parts: the definitions (the embedding, the invariants
    and the sample inputs), then the lemmas and theorems about them. *)

From stdpp Require Import base strings list gmap pretty.
From Stdlib Require Import ZArith Lia Ascii.

Set Warnings "-register-all".
Open Scope string_scope.
Open Scope nat_scope.
Open Scope list_scope.

(** * Part I: definitions *)

(** ** Python values *)

Module Py.

(** What [json.loads] produces and [json.dumps] consumes.  A [dict] keeps
    its insertion order; numbers are kept as integers (nothing below looks
    inside a number). *)
Inductive Json : Type :=
| JNull
| JBool (b : bool)
| JNum (n : Z)
| JStr (s : string)
| JArr (items : list Json)
| JObj (fields : list (string * Json)).

(** [d.get(k)] on the field list of a dict: the first binding of [k]. *)
Fixpoint dict_get (k : string) (fields : list (string * Json)) : option Json :=
  match fields with
  | [] => None
  | (k', v) :: rest => if String.eqb k k' then Some v else dict_get k rest
  end.

(** [d.get(k)] with the default [None], and [d.get(k, dflt)]. *)
Definition get (k : string) (fields : list (string * Json)) : Json :=
  default JNull (dict_get k fields).
Definition get_or (k : string) (dflt : Json) (fields : list (string * Json)) : Json :=
  default dflt (dict_get k fields).

(** [table.get(name)] on a dict literal with string keys. *)
Fixpoint assoc {A} (name : string) (table : list (string * A)) : option A :=
  match table with
  | [] => None
  | (k, v) :: rest => if String.eqb name k then Some v else assoc name rest
  end.

(** Python truthiness: [None], [False], [0], the empty string, [[]] and
    [{}] are falsy. *)
Definition truthy (v : Json) : bool :=
  match v with
  | JNull => false
  | JBool b => b
  | JNum n => negb (Z.eqb n 0)
  | JStr s => negb (String.eqb s EmptyString)
  | JArr l => match l with [] => false | _ => true end
  | JObj f => match f with [] => false | _ => true end
  end.

(** [a or b] *)
Definition or_ (a b : Json) : Json := if truthy a then a else b.

(** Only immutable values hash; a list or dict used as a dict key raises
    [TypeError]. *)
Definition hashable (v : Json) : bool :=
  match v with
  | JArr _ | JObj _ => false
  | _ => true
  end.

(** [v == s] for a string [s]. *)
Definition eq_str (v : Json) (s : string) : bool :=
  match v with
  | JStr s' => String.eqb s' s
  | _ => false
  end.

(** What an f-string prints for [{v}]: a string as it is, anything else
    through [repr]. *)
Definition format_value (repr : Json → string) (v : Json) : string :=
  match v with
  | JStr s => s
  | _ => repr v
  end.

Definition nl : string := String (ascii_of_nat 10) EmptyString.
Definition dq : string := String (ascii_of_nat 34) EmptyString.
(** [s] between double quotes. *)
Definition quoted (s : string) : string := dq +:+ s +:+ dq.

(** *** [str] methods *)

(** A character of a Rocq string stands for one code point of the Python
    string, so the text that the definitions below speak of is the text
    whose code points are below 256. *)

(** [c.isspace()]: the blanks of ASCII (tab to carriage return, the four
    separators 28 to 31 and the space), the next-line character U+0085 and
    the no-break space U+00A0. *)
Definition is_space (c : ascii) : bool :=
  let n := nat_of_ascii c in
  ((9 <=? n) && (n <=? 13)) || ((28 <=? n) && (n <=? 32)) ||
  (n =? 133) || (n =? 160).

Fixpoint lstrip (s : string) : string :=
  match s with
  | String c r => if is_space c then lstrip r else s
  | EmptyString => EmptyString
  end.

(** [s.strip()] *)
Definition strip (s : string) : string :=
  String.rev (lstrip (String.rev (lstrip s))).

(** [s.startswith(c)] for a one-character [c]. *)
Definition startswith (c : ascii) (s : string) : bool :=
  match s with
  | String c' _ => Ascii.eqb c' c
  | EmptyString => false
  end.

(** [s.find(c)]: the lowest index of [c], or [-1]. *)
Fixpoint find (c : ascii) (s : string) : Z :=
  match s with
  | EmptyString => (-1)%Z
  | String c' r =>
    if Ascii.eqb c' c then 0%Z
    else match find c r with
         | Zneg _ => (-1)%Z
         | i => (i + 1)%Z
         end
  end.

(** [s.rfind(c)]: the highest index of [c], or [-1]. *)
Fixpoint rfind (c : ascii) (s : string) : Z :=
  match s with
  | EmptyString => (-1)%Z
  | String c' r =>
    match rfind c r with
    | Zneg _ => if Ascii.eqb c' c then 0%Z else (-1)%Z
    | j => (j + 1)%Z
    end
  end.

(** [s[i:j]] for [0 <= i <= j]. *)
Definition slice (s : string) (i j : Z) : string :=
  String.substring (Z.to_nat i) (Z.to_nat (j - i)) s.

(** *** Exceptions *)

(** An instance of [Exception]: its class name and [str(e)]. *)
Record PyException : Type := mkExc {
  exc_type : string;
  exc_str : string
}.

(** [traceback.format_exc()] inside an [except] block: the fixed header,
    the frame lines of the stack at hand ([frames]), and the final
    [Type: message] line (the colon is dropped when the message is empty). *)
Definition format_exc (frames : string) (e : PyException) : string :=
  "Traceback (most recent call last):" +:+ nl +:+ frames +:+
  exc_type e +:+
  (if String.eqb (exc_str e) EmptyString then EmptyString else ": " +:+ exc_str e) +:+ nl.

(** [raise Exception(msg)] and [raise RuntimeError(msg)] *)
Definition Exception_ (msg : string) : PyException :=
  {| exc_type := "Exception"; exc_str := msg |}.
Definition RuntimeError (msg : string) : PyException :=
  {| exc_type := "RuntimeError"; exc_str := msg |}.

(** A failed [d[k]] on a dict with string keys: [str(KeyError(k))] is the
    [repr] of the key. *)
Definition KeyError (k : string) : PyException :=
  {| exc_type := "KeyError"; exc_str := "'" +:+ k +:+ "'" |}.

(** [queue.Empty], raised by [get_nowait] on an empty queue. *)
Definition QueueEmpty : PyException :=
  {| exc_type := "Empty"; exc_str := EmptyString |}.

(** [v.get] on a value that is not a dict. *)
Definition AttributeError_get : PyException :=
  {| exc_type := "AttributeError";
     exc_str := "object has no attribute 'get'" |}.

(** A list or dict where a hashable key is required. *)
Definition TypeError_unhashable : PyException :=
  {| exc_type := "TypeError"; exc_str := "unhashable type" |}.

(** [int(s)] on text that is not a number. *)
Definition ValueError_int (s : string) : PyException :=
  {| exc_type := "ValueError";
     exc_str := "invalid literal for int() with base 10: '" +:+ s +:+ "'" |}.

Definition JSONDecodeError (msg : string) : PyException :=
  {| exc_type := "JSONDecodeError"; exc_str := msg |}.

(** How a statement ends: normally with a value, or by raising. *)
Inductive Completion (A : Type) : Type :=
| Normal (a : A)
| Raised (e : PyException).
Arguments Normal {A} a.
Arguments Raised {A} e.

End Py.

(** ** JSON text, for the sample inputs

    A reader and a printer for the JSON texts that the sample inputs use:
    objects, arrays, strings without escapes, integers, [true], [false] and
    [null].  The functions of the program take [json.loads] and
    [json.dumps] as parameters; these two instantiate them in examples. *)

Module JsonText.
Import Py.

Definition is_ws (c : ascii) : bool :=
  match nat_of_ascii c with
  | 9 | 10 | 13 | 32 => true
  | _ => false
  end.

Fixpoint skip_ws (s : string) : string :=
  match s with
  | String c r => if is_ws c then skip_ws r else s
  | EmptyString => EmptyString
  end.

(** The characters of a string literal after its opening quote, and what
    follows the closing quote. *)
Fixpoint read_chars (s : string) : option (string * string) :=
  match s with
  | EmptyString => None
  | String c r =>
    if Ascii.eqb c (ascii_of_nat 34) then Some (EmptyString, r)
    else if Ascii.eqb c (ascii_of_nat 92) then None
    else match read_chars r with
         | Some (t, rest) => Some (String c t, rest)
         | None => None
         end
  end.

Fixpoint read_digits (acc : Z) (s : string) : Z * string :=
  match s with
  | String c r =>
    match Ascii.is_nat c with
    | Some d => read_digits (10 * acc + Z.of_nat d) r
    | None => (acc, s)
    end
  | EmptyString => (acc, s)
  end.

Definition keyword (lit : string) (v : Json) (s : string) : option (Json * string) :=
  if String.prefix lit s
  then Some (v, String.substring (String.length lit) (String.length s - String.length lit) s)
  else None.

Fixpoint read_value (fuel : nat) (s : string) : option (Json * string) :=
  match fuel with
  | O => None
  | S fuel' =>
    match skip_ws s with
    | EmptyString => None
    | String c r =>
      if Ascii.eqb c "{"%char then
        match skip_ws r with
        | String "}"%char r' => Some (JObj [], r')
        | _ => match read_members fuel' r with
               | Some (kvs, rest) => Some (JObj kvs, rest)
               | None => None
               end
        end
      else if Ascii.eqb c "["%char then
        match skip_ws r with
        | String "]"%char r' => Some (JArr [], r')
        | _ => match read_elements fuel' r with
               | Some (vs, rest) => Some (JArr vs, rest)
               | None => None
               end
        end
      else if Ascii.eqb c (ascii_of_nat 34) then
        match read_chars r with
        | Some (t, rest) => Some (JStr t, rest)
        | None => None
        end
      else if Ascii.eqb c "-"%char then
        match r with
        | String d _ =>
          match Ascii.is_nat d with
          | Some _ => match read_digits 0 r with (n, rest) => Some (JNum (- n), rest) end
          | None => None
          end
        | EmptyString => None
        end
      else match Ascii.is_nat c with
           | Some _ => match read_digits 0 (String c r) with (n, rest) => Some (JNum n, rest) end
           | None =>
             match keyword "true" (JBool true) (String c r) with
             | Some x => Some x
             | None =>
               match keyword "false" (JBool false) (String c r) with
               | Some x => Some x
               | None => keyword "null" JNull (String c r)
               end
             end
           end
    end
  end
with read_members (fuel : nat) (s : string) : option (list (string * Json) * string) :=
  match fuel with
  | O => None
  | S fuel' =>
    match skip_ws s with
    | String c r =>
      if Ascii.eqb c (ascii_of_nat 34) then
        match read_chars r with
        | Some (k, rest) =>
          match skip_ws rest with
          | String ":"%char rest' =>
            match read_value fuel' rest' with
            | Some (v, rest'') =>
              match skip_ws rest'' with
              | String ","%char more =>
                match read_members fuel' more with
                | Some (kvs, fin) => Some ((k, v) :: kvs, fin)
                | None => None
                end
              | String "}"%char fin => Some ([(k, v)], fin)
              | _ => None
              end
            | None => None
            end
          | _ => None
          end
        | None => None
        end
      else None
    | EmptyString => None
    end
  end
with read_elements (fuel : nat) (s : string) : option (list Json * string) :=
  match fuel with
  | O => None
  | S fuel' =>
    match read_value fuel' s with
    | Some (v, rest) =>
      match skip_ws rest with
      | String ","%char more =>
        match read_elements fuel' more with
        | Some (vs, fin) => Some (v :: vs, fin)
        | None => None
        end
      | String "]"%char fin => Some ([v], fin)
      | _ => None
      end
    | None => None
    end
  end.

(** The whole text must be one value. *)
Definition loads (s : string) : Completion Json :=
  match read_value (S (String.length s)) s with
  | Some (v, rest) =>
    match skip_ws rest with
    | EmptyString => Normal v
    | _ => Raised (JSONDecodeError "Extra data")
    end
  | None => Raised (JSONDecodeError "Expecting value")
  end.

Fixpoint dumps (v : Json) : string :=
  match v with
  | JNull => "null"
  | JBool true => "true"
  | JBool false => "false"
  | JNum n => pretty n
  | JStr s => quoted s
  | JArr l =>
    "[" +:+
    (fix items (l : list Json) : string :=
       match l with
       | [] => EmptyString
       | [x] => dumps x
       | x :: r => dumps x +:+ ", " +:+ items r
       end) l +:+ "]"
  | JObj f =>
    "{" +:+
    (fix members (f : list (string * Json)) : string :=
       match f with
       | [] => EmptyString
       | [(k, x)] => quoted k +:+ ": " +:+ dumps x
       | (k, x) :: r => quoted k +:+ ": " +:+ dumps x +:+ ", " +:+ members r
       end) f +:+ "}"
  end.

(** [repr] of a value, for messages: the JSON text stands in for it. *)
Definition repr (v : Json) : string := dumps v.

End JsonText.

(** ** bridge_server.py *)

Module BridgeServer.
Import Py.

Definition HOST : string := "127.0.0.1".
Definition PORT : Z := 18080.
Definition AUTH_TOKEN : string := "avez_fusion_2026_!9xQ3p".
Definition CUSTOM_EVENT_ID : string := "FusionBridgeExecEvent".

Section Bridge.

(** The state of the Fusion document, owned by the Fusion thread.  The
    handlers are the only code that reads or writes it. *)
Context {Host : Type}.

(** [str(uuid4())]: the identifier produced by the [k]-th call made in
    this process. *)
Variable uuid4 : nat → string.

(** The frame lines that [traceback] prints for an exception caught in
    this module. *)
Variable tb_frames : PyException → string.

(** A tool handler [fn(payload)]: it returns a JSON-shaped value or
    raises, and may change the document either way. *)
Definition Handler : Type := Json → Host → Completion Json * Host.

(** An element of [_task_queue]: [(task_id, fn, payload)]. *)
Definition Task : Type := string * Handler * Json.

(** A value of [_task_results]: [{"event": ev, "result": ...}]. *)
Record Slot : Type := mkSlot {
  event : bool;
  result : option Json
}.

(** The module globals, with the request threads that are parked between
    their [fireCustomEvent] and their read of the result ([waiting]: the
    local [task_id] of each) and the time, in the unit of [timeout=30.0]. *)
Record World : Type := mkWorld {
  _task_queue : list Task;
  _task_results : gmap string Slot;
  host : Host;
  ui : bool;
  message_boxes : list string;
  uuids_drawn : nat;
  events_fired : nat;
  waiting : list string;
  clock : nat
}.

Definition with_queue (q : list Task) (w : World) : World :=
  mkWorld q (_task_results w) (host w) (ui w) (message_boxes w)
          (uuids_drawn w) (events_fired w) (waiting w) (clock w).
Definition with_results (m : gmap string Slot) (w : World) : World :=
  mkWorld (_task_queue w) m (host w) (ui w) (message_boxes w)
          (uuids_drawn w) (events_fired w) (waiting w) (clock w).
Definition with_host (h : Host) (w : World) : World :=
  mkWorld (_task_queue w) (_task_results w) h (ui w) (message_boxes w)
          (uuids_drawn w) (events_fired w) (waiting w) (clock w).
Definition with_boxes (b : list string) (w : World) : World :=
  mkWorld (_task_queue w) (_task_results w) (host w) (ui w) b
          (uuids_drawn w) (events_fired w) (waiting w) (clock w).
Definition with_drawn (n : nat) (w : World) : World :=
  mkWorld (_task_queue w) (_task_results w) (host w) (ui w) (message_boxes w)
          n (events_fired w) (waiting w) (clock w).
Definition with_fired (n : nat) (w : World) : World :=
  mkWorld (_task_queue w) (_task_results w) (host w) (ui w) (message_boxes w)
          (uuids_drawn w) n (waiting w) (clock w).
Definition with_waiting (l : list string) (w : World) : World :=
  mkWorld (_task_queue w) (_task_results w) (host w) (ui w) (message_boxes w)
          (uuids_drawn w) (events_fired w) l (clock w).
Definition tick (d : nat) (w : World) : World :=
  mkWorld (_task_queue w) (_task_results w) (host w) (ui w) (message_boxes w)
          (uuids_drawn w) (events_fired w) (waiting w) (clock w + d).

(** *** Statements over the globals *)

Definition M (A : Type) : Type := World → Completion A * World.

Definition ret {A} (a : A) : M A := λ w, (Normal a, w).
Definition raise {A} (e : PyException) : M A := λ w, (Raised e, w).
Definition bind {A B} (m : M A) (k : A → M B) : M B := λ w,
  match m w with
  | (Normal a, w') => k a w'
  | (Raised e, w') => (Raised e, w')
  end.

(** [try: body / except Exception as e: handler] *)
Definition try_except {A} (body : M A) (handler : PyException → M A) : M A :=
  λ w, match body w with
       | (Raised e, w') => handler e w'
       | done => done
       end.

(** [try: body / finally: fin].  [fin] always runs; when it raises,
    its exception replaces whatever [body] produced. *)
Definition try_finally {A} (body : M A) (fin : M unit) : M A :=
  λ w, match body w with
       | (r, w1) => match fin w1 with
                    | (Normal _, w2) => (r, w2)
                    | (Raised e, w2) => (Raised e, w2)
                    end
       end.

Notation "'let*' x ':=' m 'in' k" := (bind m (λ x, k))
  (at level 10, x name, m at level 100, k at level 200, only parsing).
Notation "m1 ';;;' m2" := (bind m1 (λ _, m2))
  (at level 100, m2 at level 200, right associativity, only parsing).

(** [_task_results[task_id]]: a missing key raises [KeyError]. *)
Definition get_slot (task_id : string) : M Slot := λ w,
  match _task_results w !! task_id with
  | Some s => (Normal s, w)
  | None => (Raised (KeyError task_id), w)
  end.

(** [_task_results[task_id]["result"] = r] *)
Definition set_result (task_id : string) (r : Json) : M unit :=
  let* s := get_slot task_id in
  λ w, (Normal tt,
        with_results (<[task_id := mkSlot (event s) (Some r)]> (_task_results w)) w).

(** [_task_results[task_id]["event"].set()] *)
Definition set_event (task_id : string) : M unit :=
  let* s := get_slot task_id in
  λ w, (Normal tt,
        with_results (<[task_id := mkSlot true (result s)]> (_task_results w)) w).

(** [_task_results[task_id]["result"]] *)
Definition get_result (task_id : string) : M (option Json) :=
  let* s := get_slot task_id in ret (result s).

(** [del _task_results[task_id]] *)
Definition del_slot (task_id : string) : M unit :=
  let* _ := get_slot task_id in
  λ w, (Normal tt, with_results (delete task_id (_task_results w)) w).

(** [_task_results[task_id] = {"event": ev, "result": None}] with a new,
    unset [threading.Event]. *)
Definition new_slot (task_id : string) : M unit := λ w,
  (Normal tt, with_results (<[task_id := mkSlot false None]> (_task_results w)) w).

(** [_task_queue.empty()], [_task_queue.get_nowait()], [_task_queue.put(t)] *)
Definition queue_empty : M bool := λ w,
  (Normal (match _task_queue w with [] => true | _ => false end), w).
Definition get_nowait : M Task := λ w,
  match _task_queue w with
  | [] => (Raised QueueEmpty, w)
  | t :: q => (Normal t, with_queue q w)
  end.
Definition queue_put (t : Task) : M unit := λ w,
  (Normal tt, with_queue (_task_queue w ++ [t]) w).

(** [fn(payload)], run on the Fusion thread against the open document. *)
Definition call (fn : Handler) (payload : Json) : M Json := λ w,
  match fn payload (host w) with
  | (r, h) => (r, with_host h w)
  end.

(** [str(uuid4())] *)
Definition str_uuid4 : M string := λ w,
  (Normal (uuid4 (uuids_drawn w)), with_drawn (S (uuids_drawn w)) w).

(** [app.fireCustomEvent(CUSTOM_EVENT_ID)]: asks Fusion to call [notify] on
    its own thread later. *)
Definition fireCustomEvent : M unit := λ w,
  (Normal tt, with_fired (S (events_fired w)) w).

(** [ui.messageBox(text)] *)
Definition messageBox (text : string) : M unit := λ w,
  (Normal tt, with_boxes (message_boxes w ++ [text]) w).

(** The three shapes of a result dict. *)
Definition ok_result (out : Json) : Json :=
  JObj [("ok", JBool true); ("result", out)].
Definition error_result (e : PyException) : Json :=
  JObj [("ok", JBool false); ("error", JStr (exc_str e));
        ("trace", JStr (format_exc (tb_frames e) e))].
Definition timeout_result : Json :=
  JObj [("ok", JBool false); ("error", JStr "Timeout waiting for Fusion execution.")].

(** *** _ExecEventHandler.notify *)

(** The body of the [while] loop for one dequeued task. *)
Definition exec_task (t : Task) : M unit :=
  match t with
  | (task_id, fn, payload) =>
    try_finally
      (try_except
         (let* out := call fn payload in
          set_result task_id (ok_result out))
         (λ e, set_result task_id (error_result e)))
      (set_event task_id)
  end.

(** [while not _task_queue.empty(): ...].  Nothing is enqueued while the
    loop runs here, so it makes at most one pass per queued task and [fuel]
    is the queue length. *)
Fixpoint drain (fuel : nat) : M unit :=
  match fuel with
  | O => ret tt
  | S fuel' =>
    let* empty := queue_empty in
    if (empty : bool) then ret tt
    else let* t := get_nowait in
         exec_task t ;;;
         drain fuel'
  end.

Definition notify : M unit :=
  try_except
    (λ w, drain (length (_task_queue w)) w)
    (λ e,
       try_except
         (λ w, if ui w
               then messageBox ("FusionBridge custom event error:" +:+ nl +:+
                                format_exc (tb_frames e) e) w
               else ret tt w)
         (λ _, ret tt)).

(** *** _run_on_fusion_thread *)

(** Lines 75-80 as one request thread runs them. *)
Definition post (fn : Handler) (payload : Json) : M string :=
  let* task_id := str_uuid4 in
  new_slot task_id ;;;
  queue_put (task_id, fn, payload) ;;;
  fireCustomEvent ;;;
  ret task_id.

(** Lines 83-87. *)
Definition collect (task_id : string) : M Json :=
  let* res := get_result task_id in
  del_slot task_id ;;;
  match res with
  | None => ret timeout_result
  | Some r => ret r
  end.

(** What the rest of the process can do between two statements of one
    request thread: a run of [notify] on the Fusion thread comes to its end
    (this is the moment its writes to the slots land; its handlers may have
    been running for any time before); another request thread posts a task
    and parks; the [i]-th parked request thread wakes up and collects. *)
Inductive Action : Type :=
| FusionNotifies
| RequestArrives (fn : Handler) (payload : Json)
| RequestLeaves (i : nat).

Definition others (a : Action) (w : World) : World :=
  match a with
  | FusionNotifies => snd (notify w)
  | RequestArrives fn payload =>
    match post fn payload w with
    | (Normal task_id, w') => with_waiting (waiting w' ++ [task_id]) w'
    | (Raised _, w') => w'
    end
  | RequestLeaves i =>
    match waiting w !! i with
    | Some task_id => snd (collect task_id (with_waiting (delete i (waiting w)) w))
    | None => w
    end
  end.

Definition run_others (l : list Action) : M unit := λ w,
  (Normal tt, foldl (λ w a, others a w) w l).

Definition event_is_set (task_id : string) (w : World) : bool :=
  match _task_results w !! task_id with
  | Some s => event s
  | None => false
  end.

(** [ev.wait(timeout)].  [sched] lists what the rest of the process does
    from now on, each action with the delay since the previous one.  The
    call returns [True] as soon as the event is set and [False] once
    [timeout] has passed.  The Fusion thread reaches [ev] only through the
    slot, which this thread alone removes, and only after the wait. *)
Fixpoint ev_wait (timeout : nat) (task_id : string)
    (sched : list (nat * Action)) (w : World) : Completion bool * World :=
  if event_is_set task_id w then (Normal true, w)
  else match sched with
       | [] => (Normal false, tick timeout w)
       | (d, a) :: rest =>
         if d <? timeout
         then ev_wait (timeout - d) task_id rest (others a (tick d w))
         else (Normal false, tick timeout w)
       end.

(** The actions of the rest of the process that fall between the
    statements of one call of [_run_on_fusion_thread]. *)
Record Interleaving : Type := mkInterleaving {
  after_uuid : list Action;
  after_slot : list Action;
  after_put : list Action;
  during_wait : list (nat * Action);
  after_wait : list Action;
  after_read : list Action
}.

(** Lines 75-82; yields [task_id] and what [ev.wait] returned. *)
Definition post_and_wait (fn : Handler) (payload : Json) (il : Interleaving)
    : M (string * bool) :=
  let* task_id := str_uuid4 in
  run_others (after_uuid il) ;;;
  new_slot task_id ;;;
  run_others (after_slot il) ;;;
  queue_put (task_id, fn, payload) ;;;
  run_others (after_put il) ;;;
  fireCustomEvent ;;;
  let* signalled := ev_wait 30 task_id (during_wait il) in
  ret (task_id, signalled).

Definition _run_on_fusion_thread (fn : Handler) (payload : Json)
    (il : Interleaving) : M Json :=
  let* tw := post_and_wait fn payload il in
  run_others (after_wait il) ;;;
  let* res := get_result (fst tw) in
  run_others (after_read il) ;;;
  del_slot (fst tw) ;;;
  match res with
  | None => ret timeout_result
  | Some r => ret r
  end.

(** *** The tool registry *)

(** The handler functions of the module. *)
Inductive ToolFn : Type :=
| _ping | _get_state | _list_bodies | _get_last_body
| _create_sketch_on_plane | _create_sketch_rect_xy | _create_sketch_circle_xy
| _create_sketch_two_circles_xy | _create_sketch_on_last_body_top
| _sketch_center_rectangle | _sketch_two_circles_current | _sketch_line
| _extrude_last_profile | _extrude_profile | _revolve_profile
| _hole_on_last_body_top_face | _hole_bolt_circle_one
| _circular_pattern_last_feature | _countersink_hole_on_last_body_top_face
| _delete_all_bodies | _combine_all_bodies | _circular_pattern_last_body
| _component_from_last_body | _rigid_joint_last_two_components
| _create_spur_gear_involute | _create_rack_gear | _create_helical_gear
| _create_internal_gear | _create_bevel_gear.

(** What the handlers that call into the Fusion API ([adsk]) do. *)
Variable fusion_api : ToolFn → Handler.

Definition handler_of (f : ToolFn) : Handler :=
  match f with
  | _ping => λ _ h, (Normal (JObj [("message", JStr "pong")]), h)
  | _create_helical_gear => λ _ h,
      (Raised (Exception_ "Helical gear not implemented yet (needs helix+sweep per tooth)."), h)
  | _create_internal_gear => λ _ h,
      (Raised (Exception_ "Internal gear not implemented yet (needs ring blank + internal tooth cuts)."), h)
  | _create_bevel_gear => λ _ h,
      (Raised (Exception_ "Bevel gear not implemented yet (needs conical geometry + lofted tooth)."), h)
  | f => fusion_api f
  end.

Definition _TOOL_MAP : list (string * ToolFn) :=
  [ ("ping", _ping);
    ("get_state", _get_state);
    ("list_bodies", _list_bodies);
    ("get_last_body", _get_last_body);
    ("create_sketch_on_plane", _create_sketch_on_plane);
    ("create_sketch_rect_xy", _create_sketch_rect_xy);
    ("create_sketch_circle_xy", _create_sketch_circle_xy);
    ("create_sketch_two_circles_xy", _create_sketch_two_circles_xy);
    ("create_sketch_on_last_body_top", _create_sketch_on_last_body_top);
    ("sketch_center_rectangle", _sketch_center_rectangle);
    ("sketch_two_circles_current", _sketch_two_circles_current);
    ("sketch_line", _sketch_line);
    ("extrude_last_profile", _extrude_last_profile);
    ("extrude_profile", _extrude_profile);
    ("revolve_profile", _revolve_profile);
    ("hole_on_last_body_top_face", _hole_on_last_body_top_face);
    ("hole_bolt_circle_one", _hole_bolt_circle_one);
    ("circular_pattern_last_feature", _circular_pattern_last_feature);
    ("countersink_hole_on_last_body_top_face", _countersink_hole_on_last_body_top_face);
    ("delete_all_bodies", _delete_all_bodies);
    ("combine_all_bodies", _combine_all_bodies);
    ("circular_pattern_last_body", _circular_pattern_last_body);
    ("component_from_last_body", _component_from_last_body);
    ("rigid_joint_last_two_components", _rigid_joint_last_two_components);
    ("create_spur_gear_involute", _create_spur_gear_involute);
    ("create_rack_gear", _create_rack_gear);
    ("create_helical_gear", _create_helical_gear);
    ("create_internal_gear", _create_internal_gear);
    ("create_bevel_gear", _create_bevel_gear) ].

(** [tool not in _TOOL_MAP] followed by [_TOOL_MAP[tool]]: hashing [tool]
    comes first. *)
Definition registered (tool : Json) : Completion (option ToolFn) :=
  if hashable tool
  then Normal (match tool with
               | JStr name => assoc name _TOOL_MAP
               | _ => None
               end)
  else Raised TypeError_unhashable.

(** [list(_TOOL_MAP.keys())] *)
Definition available : list Json := JStr <$> (fst <$> _TOOL_MAP).

(** How an f-string prints a value that is not a string. *)
Variable repr : Json → string.

Definition _dispatch_tool (payload : Json) (il : Interleaving) : M Json :=
  match payload with
  | JObj fields =>
    let tool := get "tool" fields in
    let args := or_ (get_or "args" (JObj []) fields) (JObj []) in
    match registered tool with
    | Raised e => raise e
    | Normal None =>
      ret (JObj [("ok", JBool false);
                 ("error", JStr ("Unknown tool '" +:+ format_value repr tool +:+ "'."));
                 ("available", JArr available)])
    | Normal (Some f) => _run_on_fusion_thread (handler_of f) args il
    end
  | _ => raise AttributeError_get
  end.

(** *** The HTTP handler *)

(** What [_Handler] reads of a request: the method, the path, the value
    of [headers.get("X-Token")], the value of
    [headers.get("Content-Length")] and the bytes that follow the headers. *)
Record Request : Type := mkRequest {
  command : string;
  path : string;
  x_token : option string;
  content_length : option string;
  rfile : string
}.

(** What is written back: a JSON object by [_json_response], or the error
    page of [send_error]. *)
Inductive Body : Type :=
| JsonBody (obj : Json)
| ErrorPage (message : string).

Definition Response : Type := nat * Body.

Definition _json_response (code : nat) (obj : Json) : M Response :=
  ret (code, JsonBody obj).

Definition _auth_ok (r : Request) : bool :=
  match x_token r with
  | Some t => String.eqb t AUTH_TOKEN
  | None => false
  end.

Definition unauthorized : Json := JObj [("ok", JBool false); ("error", JStr "unauthorized")].
Definition not_found : Json := JObj [("ok", JBool false); ("error", JStr "not found")].
Definition invalid_json : Json := JObj [("ok", JBool false); ("error", JStr "invalid json")].
Definition pong : Json :=
  JObj [("ok", JBool true); ("result", JObj [("message", JStr "pong")])].

Definition do_GET (r : Request) (il : Interleaving) : M Response :=
  if negb (_auth_ok r) then _json_response 401 unauthorized
  else if String.eqb (path r) "/state" then
    let* res := _run_on_fusion_thread (handler_of _get_state) (JObj []) il in
    _json_response 200 res
  else if String.eqb (path r) "/ping" then _json_response 200 pong
  else _json_response 404 not_found.

(** [json.loads] and [int], from the standard library. *)
Variable json_loads : string → Completion Json.
Variable int_ : string → option Z.

Definition do_POST (r : Request) (il : Interleaving) : M Response :=
  if negb (_auth_ok r) then _json_response 401 unauthorized
  else if negb (String.eqb (path r) "/tool") then _json_response 404 not_found
  else
    let text := default "0" (content_length r) in
    match int_ text with
    | None => raise (ValueError_int text)
    | Some length =>
      let raw := if (0 <? length)%Z
                 then String.substring 0 (Z.to_nat length) (rfile r)
                 else "{}" in
      match json_loads raw with
      | Raised _ => _json_response 400 invalid_json
      | Normal payload =>
        let* res := _dispatch_tool payload il in
        _json_response 200 res
      end
    end.

(** The last step of [BaseHTTPRequestHandler.handle_one_request], for a
    request that the base class has read and accepted ([parse_request]
    below): the request goes to the method [do_] + [command] when the class
    defines it, and is answered with [send_error(501)] otherwise.
    [_Handler] defines [do_GET] and [do_POST]. *)
Definition handle_one_request (r : Request) (il : Interleaving) : M Response :=
  if String.eqb (command r) "GET" then do_GET r il
  else if String.eqb (command r) "POST" then do_POST r il
  else ret (501, ErrorPage ("Unsupported method (" +:+ repr (JStr (command r)) +:+ ")")).

(** *** The base class, before the request reaches [_Handler] *)

(** [s.lstrip(chars)] and [s.rstrip(chars)] for the characters that [p]
    holds of. *)
Fixpoint lstrip_chars (p : ascii → bool) (s : string) : string :=
  match s with
  | String c r => if p c then lstrip_chars p r else s
  | EmptyString => EmptyString
  end.
Definition rstrip_chars (p : ascii → bool) (s : string) : string :=
  String.rev (lstrip_chars p (String.rev s)).

Definition is_cr_or_lf (c : ascii) : bool :=
  (nat_of_ascii c =? 13) || (nat_of_ascii c =? 10).
Definition is_slash (c : ascii) : bool := Ascii.eqb c "/"%char.

(** [s.split()]: the runs of characters that are not blanks.  [word] holds
    the run being read, last character first. *)
Fixpoint split_blanks (s : string) (word : string) : list string :=
  match s with
  | EmptyString =>
    match word with EmptyString => [] | _ => [String.rev word] end
  | String c r =>
    if is_space c
    then match word with
         | EmptyString => split_blanks r EmptyString
         | _ => String.rev word :: split_blanks r EmptyString
         end
    else split_blanks r (String c word)
  end.
Definition split (s : string) : list string := split_blanks s EmptyString.

(** [s.split(c)] for a one-character [c]. *)
Fixpoint split_at (c : ascii) (s : string) (piece : string) : list string :=
  match s with
  | EmptyString => [String.rev piece]
  | String c' r =>
    if Ascii.eqb c' c then String.rev piece :: split_at c r EmptyString
    else split_at c r (String c' piece)
  end.

(** What follows the prefix [p] in [s], when [s.startswith(p)]. *)
Fixpoint after_prefix (p s : string) : option string :=
  match p with
  | EmptyString => Some s
  | String a p' =>
    match s with
    | String b s' => if Ascii.eqb a b then after_prefix p' s' else None
    | EmptyString => None
    end
  end.

(** What the base class has read when it decides what to do with a
    connection: the request line as [rfile.readline(65537)] returns it,
    decoded as ISO 8859-1; what [http.client.parse_headers] makes of the
    header lines, which is an exception or the headers, of which [_Handler]
    reads two; and the bytes after the headers. *)
Inductive HeaderBlock : Type :=
| LineTooLong
| TooManyHeaders
| Headers (x_token content_length : option string).

Record Connection : Type := mkConnection {
  raw_requestline : string;
  header_block : HeaderBlock;
  after_headers : string
}.

(** The version word of a request line: [None] where the [try] block of
    [parse_request] raises [ValueError], else the text after [HTTP/] and
    the two numbers. *)
Definition read_version (version : string) : option (string * Z * Z) :=
  match after_prefix "HTTP/" version with
  | None => None
  | Some base_version_number =>
    match split_at "."%char base_version_number EmptyString with
    | [major; minor] =>
      match int_ major, int_ minor with
      | Some a, Some b => Some (base_version_number, a, b)
      | _, _ => None
      end
    | _ => None
    end
  end.

(** How [parse_request] ends: without a response, with [send_error], or
    with the request parsed.  [status_line] tells whether a response to
    this request carries a status line and headers: it does not while
    [request_version] is ["HTTP/0.9"], the value it has until the version
    word has been accepted. *)
Inductive Parse : Type :=
| Dropped
| Refused (status_line : bool) (code : nat) (message : string)
| Accepted (status_line : bool) (r : Request).

(** [BaseHTTPRequestHandler.parse_request].  The class keeps
    [protocol_version = "HTTP/1.0"], so the [Expect] clause at its end
    never applies. *)
Definition parse_request (c : Connection) : Parse :=
  let requestline := rstrip_chars is_cr_or_lf (raw_requestline c) in
  let words := split requestline in
  match words with
  | [] => Dropped
  | _ =>
    let checked : (nat * string) + string :=
      if 3 <=? length words then
        let version := List.last words EmptyString in
        match read_version version with
        | None => inl (400, "Bad request version (" +:+ repr (JStr version) +:+ ")")
        | Some (base_version_number, major, minor) =>
          if ((2 <? major) || ((major =? 2) && (0 <=? minor)))%Z
          then inl (505, "Invalid HTTP version (" +:+ base_version_number +:+ ")")
          else inr version
        end
      else inr "HTTP/0.9" in
    match checked with
    | inl (code, message) => Refused false code message
    | inr request_version =>
      let status_line := negb (String.eqb request_version "HTTP/0.9") in
      let with_headers (command path : string) : Parse :=
        let path :=
          match after_prefix "//" path with
          | Some _ => "/" +:+ lstrip_chars is_slash path
          | None => path
          end in
        match header_block c with
        | LineTooLong => Refused status_line 431 "Line too long"
        | TooManyHeaders => Refused status_line 431 "Too many headers"
        | Headers token content_length =>
          Accepted status_line (mkRequest command path token content_length (after_headers c))
        end in
      match words with
      | [command; path] =>
        if String.eqb command "GET" then with_headers command path
        else Refused status_line 400
               ("Bad HTTP/0.9 request type (" +:+ repr (JStr command) +:+ ")")
      | [command; path; _] => with_headers command path
      | _ => Refused status_line 400
               ("Bad request syntax (" +:+ repr (JStr requestline) +:+ ")")
      end
    end
  end.

(** What goes back on the connection: nothing, or the response that
    [send_response] or [send_error] was called with. *)
Inductive Answer : Type :=
| NoResponse
| Sent (status_line : bool) (response : Response).

(** [BaseHTTPRequestHandler.handle]: with [protocol_version = "HTTP/1.0"]
    the connection is closed after one pass through the whole of
    [handle_one_request], which reads the request line, has it parsed and
    dispatches. *)
Definition handle (c : Connection) (il : Interleaving) : M Answer :=
  if (65536 <? Z.of_nat (String.length (raw_requestline c)))%Z
  then ret (Sent true (414, ErrorPage "Request-URI Too Long"))
  else
    match raw_requestline c with
    | EmptyString => ret NoResponse
    | _ =>
      match parse_request c with
      | Dropped => ret NoResponse
      | Refused status_line code message =>
        ret (Sent status_line (code, ErrorPage message))
      | Accepted status_line r =>
        let* response := handle_one_request r il in
        ret (Sent status_line response)
      end
    end.
(** *** Invariants of the bookkeeping *)

(** The result dict that [notify] stores for a handler call. *)
Definition outcome (c : Completion Json) : Json :=
  match c with
  | Normal out => ok_result out
  | Raised e => error_result e
  end.

Definition task_id_of (t : Task) : string := fst (fst t).

(** The document after the handlers of the tasks in [q] have run on it one
    after the other, first to last. *)
Definition handlers_in_order (q : list Task) (h : Host) : Host :=
  foldl (λ h t, snd (snd (fst t) (snd t) h)) h q.

(** Worlds that differ only in what the bridge bookkeeping ignores. *)
Definition same_bridge (w w' : World) : Prop :=
  _task_queue w' = _task_queue w ∧ _task_results w' = _task_results w ∧
  uuids_drawn w' = uuids_drawn w ∧ waiting w' = waiting w.

(** [task_id] came out of one of the first [n] calls of [uuid4]. *)
Definition drawn_before (n : nat) (task_id : string) : Prop :=
  ∃ k, k < n ∧ task_id = uuid4 k.

(** ... and not out of call number [k0]. *)
Definition other_id (k0 n : nat) (task_id : string) : Prop :=
  ∃ k, k < n ∧ k ≠ k0 ∧ task_id = uuid4 k.

(** Every identifier the bridge holds was produced by [uuid4], and no two
    parked request threads hold the same one. *)
Record WF (w : World) : Prop := mkWF {
  wf_results : ∀ task_id, is_Some (_task_results w !! task_id) →
               drawn_before (uuids_drawn w) task_id;
  wf_queue : Forall (λ t, drawn_before (uuids_drawn w) (task_id_of t)) (_task_queue w);
  wf_waiting : Forall (drawn_before (uuids_drawn w)) (waiting w);
  wf_nodup : NoDup (waiting w)
}.

(** A slot whose event is set has its result filled in, and a filled-in
    result satisfies [P]. *)
Definition slot_ok (P : Json → Prop) (s : Slot) : Prop :=
  (event s = true → is_Some (result s)) ∧ ∀ r, result s = Some r → P r.

(** The view of the request thread that drew identifier number [k0] for the
    call [fn(payload)], while it is between its statements; [has_slot] says
    whether it is past line 77 and before line 84. *)
Record Mine (k0 : nat) (fn : Handler) (payload : Json) (P : Json → Prop)
    (has_slot : bool) (w : World) : Prop := mkMine {
  mine_drawn : k0 < uuids_drawn w;
  mine_waiting : Forall (other_id k0 (uuids_drawn w)) (waiting w);
  mine_nodup : NoDup (waiting w);
  mine_queue :
    Forall (λ t, other_id k0 (uuids_drawn w) (task_id_of t) ∨
                 (has_slot = true ∧ t = (uuid4 k0, fn, payload)))
           (_task_queue w);
  mine_results :
    ∀ task_id s, _task_results w !! task_id = Some s →
      other_id k0 (uuids_drawn w) task_id ∨ (has_slot = true ∧ task_id = uuid4 k0);
  mine_slot :
    if has_slot
    then ∃ s, _task_results w !! uuid4 k0 = Some s ∧ slot_ok P s
    else _task_results w !! uuid4 k0 = None
}.

End Bridge.
End BridgeServer.

(** ** chat_cli.py *)

Module ChatCli.
Import Py.

(** An entry of the conversation: [{"role": ..., "content": ...}]. *)
Record Message : Type := mkMessage {
  role : string;
  content : string
}.

(** What a run does to the outside: a call of the model with the
    conversation so far, a [GET] on the bridge, a [POST /tool] on it. *)
Inductive Effect : Type :=
| ModelCall (input : list Message)
| HttpGet (path : string)
| HttpPost (tool : string) (args : Json).

Definition is_model_call (e : Effect) : bool :=
  match e with ModelCall _ => true | _ => false end.
Definition is_http (e : Effect) : bool :=
  match e with ModelCall _ => false | _ => true end.

(** How many model calls and how many requests to the bridge a list of
    effects holds. *)
Definition model_calls (effects : list Effect) : nat :=
  length (List.filter is_model_call effects).
Definition tool_dispatches (effects : list Effect) : nat :=
  length (List.filter is_http effects).

Definition TOOL_ROUTER : list (string * (string * string)) :=
  [ ("fusion_ping", ("GET", "/ping"));
    ("fusion_get_state", ("GET", "/state"));
    ("fusion_create_sketch_on_plane", ("POST", "create_sketch_on_plane"));
    ("fusion_create_sketch_rect_xy", ("POST", "create_sketch_rect_xy"));
    ("fusion_create_sketch_circle_xy", ("POST", "create_sketch_circle_xy"));
    ("fusion_create_sketch_two_circles_xy", ("POST", "create_sketch_two_circles_xy"));
    ("fusion_create_sketch_on_last_body_top", ("POST", "create_sketch_on_last_body_top"));
    ("fusion_sketch_center_rectangle", ("POST", "sketch_center_rectangle"));
    ("fusion_sketch_two_circles_current", ("POST", "sketch_two_circles_current"));
    ("fusion_sketch_line", ("POST", "sketch_line"));
    ("fusion_extrude_last_profile", ("POST", "extrude_last_profile"));
    ("fusion_extrude_profile", ("POST", "extrude_profile"));
    ("fusion_revolve_profile", ("POST", "revolve_profile"));
    ("fusion_hole_on_last_body_top_face", ("POST", "hole_on_last_body_top_face"));
    ("fusion_hole_bolt_circle_one", ("POST", "hole_bolt_circle_one"));
    ("fusion_circular_pattern_last_feature", ("POST", "circular_pattern_last_feature"));
    ("fusion_countersink_hole_on_last_body_top_face", ("POST", "countersink_hole_on_last_body_top_face"));
    ("fusion_list_bodies", ("POST", "list_bodies"));
    ("fusion_get_last_body", ("POST", "get_last_body"));
    ("fusion_delete_all_bodies", ("POST", "delete_all_bodies"));
    ("fusion_combine_all_bodies", ("POST", "combine_all_bodies"));
    ("fusion_circular_pattern_last_body", ("POST", "circular_pattern_last_body"));
    ("fusion_component_from_last_body", ("POST", "component_from_last_body"));
    ("fusion_rigid_joint_last_two_components", ("POST", "rigid_joint_last_two_components"));
    ("fusion_create_spur_gear", ("POST", "create_spur_gear_involute"));
    ("fusion_create_rack_gear", ("POST", "create_rack_gear"));
    ("fusion_create_helical_gear", ("POST", "create_helical_gear"));
    ("fusion_create_internal_gear", ("POST", "create_internal_gear"));
    ("fusion_create_bevel_gear", ("POST", "create_bevel_gear")) ].

Section Agent.

(** [json.loads], [json.dumps(obj)], [json.dumps(obj, indent=2)] and the
    [repr] that an f-string applies to a value that is not a string. *)
Variable json_loads : string → Completion Json.
Variable json_dumps : Json → string.
Variable json_dumps_indent2 : Json → string.
Variable repr : Json → string.

(** The model: [resp.output_text] for a given conversation. *)
Variable llm : list Message → option string.

(** The bridge as [httpx] shows it: after the effects so far, the decoded
    body of the response to a request, or the exception that the request
    or [raise_for_status] raises. *)
Variable http_get : list Effect → string → Completion Json.
Variable http_post : list Effect → string → Json → Completion Json.

Definition fusion_get (path : string) (hist : list Effect)
    : Completion Json * list Effect :=
  (http_get hist path, hist ++ [HttpGet path]).

Definition fusion_tool (tool : string) (args : Json) (hist : list Effect)
    : Completion Json * list Effect :=
  let args := or_ args (JObj []) in
  (http_post hist tool args, hist ++ [HttpPost tool args]).

Definition _parse_json_only (text : string) : Completion Json :=
  let text := strip text in
  let text :=
    if negb (startswith "{"%char text) then
      let i := find "{"%char text in
      let j := rfind "}"%char text in
      if negb (i =? -1)%Z && negb (j =? -1)%Z && (i <? j)%Z
      then slice text i (j + 1)
      else text
    else text in
  json_loads text.

(** Modelled on the words of the specification, for comparison with
    [_parse_json_only]: parse the text as it is; only if that fails, parse
    what lies between its first [{] and its last [}]. *)
Definition spec_parse_with_recovery (text : string) : Completion Json :=
  let text := strip text in
  match json_loads text with
  | Normal v => Normal v
  | Raised e =>
    let i := find "{"%char text in
    let j := rfind "}"%char text in
    if negb (i =? -1)%Z && negb (j =? -1)%Z && (i <? j)%Z
    then json_loads (slice text i (j + 1))
    else Raised e
  end.

Definition tool_not_allowed (tool_name : Json) : Json :=
  JObj [("ok", JBool false);
        ("error", JStr ("Tool not allowed: " +:+ format_value repr tool_name))].

Definition _execute_tool (tool_name args : Json) (hist : list Effect)
    : Completion Json * list Effect :=
  if hashable tool_name then
    match tool_name with
    | JStr name =>
      match assoc name TOOL_ROUTER with
      | None => (Normal (tool_not_allowed tool_name), hist)
      | Some kind =>
        if String.eqb (fst kind) "GET"
        then fusion_get (snd kind) hist
        else fusion_tool (snd kind) args hist
      end
    | _ => (Normal (tool_not_allowed tool_name), hist)
    end
  else (Raised TypeError_unhashable, hist).

Definition parse_failure (raw : string) (e : PyException) : string :=
  "Model did not return valid JSON." +:+ nl +:+ "Raw:" +:+ nl +:+ raw +:+ nl +:+
  "Error: " +:+ exc_str e.

Definition tool_result (tool_name args result : Json) : Json :=
  JObj [("tool_result",
         JObj [("tool_name", tool_name); ("args", args); ("result", result)])].

(** The [for _ in range(steps)] loop of [agent_turn] and what follows it.
    The reply is a string except for a [final] action, whose [message] is
    returned as it came. *)
Fixpoint agent_loop (steps : nat) (messages : list Message) (hist : list Effect)
    : Completion (Json * list Message) * list Effect :=
  match steps with
  | O => (Normal (JStr "Max steps reached without finishing.", messages), hist)
  | S steps' =>
    let raw := strip (default EmptyString (llm messages)) in
    let hist := hist ++ [ModelCall messages] in
    match _parse_json_only raw with
    | Raised e =>
      (Normal (JStr (parse_failure raw e), messages ++ [mkMessage "assistant" raw]), hist)
    | Normal cmd =>
      let messages := messages ++ [mkMessage "assistant" (json_dumps cmd)] in
      match cmd with
      | JObj fields =>
        let action := get "action" fields in
        if eq_str action "final" then
          (Normal (get_or "message" (JStr EmptyString) fields, messages), hist)
        else if negb (eq_str action "tool") then
          (Normal (JStr ("Unknown action: " +:+ repr cmd), messages), hist)
        else
          let tool_name := get "tool_name" fields in
          let args := or_ (get "args" fields) (JObj []) in
          if negb (truthy tool_name) then
            (Normal (JStr ("Missing tool_name in: " +:+ repr cmd), messages), hist)
          else
            match _execute_tool tool_name args hist with
            | (r, hist) =>
              let result :=
                match r with
                | Normal v => v
                | Raised e => JObj [("ok", JBool false); ("error", JStr (exc_str e))]
                end in
              agent_loop steps'
                (messages ++
                 [mkMessage "user" (json_dumps_indent2 (tool_result tool_name args result))])
                hist
            end
      | _ => (Raised AttributeError_get, hist)
      end
    end
  end.

(** A model output that the loop takes as a tool call: it parses to an
    object whose [action] is ["tool"] and whose [tool_name] is truthy. *)
Definition is_tool_call (output : option string) : Prop :=
  ∃ fields,
    _parse_json_only (strip (default EmptyString output)) = Normal (JObj fields) ∧
    eq_str (get "action" fields) "tool" = true ∧
    truthy (get "tool_name" fields) = true.

(** [agent_turn(user_text, messages)], run after the effects [hist]. *)
Definition agent_turn (user_text : string) (messages : list Message)
    (hist : list Effect) : Completion (Json * list Message) * list Effect :=
  agent_loop 12 (messages ++ [mkMessage "user" user_text]) hist.

End Agent.
End ChatCli.

(** ** run_agent.py *)

Module RunAgent.
Import Py.
Import ChatCli.

(** What a value of [ALLOWED_TOOLS] does with [args]. *)
Inductive Call : Type :=
| Get (path : string)
| Post (tool : string).

Definition ALLOWED_TOOLS : list (string * Call) :=
  [ ("fusion_ping", Get "/ping");
    ("fusion_get_state", Get "/state");
    ("fusion_create_sketch_rect_xy", Post "create_sketch_rect_xy");
    ("fusion_extrude_last_profile", Post "extrude_last_profile") ].

Definition SYSTEM : string :=
  "You are a CAD agent controlling Autodesk Fusion 360." +:+ nl +:+
  "You cannot directly edit CAD. You must request tool calls from the runtime." +:+ nl +:+
  nl +:+
  "Available tools:" +:+ nl +:+
  "1) fusion_ping(args={})" +:+ nl +:+
  "2) fusion_get_state(args={})" +:+ nl +:+
  "3) fusion_create_sketch_rect_xy(args={" +:+ quoted "x_mm" +:+ ": float, " +:+
    quoted "y_mm" +:+ ": float})" +:+ nl +:+
  "4) fusion_extrude_last_profile(args={" +:+ quoted "distance_mm" +:+ ": float, " +:+
    quoted "operation" +:+ ": " +:+ quoted "newBody|join|cut|intersect" +:+ "})" +:+ nl +:+
  nl +:+
  "Rules:" +:+ nl +:+
  "- Always verify with fusion_get_state before and after geometry ops." +:+ nl +:+
  "- If a tool returns ok:false or an error, explain and try a small recovery step." +:+ nl +:+
  "- Output MUST be valid JSON only with this schema:" +:+ nl +:+
  "  {" +:+ quoted "action" +:+ ": " +:+ quoted "tool" +:+ "|" +:+ quoted "final" +:+ ", " +:+
    quoted "tool_name" +:+ ": str|null, " +:+ quoted "args" +:+ ": object|null, " +:+
    quoted "message" +:+ ": str}" +:+ nl.

Definition GOAL : string :=
  "Goal:" +:+ nl +:+
  "1) Confirm we have an active design." +:+ nl +:+
  "2) Create a 40mm x 30mm rectangle on XY plane." +:+ nl +:+
  "3) Extrude 5mm as a new body." +:+ nl +:+
  "4) Verify result: bodies increased and timeline updated." +:+ nl.

Section Agent.

Variable json_loads : string → Completion Json.
Variable json_dumps_indent2 : Json → string.
Variable repr : Json → string.
Variable llm : list Message → option string.
Variable http_get : list Effect → string → Completion Json.
Variable http_post : list Effect → string → Json → Completion Json.

Definition extract_json (text : string) : Completion Json :=
  json_loads (strip text).

(** [tool_name not in ALLOWED_TOOLS] *)
Definition allowed (tool_name : Json) : Completion (option Call) :=
  if hashable tool_name
  then Normal (match tool_name with
               | JStr name => assoc name ALLOWED_TOOLS
               | _ => None
               end)
  else Raised TypeError_unhashable.

Definition run_call (c : Call) (args : Json) (hist : list Effect)
    : Completion Json * list Effect :=
  match c with
  | Get path => fusion_get http_get path hist
  | Post tool => fusion_tool http_post tool args hist
  end.

(** The [for step in range(max_steps)] loop of [main] and what follows it.
    A normal end yields what was printed. *)
Fixpoint main_loop (steps : nat) (messages : list Message) (hist : list Effect)
    : Completion Json * list Effect :=
  match steps with
  | O => (Raised (RuntimeError "Max steps reached without finishing."), hist)
  | S steps' =>
    let model_text := strip (default EmptyString (llm messages)) in
    let hist := hist ++ [ModelCall messages] in
    match extract_json model_text with
    | Raised e =>
      (Raised (RuntimeError ("Model did not return valid JSON." +:+ nl +:+ "Got:" +:+ nl +:+
                             model_text +:+ nl +:+ nl +:+ "Error: " +:+ exc_str e)), hist)
    | Normal cmd =>
      match cmd with
      | JObj fields =>
        if eq_str (get "action" fields) "final" then
          (Normal (get_or "message" (JStr EmptyString) fields), hist)
        else if negb (eq_str (get "action" fields) "tool") then
          (Raised (RuntimeError ("Unknown action: " +:+ repr cmd)), hist)
        else
          let tool_name := get "tool_name" fields in
          let args := or_ (get "args" fields) (JObj []) in
          match allowed tool_name with
          | Raised e => (Raised e, hist)
          | Normal None =>
            (Raised (RuntimeError ("Tool not allowed: " +:+ format_value repr tool_name)), hist)
          | Normal (Some c) =>
            match run_call c args hist with
            | (r, hist) =>
              let result :=
                match r with
                | Normal v => v
                | Raised e => JObj [("ok", JBool false); ("error", JStr (exc_str e))]
                end in
              main_loop steps'
                (messages ++
                 [mkMessage "assistant" model_text;
                  mkMessage "user" (json_dumps_indent2 (tool_result tool_name args result))])
                hist
            end
          end
      | _ => (Raised AttributeError_get, hist)
      end
    end
  end.

(** [main(max_steps)]; the script calls [main()], with the default 8. *)
Definition main (max_steps : nat) : Completion Json * list Effect :=
  main_loop max_steps [mkMessage "system" SYSTEM; mkMessage "user" GOAL] [].

Definition main_default : Completion Json * list Effect := main 8.

End Agent.
End RunAgent.

(** ** Sample inputs *)

Module Samples.
Import Py BridgeServer.

(** The document of the samples is the log of the handlers run on it. *)
Definition Doc : Type := list string.

Definition uuid (k : nat) : string := "task-" +:+ pretty k.

Definition frames (e : PyException) : string :=
  "  File bridge_server.py, in notify" +:+ nl.

(** A handler that returns [v], and one that raises [Exception(msg)]. *)
Definition returns (name : string) (v : Json) : @Handler Doc :=
  λ _ h, (Normal v, h ++ [name]).
Definition raises (name msg : string) : @Handler Doc :=
  λ _ h, (Raised (Exception_ msg), h ++ [name]).

(** The handlers behind the registry entries that call into Fusion. *)
Definition api (f : ToolFn) : @Handler Doc :=
  λ _ h, (Normal (JObj []), h ++ ["api"]).

(** The module right after [start()]. *)
Definition idle : @World Doc := mkWorld [] ∅ [] true [] 0 0 [] 0.

(** Nothing else happens during the call. *)
Definition quiet : @Interleaving Doc := mkInterleaving [] [] [] [] [] [].

(** Fusion handles the event 3 time units into the wait. *)
Definition served_in_time : @Interleaving Doc :=
  mkInterleaving [] [] [] [(3, FusionNotifies)] [] [].

(** Fusion handles the event after the wait has timed out and before the
    request thread reads the slot. *)
Definition served_just_too_late : @Interleaving Doc :=
  mkInterleaving [] [] [] [] [FusionNotifies] [].

(** Fusion stays busy; a second request arrives 5 time units into the
    wait. *)
Definition second_request_arrives : @Interleaving Doc :=
  mkInterleaving [] [] [] [(5, RequestArrives (returns "B" (JStr "b")) JNull)] [] [].

(** ... and a third one 5 time units later. *)
Definition two_more_requests_arrive : @Interleaving Doc :=
  mkInterleaving [] [] []
    [(5, RequestArrives (returns "B" (JStr "b")) JNull);
     (5, RequestArrives (returns "C" (JStr "c")) JNull)] [] [].

(** The module after the request for ["A"] has timed out and returned. *)
Definition A_gave_up : @World Doc :=
  snd (_run_on_fusion_thread uuid frames (returns "A" (JStr "a")) JNull
         second_request_arrives idle).
Definition A_gave_up_B_C_queued : @World Doc :=
  snd (_run_on_fusion_thread uuid frames (returns "A" (JStr "a")) JNull
         two_more_requests_arrive idle).

(** [int] on decimal digits. *)
Definition int_ (s : string) : option Z :=
  match s with
  | EmptyString => None
  | _ => match JsonText.read_digits 0 s with
         | (n, EmptyString) => Some n
         | _ => None
         end
  end.

(** [PUT /tool] without the token header. *)
Definition put_without_token : Request :=
  mkRequest "PUT" "/tool" None None EmptyString.

(** [GET /nowhere] with a wrong token. *)
Definition get_with_wrong_token : Request :=
  mkRequest "GET" "/nowhere" (Some "guess") None EmptyString.

(** [POST /tool] with the token and the body [{"tool":"nonexistent"}]. *)
Definition post_nonexistent : Request :=
  mkRequest "POST" "/tool" (Some AUTH_TOKEN) (Some "22")
    ("{" +:+ quoted "tool" +:+ ":" +:+ quoted "nonexistent" +:+ "}").

(** *** The agent *)

(** [{"action":"final","message":"ok"}] *)
Definition final_ok_text : string :=
  "{" +:+ quoted "action" +:+ ":" +:+ quoted "final" +:+ "," +:+
  quoted "message" +:+ ":" +:+ quoted "ok" +:+ "}".

Definition final_ok : Json :=
  JObj [("action", JStr "final"); ("message", JStr "ok")].

(** The model output of the parse-recovery example, and the same object
    followed by prose only. *)
Definition sure_thanks : string := "Sure! " +:+ final_ok_text +:+ " thanks".
Definition object_then_prose : string := final_ok_text +:+ " thanks".

(** [{"action":"tool","tool_name":"fusion_ping","args":{}}] and the same
    with a name that the router does not have. *)
Definition ping_call : string :=
  "{" +:+ quoted "action" +:+ ":" +:+ quoted "tool" +:+ "," +:+
  quoted "tool_name" +:+ ":" +:+ quoted "fusion_ping" +:+ "," +:+
  quoted "args" +:+ ":{}}".
Definition bogus_call : string :=
  "{" +:+ quoted "action" +:+ ":" +:+ quoted "tool" +:+ "," +:+
  quoted "tool_name" +:+ ":" +:+ quoted "fusion_teleport" +:+ "," +:+
  quoted "args" +:+ ":{}}".

(** Models that answer every conversation with the same text. *)
Definition always (text : string) : list ChatCli.Message → option string :=
  λ _, Some text.

(** A bridge that answers every request with [{"ok": true}]. *)
Definition bridge_get : list ChatCli.Effect → string → Completion Json :=
  λ _ _, Normal (JObj [("ok", JBool true)]).
Definition bridge_post : list ChatCli.Effect → string → Json → Completion Json :=
  λ _ _ _, Normal (JObj [("ok", JBool true)]).

Definition system_only : list ChatCli.Message :=
  [ChatCli.mkMessage "system" "You are a CAD agent."].

End Samples.

(** ** The bridge as a whole *)

Module BridgeSystem.
Import Py BridgeServer.

Section System.

Context {Host : Type}.
Variable uuid4 : nat → string.
Variable tb_frames : PyException → string.

(** The module globals when the add-in has just been loaded: an empty
    queue, an empty map, no identifier drawn. *)
Definition loaded (h : Host) (u : bool) : @World Host :=
  mkWorld [] ∅ h u [] 0 0 [] 0.

(** The globals after the threads of the process have taken the steps in
    [actions], one after the other. *)
Definition run (actions : list (@Action Host)) (w : @World Host) : @World Host :=
  foldl (λ w a, others uuid4 tb_frames a w) w actions.

(** What holds of the globals between any two such steps. *)
Record Sound (w : @World Host) : Prop := mkSound {
  (** no two parked request threads hold the same identifier *)
  sound_waiting : NoDup (waiting w);
  (** no identifier is queued twice *)
  sound_queue : NoDup (task_id_of <$> _task_queue w);
  (** the map holds a slot for each parked request thread and no other *)
  sound_slots : ∀ task_id, is_Some (_task_results w !! task_id) ↔ task_id ∈ waiting w;
  (** every identifier around came out of [uuid4] *)
  sound_drawn : ∀ task_id,
    task_id ∈ waiting w ∨ task_id ∈ task_id_of <$> _task_queue w →
    drawn_before uuid4 (uuids_drawn w) task_id;
  (** a slot whose event is set has its result *)
  sound_event : ∀ task_id s, _task_results w !! task_id = Some s →
    event s = true → is_Some (result s);
  (** a task whose result is in is no longer queued *)
  sound_served : ∀ task_id s, _task_results w !! task_id = Some s →
    is_Some (result s) → task_id ∉ task_id_of <$> _task_queue w;
  (** a slot that is still empty has its task in the queue *)
  sound_pending : ∀ task_id s, _task_results w !! task_id = Some s →
    result s = None → task_id ∈ task_id_of <$> _task_queue w;
  (** one custom event has been fired per identifier drawn *)
  sound_fired : events_fired w = uuids_drawn w
}.

End System.
End BridgeSystem.

(** ** The clients and the bridge together *)

Module EndToEnd.
Import Py BridgeServer ChatCli.

(** The JSON body that [fusion_tool] posts to [/tool]. *)
Definition request_body (tool : string) (args : Json) : Json :=
  JObj [("tool", JStr tool); ("args", args)].

(** An effect that the listener of the bridge has a route for: a [GET] of
    one of its two paths, or a [POST /tool] that names a key of [_TOOL_MAP]
    and carries arguments that [args or {}] leaves as they are. *)
Definition routed (e : Effect) : Prop :=
  match e with
  | ModelCall _ => True
  | HttpGet path => path = "/ping" ∨ path = "/state"
  | HttpPost tool args => is_Some (assoc tool _TOOL_MAP) ∧ or_ args (JObj []) = args
  end.

(** An effect that the four entries of [ALLOWED_TOOLS] of run_agent.py can
    produce. *)
Definition on_allowlist (e : Effect) : Prop :=
  match e with
  | ModelCall _ => True
  | HttpGet path => path = "/ping" ∨ path = "/state"
  | HttpPost tool _ => tool = "create_sketch_rect_xy" ∨ tool = "extrude_last_profile"
  end.

(** The entries that [agent_turn] and [main] add to the conversation carry
    one of these two roles. *)
Definition from_the_loop (m : Message) : Prop :=
  role m = "assistant" ∨ role m = "user".

(** A model call that is given the conversation [messages] and what was
    added to it since. *)
Definition sees (messages : list Message) (e : Effect) : Prop :=
  match e with
  | ModelCall input => ∃ more, input = messages ++ more
  | _ => True
  end.

(** The replies that [agent_turn] has: the fixed text of the exhausted
    budget, the report of a parse failure, the [message] of a [final]
    action, and the two reports of a command that cannot be run. *)
Inductive Reply (repr : Json → string) : Json → Prop :=
| reply_max_steps :
    Reply repr (JStr "Max steps reached without finishing.")
| reply_parse_failure raw e :
    Reply repr (JStr (parse_failure raw e))
| reply_final fields :
    eq_str (get "action" fields) "final" = true →
    Reply repr (get_or "message" (JStr EmptyString) fields)
| reply_unknown_action cmd :
    Reply repr (JStr ("Unknown action: " +:+ repr cmd))
| reply_missing_tool_name cmd :
    Reply repr (JStr ("Missing tool_name in: " +:+ repr cmd)).

(** The conversations that the model was called with, in the order of the
    calls. *)
Fixpoint model_inputs (effects : list Effect) : list (list Message) :=
  match effects with
  | [] => []
  | ModelCall input :: rest => input :: model_inputs rest
  | _ :: rest => model_inputs rest
  end.

(** [R] holds between each element of the list and the one after it. *)
Fixpoint chain {A : Type} (R : A → A → Prop) (l : list A) : Prop :=
  match l with
  | [] => True
  | a :: rest => match rest with [] => True | b :: _ => R a b end ∧ chain R rest
  end.

Section Conversation.

Variable json_loads : string → Completion Json.
Variable json_dumps : Json → string.
Variable json_dumps_indent2 : Json → string.
Variable llm : list Message → option string.

(** [next] is the conversation [input] followed by the two entries of one
    cycle of [agent_turn]: the tool call that the model answered [input]
    with, and a [tool_result] for the name and the arguments of that call. *)
Definition next_input (input next : list Message) : Prop :=
  ∃ fields result,
    _parse_json_only json_loads (strip (default EmptyString (llm input)))
      = Normal (JObj fields) ∧
    eq_str (get "action" fields) "tool" = true ∧
    next = input ++
           [mkMessage "assistant" (json_dumps (JObj fields));
            mkMessage "user"
              (json_dumps_indent2
                 (tool_result (get "tool_name" fields)
                    (or_ (get "args" fields) (JObj [])) result))].

(** [final] is what a turn whose last model call was given [input] leaves
    as the conversation: [input] and the one [assistant] entry of a cycle
    that ended the turn, or [input] and the two entries of a cycle after
    which the steps had run out. *)
Definition turn_end (input final : list Message) : Prop :=
  (∃ m, final = input ++ [mkMessage "assistant" m]) ∨ next_input input final.

(** [next] is the input of the model call that follows the one with
    [input] in a session: the next cycle of the same turn, or the first
    cycle of the next turn, which adds one of the texts [typed] to what the
    turn before left. *)
Definition next_in_session (typed : list string) (input next : list Message) : Prop :=
  next_input input next ∨
  ∃ final user_text,
    turn_end input final ∧ user_text ∈ typed ∧
    next = final ++ [mkMessage "user" user_text].

End Conversation.

End EndToEnd.

(** ** chat_cli.py, the session *)

Module ChatSession.
Import Py ChatCli.

(** [c.lower()] for a code point below 256: the capital letters are [A]
    to [Z] and U+00C0 to U+00DE without the multiplication sign U+00D7, and
    each has its small letter 32 places on. *)
Definition lower_char (c : ascii) : ascii :=
  let n := nat_of_ascii c in
  if ((65 <=? n) && (n <=? 90)) ||
     ((192 <=? n) && (n <=? 222) && negb (n =? 215))
  then ascii_of_nat (n + 32) else c.

(** [s.lower()] *)
Fixpoint lower (s : string) : string :=
  match s with
  | EmptyString => EmptyString
  | String c r => String (lower_char c) (lower r)
  end.

(** [user_text.lower() in {"exit", "quit"}] for [user_text = line.strip()]. *)
Definition leaves (line : string) : bool :=
  String.eqb (lower (strip line)) "exit" || String.eqb (lower (strip line)) "quit".

(** [input] at the end of the input. *)
Definition EOFError : PyException :=
  {| exc_type := "EOFError"; exc_str := "EOF when reading a line" |}.

Section Session.

Variable json_loads : string → Completion Json.
Variable json_dumps : Json → string.
Variable json_dumps_indent2 : Json → string.
Variable repr : Json → string.
Variable llm : list Message → option string.
Variable http_get : list Effect → string → Completion Json.
Variable http_post : list Effect → string → Json → Completion Json.

(** The value of the f-string [SYSTEM]. *)
Variable SYSTEM : string.

(** The [while True] loop of [main] on the lines that [input] returns, one
    per pass; [printed] collects the replies printed after [Bot:]. *)
Fixpoint session (inputs : list string) (messages : list Message)
    (hist : list Effect) (printed : list Json)
    : Completion (list Json) * list Effect :=
  match inputs with
  | [] => (Raised EOFError, hist)
  | line :: rest =>
    let user_text := strip line in
    if String.eqb (lower user_text) "exit" || String.eqb (lower user_text) "quit"
    then (Normal printed, hist)
    else
      match agent_turn json_loads json_dumps json_dumps_indent2 repr llm
              http_get http_post user_text messages hist with
      | (Normal (reply, messages), hist) => session rest messages hist (printed ++ [reply])
      | (Raised e, hist) => (Raised e, hist)
      end
  end.

Definition main (inputs : list string) : Completion (list Json) * list Effect :=
  session inputs [mkMessage "system" SYSTEM] [] [].

End Session.
End ChatSession.

(** ** mcp_server/server.py *)

Module McpServer.
Import Py.

(** A request as [httpx] sends it: the path, the value of the [X-Token]
    header and, for a [POST], the value given as [json=]. *)
Inductive Sent : Type :=
| SentGet (path : string) (x_token : string)
| SentPost (path : string) (x_token : string) (payload : Json).

Section Mcp.

(** [os.getenv("FUSION_BRIDGE_TOKEN", "")] *)
Variable FUSION_TOKEN : string.

(** The bridge as [httpx] shows it: after the requests so far, the decoded
    body of the response, or the exception that the request or
    [raise_for_status] raises. *)
Variable http_get : list Sent → string → Completion Json.
Variable http_post : list Sent → string → Json → Completion Json.

Definition _fusion_get (path : string) (hist : list Sent)
    : Completion Json * list Sent :=
  (http_get hist path, hist ++ [SentGet path FUSION_TOKEN]).

Definition _fusion_post (path : string) (payload : Json) (hist : list Sent)
    : Completion Json * list Sent :=
  (http_post hist path payload, hist ++ [SentPost path FUSION_TOKEN payload]).

(** The four tools.  Their parameters are the values that the call
    carries, once the defaults of the signature have been filled in. *)
Definition fusion_ping : list Sent → Completion Json * list Sent :=
  _fusion_get "/ping".

Definition fusion_get_state : list Sent → Completion Json * list Sent :=
  _fusion_get "/state".

Definition fusion_create_sketch_rect_xy (x_mm y_mm : Json)
    : list Sent → Completion Json * list Sent :=
  _fusion_post "/tool"
    (JObj [("tool", JStr "create_sketch_rect_xy");
           ("args", JObj [("x_mm", x_mm); ("y_mm", y_mm)])]).

Definition fusion_extrude_last_profile (distance_mm operation : Json)
    : list Sent → Completion Json * list Sent :=
  _fusion_post "/tool"
    (JObj [("tool", JStr "extrude_last_profile");
           ("args", JObj [("distance_mm", distance_mm); ("operation", operation)])]).

End Mcp.

(** The request as the listener of the bridge reads it; [json_dumps] is the
    encoder that [httpx] applies to [json=], and [Content-Length] is the
    length of the encoded body in decimal. *)
Definition received (json_dumps : Json → string) (s : Sent) : BridgeServer.Request :=
  match s with
  | SentGet path token =>
    BridgeServer.mkRequest "GET" path (Some token) None EmptyString
  | SentPost path token payload =>
    BridgeServer.mkRequest "POST" path (Some token)
      (Some (pretty (String.length (json_dumps payload)))) (json_dumps payload)
  end.

End McpServer.

(** ** FusionBridge.py, with start and stop of bridge_server.py *)

Module AddIn.
Import Py BridgeServer.

(** The calls that leave the module: into Fusion, into [http.server] and
    into [threading]. *)
Inductive ApiCall : Type :=
| ApplicationGet
| MessageBox (text : string)
| RegisterCustomEvent (event_id : string)
| EventAdd
| NewHTTPServer (host : string) (port : Z)
| ThreadStart
| ServerShutdown
| ServerClose
| UnregisterCustomEvent (event_id : string).

(** The module globals of bridge_server.py that [start] and [stop] touch.
    An application is known by whether its [userInterface] is truthy;
    [ui], [_custom_event], [_server] and [_server_thread] by whether they
    are set; [_handlers] by its length. *)
Record Globals : Type := mkGlobals {
  app : option bool;
  ui : bool;
  _custom_event : bool;
  _handlers : nat;
  _server : bool;
  _server_thread : bool
}.

(** The globals, and the calls made so far. *)
Definition State : Type := Globals * list ApiCall.

Definition unloaded : Globals := mkGlobals None false false 0 false false.

Section AddIn.

(** What the outside does, given the calls made so far:
    [adsk.core.Application.get()] returns an application or [None], or
    raises; [registerCustomEvent] returns an event or [None], or raises;
    any other call returns or raises. *)
Variable Application_get : list ApiCall → Completion (option bool).
Variable registerCustomEvent : list ApiCall → Completion bool.
Variable fails : list ApiCall → ApiCall → option PyException.
Variable tb_frames : PyException → string.

Definition M (A : Type) : Type := State → Completion A * State.

Definition ret {A} (a : A) : M A := λ s, (Normal a, s).
Definition raise {A} (e : PyException) : M A := λ s, (Raised e, s).
Definition bind {A B} (m : M A) (k : A → M B) : M B := λ s,
  match m s with
  | (Normal a, s') => k a s'
  | (Raised e, s') => (Raised e, s')
  end.

(** [try: body / except: handler] *)
Definition try_except {A} (body : M A) (handler : PyException → M A) : M A :=
  λ s, match body s with
       | (Raised e, s') => handler e s'
       | done => done
       end.

Notation "'let*' x ':=' m 'in' k" := (bind m (λ x, k))
  (at level 10, x name, m at level 100, k at level 200, only parsing).
Notation "m1 ';;;' m2" := (bind m1 (λ _, m2))
  (at level 100, m2 at level 200, right associativity, only parsing).

Definition get_Application : M (option bool) := λ s,
  (Application_get (snd s), (fst s, snd s ++ [ApplicationGet])).

Definition do_registerCustomEvent (event_id : string) : M bool := λ s,
  (registerCustomEvent (snd s), (fst s, snd s ++ [RegisterCustomEvent event_id])).

Definition api (c : ApiCall) : M unit := λ s,
  (match fails (snd s) c with
   | None => Normal tt
   | Some e => Raised e
   end, (fst s, snd s ++ [c])).

Definition globals : M Globals := λ s, (Normal (fst s), s).
Definition assign (f : Globals → Globals) : M unit := λ s, (Normal tt, (f (fst s), snd s)).

(** An attribute or method looked up on [None]. *)
Definition AttributeError_None (name : string) : PyException :=
  {| exc_type := "AttributeError";
     exc_str := "'NoneType' object has no attribute '" +:+ name +:+ "'" |}.

(** *** bridge_server.start *)

Definition start : M unit :=
  let* a := get_Application in
  assign (λ g, mkGlobals a (ui g) (_custom_event g) (_handlers g) (_server g)
                 (_server_thread g)) ;;;
  match a with
  | None => raise (RuntimeError "Fusion Application not available.")
  | Some has_ui =>
    assign (λ g, mkGlobals (app g) has_ui (_custom_event g) (_handlers g) (_server g)
                   (_server_thread g)) ;;;
    let* ev := do_registerCustomEvent CUSTOM_EVENT_ID in
    assign (λ g, mkGlobals (app g) (ui g) ev (_handlers g) (_server g)
                   (_server_thread g)) ;;;
    (if (ev : bool) then api EventAdd else raise (AttributeError_None "add")) ;;;
    assign (λ g, mkGlobals (app g) (ui g) (_custom_event g) (S (_handlers g)) (_server g)
                   (_server_thread g)) ;;;
    api (NewHTTPServer HOST PORT) ;;;
    assign (λ g, mkGlobals (app g) (ui g) (_custom_event g) (_handlers g) true
                   (_server_thread g)) ;;;
    assign (λ g, mkGlobals (app g) (ui g) (_custom_event g) (_handlers g) (_server g)
                   true) ;;;
    api ThreadStart ;;;
    try_except
      (if (has_ui : bool)
       then api (MessageBox ("FusionBridge HTTP running at http://" +:+ HOST +:+ ":" +:+
                             "18080" +:+ nl +:+ "Requires header X-Token"))
       else raise (AttributeError_None "messageBox"))
      (λ _, ret tt)
  end.

(** *** bridge_server.stop *)

Definition stop : M unit :=
  try_except
    (let* g := globals in
     if _server g
     then api ServerShutdown ;;;
          api ServerClose ;;;
          assign (λ g, mkGlobals (app g) (ui g) (_custom_event g) (_handlers g) false
                         (_server_thread g))
     else ret tt)
    (λ _, ret tt) ;;;
  try_except
    (let* g := globals in
     match app g with
     | Some _ => api (UnregisterCustomEvent CUSTOM_EVENT_ID)
     | None => ret tt
     end)
    (λ _, ret tt).

(** *** FusionBridge.run and FusionBridge.stop *)

(** [ui = app.userInterface if app else None], as a truth value. *)
Definition ui_of (a : option bool) : bool := default false a.

Definition run : M unit :=
  try_except
    (let* a := get_Application in
     (if ui_of a then api (MessageBox "FusionBridge: starting HTTP bridge...") else ret tt) ;;;
     start ;;;
     (if ui_of a
      then api (MessageBox "FusionBridge: HTTP bridge running on http://127.0.0.1:18080")
      else ret tt))
    (λ e,
       try_except
         (let* a := get_Application in
          if ui_of a
          then api (MessageBox ("FusionBridge FAILED:" +:+ nl +:+ nl +:+
                                format_exc (tb_frames e) e))
          else ret tt)
         (λ _, ret tt)).

Definition stop_addin : M unit := try_except stop (λ _, ret tt).

End AddIn.

(** A call that shows a message box. *)
Definition is_message_box (c : ApiCall) : bool :=
  match c with MessageBox _ => true | _ => false end.

End AddIn.

(** ** More sample inputs *)

Module MoreSamples.
Import Py BridgeServer Samples.

(** Two requests have posted their tasks and are parked; Fusion has not
    handled an event yet. *)
Definition two_parked : @World Doc :=
  BridgeSystem.run uuid frames
    [RequestArrives (returns "A" (JStr "a")) JNull;
     RequestArrives (raises "B" "boom") JNull] idle.

(** Two requests arrive, the first gives up before Fusion handles the
    events, the second is served and leaves. *)
Definition busy_day : list (@Action Doc) :=
  [RequestArrives (returns "A" (JStr "a")) JNull;
   RequestArrives (raises "B" "boom") JNull;
   RequestLeaves 0;
   FusionNotifies;
   RequestLeaves 0].

(** An identifier source that returns the same string every time. *)
Definition repeating_uuid (k : nat) : string := "task".

(** A second request arrives 5 time units into the wait and leaves right
    after the wait has timed out. *)
Definition twin_arrives_and_leaves : @Interleaving Doc :=
  mkInterleaving [] [] [] [(5, RequestArrives (returns "B" (JStr "b")) JNull)]
                 [RequestLeaves 0] [].

(** *** Connections *)

Definition crlf : string :=
  String (ascii_of_nat 13) (String (ascii_of_nat 10) EmptyString).

(** [GET /nowhere HTTP/1.1] with a wrong token. *)
Definition get_nowhere_wrong_token : Connection :=
  mkConnection ("GET /nowhere HTTP/1.1" +:+ crlf) (Headers (Some "guess") None) EmptyString.

(** [PUT /tool HTTP/1.1] without the token header. *)
Definition put_tool_no_token : Connection :=
  mkConnection ("PUT /tool HTTP/1.1" +:+ crlf) (Headers None None) EmptyString.

(** [GET /ping HTTP/2.0] without the token header. *)
Definition get_ping_http2_no_token : Connection :=
  mkConnection ("GET /ping HTTP/2.0" +:+ crlf) (Headers None None) EmptyString.

(** [GET /ping now HTTP/1.1], a request line of four words, without the
    token header. *)
Definition get_four_words_no_token : Connection :=
  mkConnection ("GET /ping now HTTP/1.1" +:+ crlf) (Headers None None) EmptyString.

(** Requests that carry the token. *)
Definition get_ping : Request :=
  mkRequest "GET" "/ping" (Some AUTH_TOKEN) None EmptyString.
Definition get_ping_slash : Request :=
  mkRequest "GET" "/ping/" (Some AUTH_TOKEN) None EmptyString.

(** [POST /tools], a path that is not served, with a body that is not
    JSON and a length that is not a number. *)
Definition post_elsewhere : Request :=
  mkRequest "POST" "/tools" (Some AUTH_TOKEN) (Some "many") "hello".

(** [POST /tool] with the body [hello]. *)
Definition post_hello : Request :=
  mkRequest "POST" "/tool" (Some AUTH_TOKEN) (Some "5") "hello".

(** [POST /tool] without a [Content-Length] header. *)
Definition post_no_length : Request :=
  mkRequest "POST" "/tool" (Some AUTH_TOKEN) None "hello".

(** [POST /tool] with [Content-Length: many]. *)
Definition post_bad_length : Request :=
  mkRequest "POST" "/tool" (Some AUTH_TOKEN) (Some "many") "{}".

(** [POST /tool] with the body [[1]]. *)
Definition post_array : Request :=
  mkRequest "POST" "/tool" (Some AUTH_TOKEN) (Some "3") "[1]".

(** [POST /tool] with the body [{"tool":[1]}]. *)
Definition post_list_as_tool : Request :=
  mkRequest "POST" "/tool" (Some AUTH_TOKEN) (Some "12")
    ("{" +:+ quoted "tool" +:+ ":[1]}").

(** A tool call whose [tool_name] is the empty string. *)
Definition empty_name_call : string :=
  "{" +:+ quoted "action" +:+ ":" +:+ quoted "tool" +:+ "," +:+
  quoted "tool_name" +:+ ":" +:+ quoted EmptyString +:+ "," +:+
  quoted "args" +:+ ":{}}".

(** The bridge is not running: every [GET] fails to connect. *)
Definition ConnectError : PyException :=
  {| exc_type := "ConnectError"; exc_str := "All connection attempts failed" |}.
Definition bridge_down : list ChatCli.Effect → string → Completion Json :=
  λ _ _, Raised ConnectError.

(** The bridge as the MCP server sees it: every request is answered with
    [{"ok": true}]. *)
Definition mcp_get : list McpServer.Sent → string → Completion Json :=
  λ _ _, Normal (JObj [("ok", JBool true)]).
Definition mcp_post : list McpServer.Sent → string → Json → Completion Json :=
  λ _ _ _, Normal (JObj [("ok", JBool true)]).

(** Fusion hands out no application. *)
Definition no_application : list AddIn.ApiCall → Completion (option bool) :=
  λ _, Normal None.
Definition no_event : list AddIn.ApiCall → Completion bool :=
  λ _, Normal false.
Definition nothing_fails : list AddIn.ApiCall → AddIn.ApiCall → option PyException :=
  λ _ _, None.

End MoreSamples.

(** * Part II: lemmas and theorems *)

(** ** The bridge *)

Module BridgeFacts.
Import Py BridgeServer.

Ltac wsimpl :=
  unfold with_queue, with_results, with_host, with_boxes, with_drawn,
    with_fired, with_waiting, tick in *; simpl in *.

Section Facts.

Context {Host : Type}.
Variable uuid4 : nat → string.
Variable tb_frames : PyException → string.

Local Abbreviation World := (@BridgeServer.World Host).
Local Abbreviation Handler := (@BridgeServer.Handler Host).
Local Abbreviation exec_task := (BridgeServer.exec_task tb_frames).
Local Abbreviation drain := (BridgeServer.drain tb_frames).
Local Abbreviation notify := (BridgeServer.notify tb_frames).
Local Abbreviation others := (BridgeServer.others uuid4 tb_frames).
Local Abbreviation ev_wait := (BridgeServer.ev_wait uuid4 tb_frames).
Local Abbreviation post_and_wait := (BridgeServer.post_and_wait uuid4 tb_frames).
Local Abbreviation _run_on_fusion_thread := (BridgeServer._run_on_fusion_thread uuid4 tb_frames).
Local Abbreviation outcome := (BridgeServer.outcome tb_frames).
Local Abbreviation WF := (BridgeServer.WF uuid4).
Local Abbreviation Mine := (BridgeServer.Mine uuid4).
Local Abbreviation other_id := (BridgeServer.other_id uuid4).
Local Abbreviation drawn_before := (BridgeServer.drawn_before uuid4).

Lemma exec_task_present task_id fn payload (w : World) s :
  _task_results w !! task_id = Some s →
  exec_task (task_id, fn, payload) w =
    (Normal tt,
     with_results
       (<[task_id := mkSlot true (Some (outcome (fst (fn payload (host w)))))]>
          (_task_results w))
       (with_host (snd (fn payload (host w))) w)).
Proof.
  intros Hs. unfold BridgeServer.exec_task, try_finally, try_except, bind, call.
  destruct (fn payload (host w)) as [[out|e] h']; simpl;
    unfold set_result, set_event, bind, get_slot; simpl; rewrite Hs; simpl;
    rewrite lookup_insert_eq; simpl; unfold with_results; simpl;
    by rewrite insert_insert_eq.
Qed.

Lemma exec_task_absent task_id fn payload (w : World) :
  _task_results w !! task_id = None →
  exec_task (task_id, fn, payload) w =
    (Raised (KeyError task_id), with_host (snd (fn payload (host w))) w).
Proof.
  intros Hs. unfold BridgeServer.exec_task, try_finally, try_except, bind, call.
  destruct (fn payload (host w)) as [[out|e] h']; simpl;
    unfold set_result, set_event, bind, get_slot; simpl;
    repeat (rewrite Hs; simpl); done.
Qed.

Lemma drain_nil fuel (w : World) : _task_queue w = [] → drain fuel w = (Normal tt, w).
Proof.
  intros Hq. destruct fuel; [done|].
  simpl. unfold bind, queue_empty. by rewrite Hq.
Qed.

Lemma drain_cons fuel (w : World) t q :
  _task_queue w = t :: q →
  drain (S fuel) w =
    match exec_task t (with_queue q w) with
    | (Normal _, w') => drain fuel w'
    | (Raised e, w') => (Raised e, w')
    end.
Proof.
  intros Hq. simpl. unfold bind at 1. unfold queue_empty. rewrite Hq.
  unfold bind at 1. unfold get_nowait. rewrite Hq.
  unfold bind. by destruct (exec_task t (with_queue q w)) as [[[]|e] w'].
Qed.

Lemma collect_present task_id (w : World) s :
  _task_results w !! task_id = Some s →
  collect task_id w =
    (Normal (match result s with None => timeout_result | Some r => r end),
     with_results (delete task_id (_task_results w)) w).
Proof.
  intros Hs. unfold collect, get_result, del_slot, get_slot, bind, ret.
  rewrite Hs. simpl. rewrite Hs. by destruct (result s).
Qed.

Lemma collect_absent task_id (w : World) :
  _task_results w !! task_id = None →
  collect task_id w = (Raised (KeyError task_id), w).
Proof.
  intros Hs. unfold collect, get_result, del_slot, get_slot, bind, ret.
  by rewrite Hs.
Qed.

(** [notify] never lets an exception out. *)
Lemma notify_returns (w : World) : fst (notify w) = Normal tt.
Proof.
  unfold BridgeServer.notify, try_except.
  destruct (drain (length (_task_queue w)) w) as [[[]|e] w']; [done|].
  destruct (ui w'); done.
Qed.

(** *** One notification *)

(** Once set, the event of a slot that is still there stays set. *)
Lemma exec_task_event_stable task_id t (w : World) :
  event_is_set task_id w = true →
  event_is_set task_id (snd (exec_task t w)) = true.
Proof.
  destruct t as [[tid f] p]. unfold event_is_set. intros He.
  destruct (_task_results w !! tid) as [s|] eqn:Hs.
  - rewrite (exec_task_present _ _ _ _ s) by done. wsimpl.
    rewrite lookup_insert. by case_decide.
  - by rewrite exec_task_absent by done.
Qed.

Lemma drain_event_stable task_id fuel : ∀ (w : World),
  event_is_set task_id w = true →
  event_is_set task_id (snd (drain fuel w)) = true.
Proof.
  induction fuel as [|fuel IH]; intros w He; [done|].
  destruct (_task_queue w) as [|t q] eqn:Hq.
  - by rewrite drain_nil.
  - rewrite (drain_cons _ _ t q) by done.
    pose proof (exec_task_event_stable task_id t (with_queue q w) He) as He'.
    destruct (exec_task t (with_queue q w)) as [[[]|e] w']; simpl in *; auto.
Qed.

Lemma notify_event_stable task_id (w : World) :
  event_is_set task_id w = true →
  event_is_set task_id (snd (notify w)) = true.
Proof.
  intros He. unfold BridgeServer.notify, try_except.
  pose proof (drain_event_stable task_id (length (_task_queue w)) w He) as He'.
  destruct (drain (length (_task_queue w)) w) as [[[]|e] w']; simpl in *; [done|].
  by destruct (ui w').
Qed.

(** When every queued task still has its slot, one notification runs all
    of them, first to last, and leaves the queue empty. *)
Lemma drain_fifo (q : list Task) : ∀ fuel (w : World),
  _task_queue w = q →
  (∀ t, t ∈ q → is_Some (_task_results w !! task_id_of t)) →
  length q ≤ fuel →
  ∃ w', drain fuel w = (Normal tt, w') ∧
        _task_queue w' = [] ∧
        host w' = handlers_in_order q (host w) ∧
        (∀ t, t ∈ q → event_is_set (task_id_of t) w' = true) ∧
        (∀ task_id, is_Some (_task_results w' !! task_id) ↔
                    is_Some (_task_results w !! task_id)).
Proof.
  induction q as [|t q IH]; intros fuel w Hq Hall Hlen.
  - exists w. rewrite drain_nil by done. split; [done|]. split; [done|].
    split; [done|]. split; [|done]. intros t Ht. by apply elem_of_nil in Ht.
  - destruct fuel as [|fuel]; [simpl in Hlen; lia|].
    rewrite (drain_cons _ _ t q) by done.
    destruct t as [[tid f] p].
    destruct (Hall (tid, f, p)) as [s Hs]; [by left|].
    unfold task_id_of in Hs. simpl in Hs.
    rewrite (exec_task_present _ _ _ _ s) by done.
    set (w1 := with_results _ _).
    assert (Hdom : ∀ task_id, is_Some (_task_results w1 !! task_id) ↔
                              is_Some (_task_results w !! task_id)).
    { intros task_id. unfold w1. wsimpl. rewrite lookup_insert.
      case_decide as Heq; [|done]. subst. rewrite Hs. split; eauto. }
    destruct (IH fuel w1) as (w' & Hd & Hq' & Hh & Hev & Hdom').
    { done. }
    { intros t Ht. apply Hdom, Hall. by right. }
    { simpl in Hlen. lia. }
    exists w'. split; [done|]. split; [done|]. split; [by rewrite Hh|].
    split.
    + intros t [->|Ht]%elem_of_cons; [|by apply Hev].
      unfold task_id_of. simpl.
      assert (He : event_is_set tid w1 = true).
      { unfold event_is_set, w1. wsimpl. by rewrite lookup_insert_eq. }
      pose proof (drain_event_stable tid fuel w1 He) as He'.
      by rewrite Hd in He'.
    + intros task_id. by rewrite Hdom'.
Qed.

Lemma notify_fifo (w : World) :
  (∀ t, t ∈ _task_queue w → is_Some (_task_results w !! task_id_of t)) →
  ∃ w', notify w = (Normal tt, w') ∧
        _task_queue w' = [] ∧
        host w' = handlers_in_order (_task_queue w) (host w) ∧
        (∀ t, t ∈ _task_queue w → event_is_set (task_id_of t) w' = true).
Proof.
  intros Hall.
  destruct (drain_fifo (_task_queue w) (length (_task_queue w)) w)
    as (w' & Hd & Hq & Hh & Hev & _); [done|done|done|].
  exists w'. unfold BridgeServer.notify, try_except. by rewrite Hd.
Qed.

(** A task whose slot is gone: its handler still runs, the three writes
    raise [KeyError], and the notification ends there with the rest of the
    queue in place. *)
Lemma notify_stops_at_late_task (w : World) task_id fn payload rest :
  _task_queue w = (task_id, fn, payload) :: rest →
  _task_results w !! task_id = None →
  notify w =
    (Normal tt,
     let w' := with_host (snd (fn payload (host w))) (with_queue rest w) in
     if ui w
     then with_boxes (message_boxes w ++
                      ["FusionBridge custom event error:" +:+ nl +:+
                       format_exc (tb_frames (KeyError task_id)) (KeyError task_id)]) w'
     else w').
Proof.
  intros Hq Hs. unfold BridgeServer.notify, try_except. rewrite Hq. simpl length.
  rewrite (drain_cons _ _ _ rest) by done.
  rewrite exec_task_absent by done. simpl.
  by destruct (ui w).
Qed.

(** [notify] writes only into slots of tasks that were queued. *)
Lemma drain_other_slots task_id fuel : ∀ (w : World),
  task_id ∉ task_id_of <$> _task_queue w →
  _task_results (snd (drain fuel w)) !! task_id = _task_results w !! task_id.
Proof.
  induction fuel as [|fuel IH]; intros w Hnot; [done|].
  destruct (_task_queue w) as [|[[tid f] p] q] eqn:Hq.
  - by rewrite drain_nil.
  - rewrite (drain_cons _ _ _ q) by done.
    rewrite fmap_cons in Hnot. apply not_elem_of_cons in Hnot as [Hne Hnot].
    unfold task_id_of in Hne. simpl in Hne.
    destruct (_task_results w !! tid) as [s|] eqn:Hs.
    + rewrite (exec_task_present _ _ _ _ s) by done.
      rewrite IH; wsimpl; [|done]. by rewrite lookup_insert_ne.
    + by rewrite exec_task_absent by done.
Qed.

Lemma notify_other_slots task_id (w : World) :
  task_id ∉ task_id_of <$> _task_queue w →
  _task_results (snd (notify w)) !! task_id = _task_results w !! task_id.
Proof.
  intros Hnot. unfold BridgeServer.notify, try_except.
  pose proof (drain_other_slots task_id (length (_task_queue w)) w Hnot) as Hd.
  destruct (drain (length (_task_queue w)) w) as [[[]|e] w']; simpl in *; [done|].
  by destruct (ui w').
Qed.

Lemma other_id_mono k0 n n' task_id :
  n ≤ n' → other_id k0 n task_id → other_id k0 n' task_id.
Proof. intros Hle (k & Hk & Hne & ->). exists k. split; [lia|done]. Qed.

Lemma other_id_drawn k0 n task_id : other_id k0 n task_id → drawn_before n task_id.
Proof. intros (k & Hk & _ & ->). by exists k. Qed.

Lemma Mine_same_bridge k0 fn payload P b (w : World) (w' : World) :
  same_bridge w w' → Mine k0 fn payload P b w → Mine k0 fn payload P b w'.
Proof.
  intros (Hq & Hr & Hd & Hw) [H1 H2 H3 H4 H5 H6].
  constructor; rewrite ?Hq, ?Hr, ?Hd, ?Hw; done.
Qed.

Section Unique.

(** [uuid4] never returns the same identifier twice. *)
Hypothesis uuid4_inj : ∀ j k, uuid4 j = uuid4 k → j = k.

Lemma other_id_not_mine k0 n : ¬ other_id k0 n (uuid4 k0).
Proof. intros (k & _ & Hne & Heq). apply Hne. symmetry. by apply uuid4_inj. Qed.

Section Thread.

Variables (k0 : nat) (fn : Handler) (payload : Json) (P : Json → Prop).

(** Whatever the document looks like when the handler runs, the result dict
    that [notify] stores for it satisfies [P]. *)
Hypothesis handler_P : ∀ h, P (outcome (fst (fn payload h))).

Lemma Mine_exec_task b (w : World) t q :
  _task_queue w = t :: q →
  Mine k0 fn payload P b w →
  Mine k0 fn payload P b (snd (exec_task t (with_queue q w))).
Proof.
  intros Hq [H1 H2 H3 H4 H5 H6]. rewrite Hq in H4.
  apply Forall_cons in H4 as [Hhd Htl].
  destruct t as [[task_id fn'] payload'].
  destruct (_task_results w !! task_id) as [s|] eqn:Hs.
  - rewrite (exec_task_present _ _ _ _ s) by done. simpl.
    constructor; wsimpl; try done.
    + intros tid s'. rewrite lookup_insert. case_decide as Heq.
      * intros _. subst tid. by eapply H5.
      * apply H5.
    + destruct b.
      * destruct H6 as (s0 & Hs0 & Hok).
        rewrite lookup_insert. case_decide as Heq.
        -- eexists. split; [done|].
           destruct Hhd as [Hoth | [_ Hmine]].
           { subst task_id. by apply other_id_not_mine in Hoth. }
           injection Hmine as _ -> ->.
           split; simpl; [|intros r [= <-]; apply handler_P].
           by eauto.
        -- by exists s0.
      * rewrite lookup_insert_ne; [done|]. intros ->. congruence.
  - rewrite exec_task_absent by done. simpl.
    constructor; wsimpl; done.
Qed.

Lemma Mine_drain b fuel (w : World) :
  Mine k0 fn payload P b w → Mine k0 fn payload P b (snd (drain fuel w)).
Proof.
  revert w. induction fuel as [|fuel IH]; intros w HM; [done|].
  destruct (_task_queue w) as [|t q] eqn:Hq.
  - by rewrite drain_nil.
  - rewrite (drain_cons _ _ t q) by done.
    pose proof (Mine_exec_task b w t q Hq HM) as HM'.
    destruct (exec_task t (with_queue q w)) as [[[]|e] w']; simpl in *; auto.
Qed.

Lemma Mine_notify b (w : World) :
  Mine k0 fn payload P b w → Mine k0 fn payload P b (snd (notify w)).
Proof.
  intros HM. unfold BridgeServer.notify, try_except.
  pose proof (Mine_drain b (length (_task_queue w)) w HM) as HM'.
  destruct (drain (length (_task_queue w)) w) as [[[]|e] w']; simpl in *; [done|].
  destruct (ui w'); simpl; [|done].
  eapply Mine_same_bridge; [|exact HM']. by repeat split.
Qed.

Lemma Mine_post b fn' payload' (w : World) :
  Mine k0 fn payload P b w →
  Mine k0 fn payload P b (others (RequestArrives fn' payload') w).
Proof.
  intros [H1 H2 H3 H4 H5 H6].
  assert (Hnew : other_id k0 (S (uuids_drawn w)) (uuid4 (uuids_drawn w))).
  { exists (uuids_drawn w). split; [lia|]. split; [lia|done]. }
  assert (Hne : uuid4 (uuids_drawn w) ≠ uuid4 k0).
  { intros Heq. apply uuid4_inj in Heq. lia. }
  unfold BridgeServer.others, post, bind, str_uuid4, new_slot, queue_put, fireCustomEvent, ret.
  constructor; wsimpl.
  - lia.
  - apply Forall_app. split; [|constructor; [done|constructor]].
    eapply Forall_impl; [exact H2|]. intros x. apply other_id_mono. lia.
  - apply NoDup_app. split; [done|]. split; [|apply NoDup_singleton].
    intros x Hx Hin. apply list_elem_of_singleton in Hin. subst x.
    rewrite Forall_forall in H2. destruct (H2 _ Hx) as (k & Hk & _ & Heq).
    apply uuid4_inj in Heq. lia.
  - apply Forall_app. split; [|constructor; [by left|constructor]].
    eapply Forall_impl; [exact H4|]. intros x [Hx|Hx]; [left|by right].
    eapply other_id_mono; [|exact Hx]. lia.
  - intros tid s. rewrite lookup_insert. case_decide as Heq.
    + intros _. subst tid. by left.
    + intros Hs. destruct (H5 _ _ Hs) as [Hx|Hx]; [left|by right].
      eapply other_id_mono; [|exact Hx]. lia.
  - destruct b; by rewrite lookup_insert_ne.
Qed.

Lemma Mine_collect b i (w : World) :
  Mine k0 fn payload P b w →
  Mine k0 fn payload P b (others (RequestLeaves i) w).
Proof.
  intros HM. pose proof HM as [H1 H2 H3 H4 H5 H6].
  unfold BridgeServer.others. destruct (waiting w !! i) as [tid|] eqn:Hi; [|done].
  assert (Hne : tid ≠ uuid4 k0).
  { intros ->. eapply other_id_not_mine, Forall_lookup_1; [exact H2|exact Hi]. }
  assert (HW : Forall (other_id k0 (uuids_drawn w)) (delete i (waiting w)))
    by by apply Forall_delete.
  assert (HN : NoDup (delete i (waiting w)))
    by (eapply sublist_NoDup; [exact H3|apply sublist_delete]).
  destruct (_task_results w !! tid) as [s|] eqn:Hs.
  - rewrite (collect_present _ _ s) by done. simpl.
    constructor; wsimpl; try done.
    + intros tid' s'. rewrite lookup_delete. case_decide; [done|]. apply H5.
    + destruct b; by rewrite lookup_delete_ne.
  - rewrite collect_absent by done. simpl.
    constructor; wsimpl; done.
Qed.

Lemma Mine_others b a (w : World) :
  Mine k0 fn payload P b w → Mine k0 fn payload P b (others a w).
Proof.
  destruct a as [|fn' payload'|i].
  - apply Mine_notify.
  - apply Mine_post.
  - apply Mine_collect.
Qed.

Lemma Mine_run_others b l (w : World) :
  Mine k0 fn payload P b w →
  Mine k0 fn payload P b (foldl (λ (w : World) a, others a w) w l).
Proof.
  revert w. induction l as [|a l IH]; intros w HM; simpl; [done|].
  by apply IH, Mine_others.
Qed.

Lemma Mine_tick b d (w : World) :
  Mine k0 fn payload P b w → Mine k0 fn payload P b (tick d w).
Proof. apply Mine_same_bridge. by repeat split. Qed.

(** The clock only moves inside [ev_wait]. *)
Lemma others_clock a (w : World) : clock (others a w) = clock w.
Proof.
  destruct a as [|fn' payload'|i]; simpl.
  - unfold BridgeServer.notify, try_except.
    assert (Hd : ∀ fuel (w0 : World), clock (snd (drain fuel w0)) = clock w0).
    { induction fuel as [|fuel IH]; intros w0; [done|].
      destruct (_task_queue w0) as [|[[tid f] p] q] eqn:Hq.
      - by rewrite drain_nil.
      - rewrite (drain_cons _ _ _ q) by done.
        destruct (_task_results w0 !! tid) as [s|] eqn:Hs.
        + rewrite (exec_task_present _ _ _ _ s) by done. by rewrite IH.
        + by rewrite exec_task_absent by done. }
    specialize (Hd (length (_task_queue w)) w).
    destruct (drain (length (_task_queue w)) w) as [[[]|e] w']; simpl in *; [done|].
    by destruct (ui w').
  - done.
  - destruct (waiting w !! i) as [tid|]; [|done].
    destruct (_task_results (with_waiting (delete i (waiting w)) w) !! tid)
      as [s|] eqn:Hs.
    + by rewrite (collect_present _ _ s) by done.
    + by rewrite collect_absent by done.
Qed.

Lemma run_others_clock l (w : World) : clock (foldl (λ (w : World) a, others a w) w l) = clock w.
Proof.
  revert w. induction l as [|a l IH]; intros w; simpl; [done|].
  by rewrite IH, others_clock.
Qed.

(** The two counters only grow. *)
Lemma others_counters a (w : World) :
  uuids_drawn w ≤ uuids_drawn (others a w) ∧ events_fired w ≤ events_fired (others a w).
Proof.
  destruct a as [|fn' payload'|i]; simpl.
  - unfold BridgeServer.notify, try_except.
    assert (Hd : ∀ fuel (w0 : World),
              uuids_drawn (snd (drain fuel w0)) = uuids_drawn w0 ∧
              events_fired (snd (drain fuel w0)) = events_fired w0).
    { induction fuel as [|fuel IH]; intros w0; [done|].
      destruct (_task_queue w0) as [|[[tid f] p] q] eqn:Hq.
      - by rewrite drain_nil.
      - rewrite (drain_cons _ _ _ q) by done.
        destruct (_task_results w0 !! tid) as [s|] eqn:Hs.
        + rewrite (exec_task_present _ _ _ _ s) by done.
          destruct (IH (with_results
                          (<[tid := mkSlot true (Some (outcome (fst (f p (host (with_queue q w0))))))]>
                             (_task_results (with_queue q w0)))
                          (with_host (snd (f p (host (with_queue q w0)))) (with_queue q w0))))
            as [-> ->].
          done.
        + by rewrite exec_task_absent by done. }
    specialize (Hd (length (_task_queue w)) w).
    destruct (drain (length (_task_queue w)) w) as [[[]|e] w']; simpl in *.
    + destruct Hd as [-> ->]. lia.
    + destruct (ui w'); simpl; destruct Hd as [-> ->]; lia.
  - lia.
  - destruct (waiting w !! i) as [tid|]; [|lia].
    destruct (_task_results (with_waiting (delete i (waiting w)) w) !! tid)
      as [s|] eqn:Hs.
    + rewrite (collect_present _ _ s) by done. simpl. lia.
    + rewrite collect_absent by done. simpl. lia.
Qed.

Lemma run_others_counters l : ∀ (w : World),
  uuids_drawn w ≤ uuids_drawn (foldl (λ (w : World) a, others a w) w l) ∧
  events_fired w ≤ events_fired (foldl (λ (w : World) a, others a w) w l).
Proof.
  induction l as [|a l IH]; intros w; simpl; [lia|].
  destruct (IH (others a w)) as [H1 H2].
  destruct (others_counters a w) as [H3 H4]. lia.
Qed.

Lemma ev_wait_counters sched : ∀ timeout task_id (w : World),
  uuids_drawn w ≤ uuids_drawn (snd (ev_wait timeout task_id sched w)) ∧
  events_fired w ≤ events_fired (snd (ev_wait timeout task_id sched w)).
Proof.
  induction sched as [|[d a] rest IH]; intros timeout task_id w; simpl.
  - destruct (event_is_set task_id w); simpl; lia.
  - destruct (event_is_set task_id w); [simpl; lia|].
    destruct (d <? timeout); [|simpl; lia].
    destruct (IH (timeout - d) task_id (others a (tick d w))) as [H1 H2].
    destruct (others_counters a (tick d w)) as [H3 H4]. simpl in H3, H4. lia.
Qed.

Lemma others_event_stable b a (w : World) :
  Mine k0 fn payload P b w →
  event_is_set (uuid4 k0) w = true →
  event_is_set (uuid4 k0) (others a w) = true.
Proof.
  intros HM He. pose proof HM as [H1 H2 H3 H4 H5 H6].
  destruct a as [|fn' payload'|i].
  - by apply notify_event_stable.
  - unfold BridgeServer.others, post, bind, str_uuid4, new_slot, queue_put,
      fireCustomEvent, ret, event_is_set in *. wsimpl.
    rewrite lookup_insert_ne; [done|].
    intros Heq. apply uuid4_inj in Heq. lia.
  - unfold BridgeServer.others. destruct (waiting w !! i) as [tid|] eqn:Hi; [|done].
    assert (Hne : tid ≠ uuid4 k0).
    { intros ->. eapply other_id_not_mine, Forall_lookup_1; [exact H2|exact Hi]. }
    destruct (_task_results w !! tid) as [s|] eqn:Hs.
    + rewrite (collect_present _ _ s) by done. unfold event_is_set in *. wsimpl.
      by rewrite lookup_delete_ne.
    + by rewrite collect_absent by done.
Qed.

Lemma run_others_event_stable b l : ∀ (w : World),
  Mine k0 fn payload P b w →
  event_is_set (uuid4 k0) w = true →
  event_is_set (uuid4 k0) (foldl (λ (w : World) a, others a w) w l) = true.
Proof.
  induction l as [|a l IH]; intros w HM He; simpl; [done|].
  apply IH; [by apply Mine_others|by eapply others_event_stable].
Qed.

Lemma ev_wait_spec sched : ∀ timeout (w : World),
  Mine k0 fn payload P true w →
  ∃ signalled w',
    ev_wait timeout (uuid4 k0) sched w = (Normal signalled, w') ∧
    Mine k0 fn payload P true w' ∧
    signalled = event_is_set (uuid4 k0) w' ∧
    clock w' ≤ clock w + timeout.
Proof.
  induction sched as [|[d a] rest IH]; intros timeout w HM; simpl.
  - destruct (event_is_set (uuid4 k0) w) eqn:He.
    + exists true, w. split; [done|]. split; [done|]. split; [done|lia].
    + exists false, (tick timeout w). split; [done|].
      split; [by apply Mine_tick|]. split; [|done].
      by rewrite <- He.
  - destruct (event_is_set (uuid4 k0) w) eqn:He.
    + exists true, w. split; [done|]. split; [done|]. split; [done|lia].
    + destruct (d <? timeout) eqn:Hd.
      * apply Nat.ltb_lt in Hd.
        destruct (IH (timeout - d) (others a (tick d w)))
          as (sg & w' & Heq & HM' & Hsg & Hclk).
        { by apply Mine_others, Mine_tick. }
        exists sg, w'. split; [done|]. split; [done|]. split; [done|].
        rewrite others_clock in Hclk. simpl in Hclk. lia.
      * exists false, (tick timeout w). split; [done|].
        split; [by apply Mine_tick|]. split; [|done].
        by rewrite <- He.
Qed.

End Thread.
(** *** One call of [_run_on_fusion_thread], start to end *)

Section Submission.

Variables (fn : Handler) (payload : Json) (P : Json → Prop).
Hypothesis handler_P : ∀ h, P (outcome (fst (fn payload h))).

Lemma Mine_fresh (w : World) :
  WF w →
  Mine (uuids_drawn w) fn payload P false (with_drawn (S (uuids_drawn w)) w).
Proof.
  intros [H1 H2 H3 H4].
  assert (Hoth : ∀ tid, drawn_before (uuids_drawn w) tid →
                 other_id (uuids_drawn w) (S (uuids_drawn w)) tid).
  { intros tid (k & Hk & ->). exists k. split; [lia|]. split; [lia|done]. }
  constructor; wsimpl.
  - lia.
  - eapply Forall_impl; [exact H3|]. exact Hoth.
  - done.
  - eapply Forall_impl; [exact H2|]. intros t Ht. left. by apply Hoth.
  - intros tid s Hs. left. apply Hoth, H1. by rewrite Hs.
  - destruct (_task_results w !! uuid4 (uuids_drawn w)) as [s|] eqn:Hs; [|done].
    destruct (H1 (uuid4 (uuids_drawn w))) as (k & Hk & Heq); [by rewrite Hs|].
    apply uuid4_inj in Heq. lia.
Qed.

Lemma Mine_new_slot k0 (w : World) :
  Mine k0 fn payload P false w →
  Mine k0 fn payload P true
    (with_results (<[uuid4 k0 := mkSlot false None]> (_task_results w)) w).
Proof.
  intros [H1 H2 H3 H4 H5 H6]. constructor; wsimpl; try done.
  - eapply Forall_impl; [exact H4|]. intros t [Ht|[? _]]; [by left|done].
  - intros tid s. rewrite lookup_insert. case_decide as Heq.
    + intros _. by right.
    + intros Hs. destruct (H5 _ _ Hs) as [?|[? _]]; [by left|done].
  - exists (mkSlot false None). rewrite lookup_insert_eq. split; [done|].
    split; simpl; done.
Qed.

Lemma Mine_queue_put k0 (w : World) :
  Mine k0 fn payload P true w →
  Mine k0 fn payload P true (with_queue (_task_queue w ++ [(uuid4 k0, fn, payload)]) w).
Proof.
  intros [H1 H2 H3 H4 H5 H6]. constructor; wsimpl; try done.
  apply Forall_app. split; [done|]. constructor; [by right|constructor].
Qed.

Lemma Mine_not_waiting k0 b (w : World) :
  Mine k0 fn payload P b w → uuid4 k0 ∉ waiting w.
Proof.
  intros [H1 H2 H3 H4 H5 H6] Hin. rewrite Forall_forall in H2.
  by apply H2, other_id_not_mine in Hin.
Qed.

Lemma Mine_delete_WF k0 (w : World) :
  Mine k0 fn payload P true w →
  WF (with_results (delete (uuid4 k0) (_task_results w)) w).
Proof.
  intros [H1 H2 H3 H4 H5 H6]. constructor; wsimpl; try done.
  - intros tid [s Hs]. rewrite lookup_delete in Hs. case_decide as Heq; [done|].
    destruct (H5 _ _ Hs) as [Hx|[_ ?]]; [|done]. by eapply other_id_drawn.
  - eapply Forall_impl; [exact H4|]. intros t [Hx|[_ ->]].
    + by eapply other_id_drawn.
    + by exists k0.
  - eapply Forall_impl; [exact H2|]. intros t. apply other_id_drawn.
Qed.

Lemma run_on_fusion_thread_spec il (w : World) :
  WF w →
  ∃ signalled w1 s r w',
    post_and_wait fn payload il w = (Normal (uuid4 (uuids_drawn w), signalled), w1) ∧
    Mine (uuids_drawn w) fn payload P true w1 ∧
    signalled = event_is_set (uuid4 (uuids_drawn w)) w1 ∧
    clock w1 ≤ clock w + 30 ∧
    (_task_results (foldl (λ (w : World) a, others a w) w1 (after_wait il)))
      !! (uuid4 (uuids_drawn w)) = Some s ∧
    slot_ok P s ∧
    (signalled = true → event s = true) ∧
    r = (match result s with None => timeout_result | Some r => r end) ∧
    _run_on_fusion_thread fn payload il w = (Normal r, w') ∧
    _task_results w' !! uuid4 (uuids_drawn w) = None ∧
    (uuid4 (uuids_drawn w) ∉ waiting w') ∧
    WF w' ∧
    clock w' = clock w1.
Proof.
  intros HWF. set (k0 := uuids_drawn w).
  pose proof (Mine_fresh w HWF) as HM0. fold k0 in HM0.
  pose proof (Mine_run_others k0 fn payload P handler_P false (after_uuid il) _ HM0) as HM1.
  set (w1 := foldl _ _ (after_uuid il)) in HM1.
  pose proof (Mine_new_slot k0 w1 HM1) as HM2.
  pose proof (Mine_run_others k0 fn payload P handler_P true (after_slot il) _ HM2) as HM3.
  set (w3 := foldl _ _ (after_slot il)) in HM3.
  pose proof (Mine_queue_put k0 w3 HM3) as HM4.
  pose proof (Mine_run_others k0 fn payload P handler_P true (after_put il) _ HM4) as HM5.
  set (w5 := foldl _ _ (after_put il)) in HM5.
  assert (HM6 : Mine k0 fn payload P true (with_fired (S (events_fired w5)) w5)).
  { eapply Mine_same_bridge; [|exact HM5]. by repeat split. }
  destruct (ev_wait_spec k0 fn payload P handler_P (during_wait il) 30 _ HM6)
    as (sg & w7 & Hwait & HM7 & Hsg & Hclk).
  pose proof (Mine_run_others k0 fn payload P handler_P true (after_wait il) _ HM7) as HM8.
  set (w8 := foldl _ w7 (after_wait il)) in *.
  pose proof (Mine_run_others k0 fn payload P handler_P true (after_read il) _ HM8) as HM9.
  set (w9 := foldl _ w8 (after_read il)) in *.
  destruct (mine_slot _ _ _ _ _ _ _ HM8) as (s & Hs & Hok).
  destruct (mine_slot _ _ _ _ _ _ _ HM9) as (s9 & Hs9 & _).
  assert (Hpw : post_and_wait fn payload il w = (Normal (uuid4 k0, sg), w7)).
  { unfold BridgeServer.post_and_wait, run_others, str_uuid4, new_slot, queue_put,
      fireCustomEvent, bind, ret. simpl.
    change ((let (c, w') := ev_wait 30 (uuid4 k0) (during_wait il)
                              (with_fired (S (events_fired w5)) w5) in
             match c with
             | Normal a => (Normal (uuid4 k0, a), w')
             | Raised e => (Raised e, w')
             end) = (Normal (uuid4 k0, sg), w7)).
    by rewrite Hwait. }
  exists sg, w7, s, (match result s with None => timeout_result | Some r => r end),
    (with_results (delete (uuid4 k0) (_task_results w9)) w9).
  split; [done|]. split; [done|]. split; [done|].
  split.
  { assert (Hc5 : clock (with_fired (S (events_fired w5)) w5) = clock w).
    { unfold w5, w3, w1. wsimpl. by rewrite !run_others_clock. }
    lia. }
  split; [done|]. split; [done|].
  split.
  { intros ->. symmetry in Hsg.
    pose proof (run_others_event_stable k0 fn payload P handler_P true (after_wait il) w7 HM7 Hsg) as He.
    fold w8 in He. unfold event_is_set in He. by rewrite Hs in He. }
  split; [done|].
  split.
  { unfold BridgeServer._run_on_fusion_thread. unfold bind at 1. rewrite Hpw. simpl.
    unfold run_others, get_result, del_slot, get_slot, bind, ret. simpl.
    fold w8. rewrite Hs. simpl. fold w9. rewrite Hs9.
    by destruct (result s). }
  split; [wsimpl; by rewrite lookup_delete_eq|].
  split; [by eapply (Mine_not_waiting k0 true w9)|].
  split; [by apply Mine_delete_WF|].
  wsimpl. unfold w9, w8. by rewrite !run_others_clock.
Qed.

(** The worlds that one call goes through: the identifier is still unused
    when the slot is put in, the slot is there until the call removes it,
    and the world that the call leaves is the one after the last action of
    the others, without the slot. *)
Lemma run_on_fusion_thread_trace il (w : World) :
  WF w →
  ∃ signalled w1 r,
    post_and_wait fn payload il w = (Normal (uuid4 (uuids_drawn w), signalled), w1) ∧
    _task_results (foldl (λ (w : World) a, others a w)
                     (with_drawn (S (uuids_drawn w)) w) (after_uuid il))
      !! uuid4 (uuids_drawn w) = None ∧
    uuids_drawn w < uuids_drawn w1 ∧
    events_fired w < events_fired w1 ∧
    (∀ t, t ∈ _task_queue w1 → task_id_of t = uuid4 (uuids_drawn w) →
          t = (uuid4 (uuids_drawn w), fn, payload)) ∧
    is_Some (_task_results
               (foldl (λ (w : World) a, others a w)
                  (foldl (λ (w : World) a, others a w) w1 (after_wait il)) (after_read il))
             !! uuid4 (uuids_drawn w)) ∧
    uuids_drawn w1 ≤
      uuids_drawn (foldl (λ (w : World) a, others a w)
                     (foldl (λ (w : World) a, others a w) w1 (after_wait il)) (after_read il)) ∧
    events_fired w1 ≤
      events_fired (foldl (λ (w : World) a, others a w)
                      (foldl (λ (w : World) a, others a w) w1 (after_wait il)) (after_read il)) ∧
    _run_on_fusion_thread fn payload il w =
      (Normal r,
       with_results
         (delete (uuid4 (uuids_drawn w))
            (_task_results
               (foldl (λ (w : World) a, others a w)
                  (foldl (λ (w : World) a, others a w) w1 (after_wait il)) (after_read il))))
         (foldl (λ (w : World) a, others a w)
            (foldl (λ (w : World) a, others a w) w1 (after_wait il)) (after_read il))).
Proof.
  intros HWF. set (k0 := uuids_drawn w).
  pose proof (Mine_fresh w HWF) as HM0. fold k0 in HM0.
  pose proof (Mine_run_others k0 fn payload P handler_P false (after_uuid il) _ HM0) as HM1.
  set (w1 := foldl _ _ (after_uuid il)) in HM1.
  pose proof (Mine_new_slot k0 w1 HM1) as HM2.
  pose proof (Mine_run_others k0 fn payload P handler_P true (after_slot il) _ HM2) as HM3.
  set (w3 := foldl _ _ (after_slot il)) in HM3.
  pose proof (Mine_queue_put k0 w3 HM3) as HM4.
  pose proof (Mine_run_others k0 fn payload P handler_P true (after_put il) _ HM4) as HM5.
  set (w5 := foldl _ _ (after_put il)) in HM5.
  assert (HM6 : Mine k0 fn payload P true (with_fired (S (events_fired w5)) w5)).
  { eapply Mine_same_bridge; [|exact HM5]. by repeat split. }
  destruct (ev_wait_spec k0 fn payload P handler_P (during_wait il) 30 _ HM6)
    as (sg & w7 & Hwait & HM7 & Hsg & Hclk).
  pose proof (Mine_run_others k0 fn payload P handler_P true (after_wait il) _ HM7) as HM8.
  set (w8 := foldl _ w7 (after_wait il)) in *.
  pose proof (Mine_run_others k0 fn payload P handler_P true (after_read il) _ HM8) as HM9.
  set (w9 := foldl _ w8 (after_read il)) in *.
  destruct (mine_slot _ _ _ _ _ _ _ HM8) as (s & Hs & Hok).
  destruct (mine_slot _ _ _ _ _ _ _ HM9) as (s9 & Hs9 & _).
  assert (Hpw : post_and_wait fn payload il w = (Normal (uuid4 k0, sg), w7)).
  { unfold BridgeServer.post_and_wait, run_others, str_uuid4, new_slot, queue_put,
      fireCustomEvent, bind, ret. simpl.
    change ((let (c, w') := ev_wait 30 (uuid4 k0) (during_wait il)
                              (with_fired (S (events_fired w5)) w5) in
             match c with
             | Normal a => (Normal (uuid4 k0, a), w')
             | Raised e => (Raised e, w')
             end) = (Normal (uuid4 k0, sg), w7)).
    by rewrite Hwait. }
  assert (Hcount : uuids_drawn w < uuids_drawn w7 ∧ events_fired w < events_fired w7).
  { pose proof (ev_wait_counters (during_wait il) 30 (uuid4 k0)
                  (with_fired (S (events_fired w5)) w5)) as Hw.
    rewrite Hwait in Hw. simpl in Hw.
    pose proof (run_others_counters (after_put il)
                  (with_queue (_task_queue w3 ++ [(uuid4 k0, fn, payload)]) w3)) as H5.
    fold w5 in H5. simpl in H5.
    pose proof (run_others_counters (after_slot il)
                  (with_results (<[uuid4 k0 := mkSlot false None]> (_task_results w1)) w1))
      as H3.
    fold w3 in H3. simpl in H3.
    pose proof (run_others_counters (after_uuid il) (with_drawn (S (uuids_drawn w)) w))
      as H1.
    fold k0 in H1. fold w1 in H1. simpl in H1. fold k0. lia. }
  exists sg, w7, (match result s with None => timeout_result | Some r => r end).
  split; [done|].
  split; [exact (mine_slot _ _ _ _ _ _ _ HM1)|].
  split; [apply Hcount|]. split; [apply Hcount|].
  split.
  { intros t Hin Hid. pose proof (mine_queue _ _ _ _ _ _ _ HM7) as HQ.
    rewrite Forall_forall in HQ. destruct (HQ t Hin) as [Hoth|[_ ->]]; [|done].
    rewrite Hid in Hoth. by apply other_id_not_mine in Hoth. }
  split; [exists s9; exact Hs9|].
  assert (Hc9 : uuids_drawn w7 ≤ uuids_drawn w9 ∧ events_fired w7 ≤ events_fired w9).
  { pose proof (run_others_counters (after_wait il) w7) as H8. fold w8 in H8.
    pose proof (run_others_counters (after_read il) w8) as H9. fold w9 in H9. lia. }
  split; [exact (proj1 Hc9)|]. split; [exact (proj2 Hc9)|].
  unfold BridgeServer._run_on_fusion_thread. unfold bind at 1. rewrite Hpw. simpl.
  unfold run_others, get_result, del_slot, get_slot, bind, ret. simpl.
  fold w8. rewrite Hs. simpl. fold w9. rewrite Hs9.
  by destruct (result s).
Qed.

End Submission.

End Unique.

End Facts.
End BridgeFacts.

(** ** The bridge: the claims *)

Module BridgeClaims.
Import Py BridgeServer BridgeFacts.

Lemma uuid_inj j k : Samples.uuid j = Samples.uuid k → j = k.
Proof.
  unfold Samples.uuid. intros H.
  apply (inj (String.app "task-")) in H. by apply (inj pretty) in H.
Qed.

Lemma idle_WF : WF Samples.uuid Samples.idle.
Proof.
  constructor; simpl.
  - intros tid [s Hs]. by rewrite lookup_empty in Hs.
  - constructor.
  - constructor.
  - constructor.
Qed.

(** C1, at a failing input.  The request for task [task-0] times out after 30
    time units and removes its slot while a second request has queued
    [task-1].  At the next notification the handler of [task-0] runs, the
    completion write raises [KeyError], a message box reports it, and the
    drain ends there: [task-1] stays in the queue, its handler has not run
    and its event is not set. *)
Theorem late_completion_write_ends_the_drain :
  fst (_run_on_fusion_thread Samples.uuid Samples.frames
         (Samples.returns "A" (JStr "a")) JNull
         Samples.second_request_arrives Samples.idle) = Normal timeout_result ∧
  task_id_of <$> _task_queue Samples.A_gave_up = ["task-0"; "task-1"] ∧
  _task_results Samples.A_gave_up !! "task-0" = None ∧
  _task_results Samples.A_gave_up !! "task-1" = Some (mkSlot false None) ∧
  fst (notify Samples.frames Samples.A_gave_up) = Normal tt ∧
  host (snd (notify Samples.frames Samples.A_gave_up)) = ["A"] ∧
  task_id_of <$> _task_queue (snd (notify Samples.frames Samples.A_gave_up)) = ["task-1"] ∧
  _task_results (snd (notify Samples.frames Samples.A_gave_up)) !! "task-1"
    = Some (mkSlot false None) ∧
  message_boxes (snd (notify Samples.frames Samples.A_gave_up)) =
    ["FusionBridge custom event error:" +:+ nl +:+
     format_exc (Samples.frames (KeyError "task-0")) (KeyError "task-0")].
Proof. vm_compute. repeat split. Qed.

(** C3, at a failing input.  Three tasks are queued before one notification;
    the first one's request has already timed out.  The notification runs
    the first handler only: the other two tasks are still queued when it
    returns. *)
Theorem notify_leaves_tasks_queued :
  task_id_of <$> _task_queue Samples.A_gave_up_B_C_queued
    = ["task-0"; "task-1"; "task-2"] ∧
  fst (notify Samples.frames Samples.A_gave_up_B_C_queued) = Normal tt ∧
  task_id_of <$> _task_queue (snd (notify Samples.frames Samples.A_gave_up_B_C_queued))
    = ["task-1"; "task-2"] ∧
  host (snd (notify Samples.frames Samples.A_gave_up_B_C_queued)) = ["A"] ∧
  event_is_set "task-1" (snd (notify Samples.frames Samples.A_gave_up_B_C_queued)) = false ∧
  event_is_set "task-2" (snd (notify Samples.frames Samples.A_gave_up_B_C_queued)) = false.
Proof. vm_compute. repeat split. Qed.

Section Submit.

Context {Host : Type}.
Variable uuid4 : nat → string.
Variable tb_frames : PyException → string.

Local Abbreviation World := (@BridgeServer.World Host).
Local Abbreviation Handler := (@BridgeServer.Handler Host).
Local Abbreviation others := (BridgeServer.others uuid4 tb_frames).
Local Abbreviation post_and_wait := (BridgeServer.post_and_wait uuid4 tb_frames).
Local Abbreviation _run_on_fusion_thread := (BridgeServer._run_on_fusion_thread uuid4 tb_frames).

Lemma format_exc_nonempty frames e : format_exc frames e ≠ EmptyString.
Proof. unfold format_exc. intros H. apply (f_equal String.length) in H. by vm_compute in H. Qed.


(** A result dict stored by [notify] is never the timeout dict. *)
Lemma outcome_not_timeout c : outcome tb_frames c ≠ timeout_result.
Proof. by destruct c. Qed.

(** C4, as the code has it.  The call is blocked for at most 30 time units,
    all of them inside [ev.wait]; it then reads the slot and returns the
    timeout dict when the slot is still empty and what the slot holds
    otherwise, also when [ev.wait] had returned [False]; the timeout dict is
    returned only when [ev.wait] returned [False]; the call always ends with
    the slot removed. *)
Theorem submit_waits_at_most_30
    (fn : Handler) (payload : Json) (il : Interleaving) (w : World) :
  (∀ j k, uuid4 j = uuid4 k → j = k) →
  WF uuid4 w →
  ∃ signalled w1 s r w',
    post_and_wait fn payload il w = (Normal (uuid4 (uuids_drawn w), signalled), w1) ∧
    clock w1 ≤ clock w + 30 ∧
    (_task_results (foldl (λ (w : World) a, others a w) w1 (after_wait il)))
      !! (uuid4 (uuids_drawn w)) = Some s ∧
    _run_on_fusion_thread fn payload il w = (Normal r, w') ∧
    r = (match result s with
         | None => JObj [("ok", JBool false);
                         ("error", JStr "Timeout waiting for Fusion execution.")]
         | Some stored => stored
         end) ∧
    (r = timeout_result → signalled = false) ∧
    clock w' = clock w1 ∧
    _task_results w' !! uuid4 (uuids_drawn w) = None.
Proof.
  intros Hinj HWF.
  destruct (run_on_fusion_thread_spec uuid4 tb_frames Hinj fn payload
              (λ r, ∃ c, r = outcome tb_frames c))
    with (il := il) (w := w)
    as (sg & w1 & s & r & w' & Hpw & _ & _ & Hclk & Hs & [Hev HP] & Hsg & Hr &
        Hrun & Hgone & _ & _ & Hclk');
    [by eauto|done|].
  exists sg, w1, s, r, w'. split; [done|]. split; [done|]. split; [done|].
  split; [done|]. split; [done|]. split; [|done].
  intros Htimeout. destruct sg; [|done].
  destruct (Hev (Hsg eq_refl)) as [r0 Hr0]. rewrite Hr0 in Hr. subst r.
  destruct (HP _ Hr0) as [c ->]. by apply outcome_not_timeout in Htimeout.
Qed.


End Submit.



(** C4, counterexample.  The wait times out after 30 time units
    ([ev.wait] returns [False]); Fusion completes the task before the request
    thread reads the slot; the call returns the handler's result, not the
    timeout dict. *)
Lemma result_written_after_the_timeout_is_returned :
  fst (post_and_wait Samples.uuid Samples.frames (Samples.returns "A" (JStr "a")) JNull
         Samples.served_just_too_late Samples.idle) = Normal ("task-0", false) ∧
  clock (snd (post_and_wait Samples.uuid Samples.frames (Samples.returns "A" (JStr "a")) JNull
                Samples.served_just_too_late Samples.idle)) = 30 ∧
  fst (_run_on_fusion_thread Samples.uuid Samples.frames (Samples.returns "A" (JStr "a")) JNull
         Samples.served_just_too_late Samples.idle)
    = Normal (JObj [("ok", JBool true); ("result", JStr "a")]) ∧
  fst (_run_on_fusion_thread Samples.uuid Samples.frames (Samples.returns "A" (JStr "a")) JNull
         Samples.served_just_too_late Samples.idle)
    ≠ Normal timeout_result.
Proof. vm_compute. repeat split. discriminate. Qed.

Lemma submit_waits_at_most_30_witness :
  (∀ j k, Samples.uuid j = Samples.uuid k → j = k) ∧
  WF Samples.uuid Samples.idle ∧
  ∃ signalled w1 s r w',
    post_and_wait Samples.uuid Samples.frames (Samples.returns "A" (JStr "a")) JNull
      Samples.second_request_arrives Samples.idle
      = (Normal (Samples.uuid (uuids_drawn Samples.idle), signalled), w1) ∧
    clock w1 ≤ clock Samples.idle + 30 ∧
    (_task_results
       (foldl (λ (w : @World Samples.Doc) a, others Samples.uuid Samples.frames a w) w1
          (after_wait Samples.second_request_arrives)))
      !! (Samples.uuid (uuids_drawn Samples.idle)) = Some s ∧
    _run_on_fusion_thread Samples.uuid Samples.frames (Samples.returns "A" (JStr "a")) JNull
      Samples.second_request_arrives Samples.idle = (Normal r, w') ∧
    r = (match result s with
         | None => JObj [("ok", JBool false);
                         ("error", JStr "Timeout waiting for Fusion execution.")]
         | Some stored => stored
         end) ∧
    (r = timeout_result → signalled = false) ∧
    clock w' = clock w1 ∧
    _task_results w' !! Samples.uuid (uuids_drawn Samples.idle) = None.
Proof.
  split; [exact uuid_inj|]. split; [exact idle_WF|].
  apply (submit_waits_at_most_30 Samples.uuid Samples.frames
           (Samples.returns "A" (JStr "a")) JNull
           Samples.second_request_arrives Samples.idle);
    [exact uuid_inj|exact idle_WF].
Defined.



End BridgeClaims.

(** ** The request listener *)

Module ListenerClaims.
Import Py BridgeServer BridgeFacts.

Section Listener.

Context {Host : Type}.
Variable uuid4 : nat → string.
Variable tb_frames : PyException → string.
Variable fusion_api : ToolFn → @Handler Host.
Variable repr : Json → string.
Variable json_loads : string → Completion Json.
Variable int_ : string → option Z.

Local Abbreviation World := (@BridgeServer.World Host).
Local Abbreviation _run_on_fusion_thread := (BridgeServer._run_on_fusion_thread uuid4 tb_frames).
Local Abbreviation _dispatch_tool := (BridgeServer._dispatch_tool uuid4 tb_frames fusion_api repr).
Local Abbreviation do_GET := (BridgeServer.do_GET uuid4 tb_frames fusion_api).
Local Abbreviation do_POST :=
  (BridgeServer.do_POST uuid4 tb_frames fusion_api repr json_loads int_).
Local Abbreviation handle_one_request :=
  (BridgeServer.handle_one_request uuid4 tb_frames fusion_api repr json_loads int_).
Local Abbreviation handle :=
  (BridgeServer.handle uuid4 tb_frames fusion_api repr json_loads int_).

Lemma auth_ok_iff r : _auth_ok r = true ↔ x_token r = Some AUTH_TOKEN.
Proof.
  unfold _auth_ok. destruct (x_token r) as [t|]; [|done].
  rewrite String.eqb_eq. split; congruence.
Qed.

Lemma auth_fails_iff r : _auth_ok r = false ↔ x_token r ≠ Some AUTH_TOKEN.
Proof. rewrite <- auth_ok_iff. by destruct (_auth_ok r). Qed.

(** A [GET] or [POST] request that has reached [_Handler] and whose
    [X-Token] header is missing or differs from [AUTH_TOKEN] is answered 401
    with the bridge untouched, whatever its path and body. *)
Lemma unauthenticated_get_or_post_is_401
    (r : Request) (il : Interleaving) (w : World) :
  x_token r ≠ Some AUTH_TOKEN →
  command r = "GET" ∨ command r = "POST" →
  handle_one_request r il w = (Normal (401, JsonBody unauthorized), w).
Proof.
  intros Hauth%auth_fails_iff Hcmd.
  unfold BridgeServer.handle_one_request, BridgeServer.do_GET, BridgeServer.do_POST.
  destruct Hcmd as [-> | ->]; simpl; by rewrite Hauth.
Qed.

(** Any other method that has reached the dispatch is answered 501. *)
Lemma unauthenticated_dispatch (r : Request) (il : Interleaving) (w : World) :
  x_token r ≠ Some AUTH_TOKEN →
  handle_one_request r il w =
    (Normal (if String.eqb (command r) "GET" || String.eqb (command r) "POST"
             then (401, JsonBody unauthorized)
             else (501, ErrorPage ("Unsupported method (" +:+ repr (JStr (command r)) +:+ ")"))), w).
Proof.
  intros Hauth%auth_fails_iff.
  unfold BridgeServer.handle_one_request, BridgeServer.do_GET, BridgeServer.do_POST.
  destruct (String.eqb (command r) "GET"); simpl; [by rewrite Hauth|].
  destruct (String.eqb (command r) "POST"); simpl; [by rewrite Hauth|done].
Qed.

(** A parsed request carries the two headers of the header block. *)
Lemma parse_accepted_headers (c : Connection) status_line r :
  parse_request repr int_ c = Accepted status_line r →
  header_block c = Headers (x_token r) (content_length r).
Proof.
  unfold BridgeServer.parse_request. intros H.
  repeat case_match; simplify_eq; done.
Qed.

Lemma parse_refused_codes (c : Connection) status_line code message :
  parse_request repr int_ c = Refused status_line code message →
  code = 400 ∨ code = 505 ∨ code = 431.
Proof.
  unfold BridgeServer.parse_request. intros H.
  repeat case_match; simplify_eq; auto.
Qed.

Lemma parse_empty_line (c : Connection) :
  raw_requestline c = EmptyString → parse_request repr int_ c = Dropped.
Proof. intros H. unfold BridgeServer.parse_request. by rewrite H. Qed.


(** [tool] names of the registry all appear in the [available] list. *)
Lemma available_complete name f : (name, f) ∈ _TOOL_MAP → JStr name ∈ available.
Proof.
  intros Hin. unfold available.
  apply list_elem_of_fmap. exists name. split; [done|].
  apply list_elem_of_fmap. by exists (name, f).
Qed.

Lemma assoc_Some_elem {A} name (table : list (string * A)) v :
  assoc name table = Some v → (name, v) ∈ table.
Proof.
  induction table as [|[k x] rest IH]; simpl; [done|].
  destruct (String.eqb name k) eqn:Hk.
  - apply String.eqb_eq in Hk as ->. intros [= ->]. by left.
  - intros H. right. by apply IH.
Qed.

Lemma assoc_None_elem {A} name (table : list (string * A)) :
  assoc name table = None ↔ ∀ v, (name, v) ∉ table.
Proof.
  induction table as [|[k x] rest IH]; simpl.
  - split; [|done]. intros _ v Hin. by apply elem_of_nil in Hin.
  - destruct (String.eqb name k) eqn:Hk.
    + apply String.eqb_eq in Hk as ->. split; [done|].
      intros H. exfalso. apply (H x). by left.
    + apply String.eqb_neq in Hk. rewrite IH. split.
      * intros H v [[= ? ?]|Hin]%elem_of_cons; [done|]. by eapply H.
      * intros H v Hin. apply (H v). by right.
Qed.

(** C8.  An authenticated [POST /tool] whose body parses to an object with
    the tool name [name]: when [name] is not a key of [_TOOL_MAP] the answer
    is 200 with [ok: False] and the list of all registered names, and the
    bridge is untouched (nothing queued, no event fired); when it is, the
    answer is 200 with whatever dict [_run_on_fusion_thread] returned for the
    registered handler. *)
Theorem post_tool_dispatch
    (r : Request) (il : Interleaving) (w : World)
    (length : Z) (fields : list (string * Json)) (name : string) :
  (∀ j k, uuid4 j = uuid4 k → j = k) →
  WF uuid4 w →
  command r = "POST" →
  path r = "/tool" →
  x_token r = Some AUTH_TOKEN →
  int_ (default "0" (content_length r)) = Some length →
  json_loads (if (0 <? length)%Z
              then String.substring 0 (Z.to_nat length) (rfile r)
              else "{}") = Normal (JObj fields) →
  get "tool" fields = JStr name →
  ((∀ f, (name, f) ∉ _TOOL_MAP) →
   handle_one_request r il w =
     (Normal (200, JsonBody (JObj [("ok", JBool false);
                                   ("error", JStr ("Unknown tool '" +:+ name +:+ "'."));
                                   ("available", JArr available)])), w) ∧
   ∀ n f, (n, f) ∈ _TOOL_MAP → JStr n ∈ available) ∧
  (∀ f, assoc name _TOOL_MAP = Some f →
   (name, f) ∈ _TOOL_MAP ∧
   ∃ res w',
     _run_on_fusion_thread (handler_of fusion_api f)
       (or_ (get_or "args" (JObj []) fields) (JObj [])) il w = (Normal res, w') ∧
     (res = timeout_result ∨
      ∃ h, res = outcome tb_frames
                   (fst (handler_of fusion_api f
                           (or_ (get_or "args" (JObj []) fields) (JObj [])) h))) ∧
     handle_one_request r il w = (Normal (200, JsonBody res), w')).
Proof.
  intros Hinj HWF Hcmd Hpath Htok%auth_ok_iff Hlen Hjson Htool.
  assert (Hpost : handle_one_request r il w =
            match _dispatch_tool (JObj fields) il w with
            | (Normal res, w') => (Normal (200, JsonBody res), w')
            | (Raised e, w') => (Raised e, w')
            end).
  { unfold BridgeServer.handle_one_request, BridgeServer.do_POST.
    rewrite Hcmd, Hpath, Htok. simpl. rewrite Hlen, Hjson.
    unfold bind, _json_response, ret. reflexivity. }
  split.
  - intros Hnot%assoc_None_elem. split; [|apply available_complete].
    rewrite Hpost. unfold BridgeServer._dispatch_tool, registered.
    rewrite Htool, Hnot. reflexivity.
  - intros f Hf. split; [by apply assoc_Some_elem|].
    destruct (run_on_fusion_thread_spec uuid4 tb_frames Hinj (handler_of fusion_api f)
                (or_ (get_or "args" (JObj []) fields) (JObj []))
                (λ r, ∃ h, r = outcome tb_frames
                               (fst (handler_of fusion_api f
                                       (or_ (get_or "args" (JObj []) fields) (JObj [])) h))))
      with (il := il) (w := w)
      as (sg & w1 & s & res & w' & _ & _ & _ & _ & _ & [_ HP] & _ & Hres & Hrun & _);
      [by eauto|done|].
    exists res, w'. split; [done|].
    split; [destruct (result s) as [r0|]; [right; subst res; by apply HP|by left]|].
    rewrite Hpost. unfold BridgeServer._dispatch_tool, registered.
    rewrite Htool, Hf. change (hashable (JStr name)) with true. cbv iota.
    by rewrite Hrun.
Qed.

End Listener.



Lemma post_tool_dispatch_witness :
  (∀ j k, Samples.uuid j = Samples.uuid k → j = k) ∧
  WF Samples.uuid Samples.idle ∧
  command Samples.post_nonexistent = "POST" ∧
  path Samples.post_nonexistent = "/tool" ∧
  x_token Samples.post_nonexistent = Some AUTH_TOKEN ∧
  Samples.int_ (default "0" (content_length Samples.post_nonexistent)) = Some 22%Z ∧
  JsonText.loads (String.substring 0 22 (rfile Samples.post_nonexistent))
    = Normal (JObj [("tool", JStr "nonexistent")]) ∧
  (∀ f, ("nonexistent", f) ∉ _TOOL_MAP) ∧
  handle_one_request Samples.uuid Samples.frames Samples.api JsonText.repr
    JsonText.loads Samples.int_ Samples.post_nonexistent Samples.quiet Samples.idle
  = (Normal (200, JsonBody (JObj [("ok", JBool false);
                                  ("error", JStr ("Unknown tool '" +:+ "nonexistent" +:+ "'."));
                                  ("available", JArr available)])),
     Samples.idle).
Proof.
  assert (Hnot : ∀ f, ("nonexistent", f) ∉ _TOOL_MAP).
  { by apply assoc_None_elem. }
  split; [exact BridgeClaims.uuid_inj|]. split; [exact BridgeClaims.idle_WF|].
  split; [reflexivity|]. split; [reflexivity|]. split; [reflexivity|].
  split; [reflexivity|]. split; [reflexivity|]. split; [exact Hnot|].
  apply (proj1 (post_tool_dispatch Samples.uuid Samples.frames Samples.api JsonText.repr
                  JsonText.loads Samples.int_ Samples.post_nonexistent Samples.quiet
                  Samples.idle 22%Z [("tool", JStr "nonexistent")] "nonexistent"
                  BridgeClaims.uuid_inj BridgeClaims.idle_WF
                  eq_refl eq_refl eq_refl eq_refl eq_refl eq_refl)).
  exact Hnot.
Defined.

End ListenerClaims.

(** ** [str.find], [str.rfind] and slices *)

Module StrFacts.
Import Py.

Lemma str_app_cons c s t : String c s +:+ t = String c (s +:+ t).
Proof. reflexivity. Qed.

Lemma str_app_assoc a b c : (a +:+ b) +:+ c = a +:+ (b +:+ c).
Proof. induction a as [|x a IH]; [done|]. by rewrite !str_app_cons, IH. Qed.

Lemma str_length_app a b : String.length (a +:+ b) = String.length a + String.length b.
Proof. induction a as [|x a IH]; [done|]. rewrite str_app_cons. simpl. by rewrite IH. Qed.

Lemma find_range c s : find c s = (-1)%Z ∨ (0 ≤ find c s)%Z.
Proof.
  induction s as [|a s IH]; simpl; [by left|].
  destruct (Ascii.eqb a c); [right; lia|].
  destruct (find c s); [right; lia|right; lia|by left].
Qed.

Lemma rfind_range c s : rfind c s = (-1)%Z ∨ (0 ≤ rfind c s)%Z.
Proof.
  induction s as [|a s IH]; simpl; [by left|].
  destruct (rfind c s); [right; lia|right; lia|].
  destruct (Ascii.eqb a c); [right; lia|by left].
Qed.

(** [find] returns the length of the longest prefix without [c]. *)
Lemma find_split c s :
  (0 ≤ find c s)%Z →
  ∃ pre rest, s = pre +:+ String c rest ∧
              Z.of_nat (String.length pre) = find c s ∧
              find c pre = (-1)%Z.
Proof.
  induction s as [|a s IH]; simpl; [lia|].
  destruct (Ascii.eqb a c) eqn:E.
  - apply Ascii.eqb_eq in E as ->. intros _. by exists EmptyString, s.
  - destruct (find c s) as [|p|p] eqn:F; [| |lia]; intros _.
    + destruct IH as (pre & rest & -> & Hlen & Hpre); [lia|].
      exists (String a pre), rest. rewrite str_app_cons. split; [done|].
      simpl. rewrite E, Hpre. split; [lia|done].
    + destruct IH as (pre & rest & -> & Hlen & Hpre); [lia|].
      exists (String a pre), rest. rewrite str_app_cons. split; [done|].
      simpl. rewrite E, Hpre. split; [lia|done].
Qed.

(** [rfind] returns the position after which [c] no longer occurs. *)
Lemma rfind_split c s :
  (0 ≤ rfind c s)%Z →
  ∃ pre post, s = pre +:+ String c post ∧
              Z.of_nat (String.length pre) = rfind c s ∧
              rfind c post = (-1)%Z.
Proof.
  induction s as [|a s IH]; simpl; [lia|].
  destruct (rfind c s) as [|p|p] eqn:F.
  - intros _. destruct IH as (pre & post & -> & Hlen & Hpost); [lia|].
    exists (String a pre), post. rewrite str_app_cons. split; [done|].
    simpl. split; [lia|done].
  - intros _. destruct IH as (pre & post & -> & Hlen & Hpost); [lia|].
    exists (String a pre), post. rewrite str_app_cons. split; [done|].
    simpl. split; [lia|done].
  - destruct (Ascii.eqb a c) eqn:E; [|lia].
    apply Ascii.eqb_eq in E as ->. intros _.
    exists EmptyString, s. split; [done|]. split; [done|].
    destruct (rfind_range c s) as [H|H]; [done|]. rewrite F in H. lia.
Qed.

Lemma app_split_lt pre1 : ∀ pre2 c1 rest1 c2 post2,
  pre1 +:+ String c1 rest1 = pre2 +:+ String c2 post2 →
  String.length pre1 < String.length pre2 →
  ∃ mid, pre2 = pre1 +:+ String c1 mid ∧ rest1 = mid +:+ String c2 post2.
Proof.
  induction pre1 as [|a pre1 IH]; intros [|b pre2] c1 rest1 c2 post2 Heq Hlen;
    simpl in Hlen; try lia.
  - rewrite str_app_cons in Heq. injection Heq as -> ->. by exists pre2.
  - rewrite !str_app_cons in Heq. injection Heq as -> Heq.
    destruct (IH pre2 c1 rest1 c2 post2 Heq) as (mid & -> & ->); [lia|].
    by exists mid.
Qed.

Lemma substring_skip pre n s :
  String.substring (String.length pre) n (pre +:+ s) = String.substring 0 n s.
Proof. induction pre as [|a pre IH]; [done|]. by rewrite str_app_cons. Qed.

Lemma substring_prefix a b :
  String.substring 0 (String.length a) (a +:+ b) = a.
Proof.
  induction a as [|x a IH]; [by destruct b|].
  rewrite str_app_cons. simpl. by rewrite IH.
Qed.

(** The slice from the first [c1] to the last [c2], both included. *)
Lemma slice_between c1 c2 t :
  (0 ≤ find c1 t)%Z →
  (find c1 t < rfind c2 t)%Z →
  ∃ pre mid post,
    t = pre +:+ String c1 (mid +:+ String c2 EmptyString) +:+ post ∧
    slice t (find c1 t) (rfind c2 t + 1) = String c1 (mid +:+ String c2 EmptyString) ∧
    find c1 pre = (-1)%Z ∧
    rfind c2 post = (-1)%Z.
Proof.
  intros Hi Hij.
  destruct (find_split c1 t Hi) as (pre1 & rest1 & Ht1 & Hl1 & Hpre).
  destruct (rfind_split c2 t) as (pre2 & post2 & Ht2 & Hl2 & Hpost); [lia|].
  destruct (app_split_lt pre1 pre2 c1 rest1 c2 post2) as (mid & -> & ->);
    [congruence|lia|].
  exists pre1, mid, post2.
  assert (Hbody : String c1 (mid +:+ String c2 post2) =
                  String c1 (mid +:+ String c2 EmptyString) +:+ post2).
  { rewrite str_app_cons, str_app_assoc. by rewrite str_app_cons. }
  split; [by rewrite <- Hbody|]. split; [|done].
  unfold slice. rewrite <- Hl1, <- Hl2, Ht1, Nat2Z.id.
  rewrite substring_skip, Hbody.
  replace (Z.to_nat _) with (String.length (String c1 (mid +:+ String c2 EmptyString))).
  - apply substring_prefix.
  - rewrite str_length_app. simpl. rewrite str_length_app. simpl. lia.
Qed.

End StrFacts.

(** ** The agent loop of chat_cli.py *)

Module ChatClaims.
Import Py ChatCli StrFacts.

Lemma model_calls_app a b : model_calls (a ++ b) = model_calls a + model_calls b.
Proof. unfold model_calls. by rewrite List.filter_app, length_app. Qed.

Lemma tool_dispatches_app a b :
  tool_dispatches (a ++ b) = tool_dispatches a + tool_dispatches b.
Proof. unfold tool_dispatches. by rewrite List.filter_app, length_app. Qed.

Lemma eq_str_true v s : eq_str v s = true → v = JStr s.
Proof. destruct v; simpl; try done. by intros ->%String.eqb_eq. Qed.

Section Agent.

Variable json_loads : string → Completion Json.
Variable json_dumps : Json → string.
Variable json_dumps_indent2 : Json → string.
Variable repr : Json → string.
Variable llm : list Message → option string.
Variable http_get : list Effect → string → Completion Json.
Variable http_post : list Effect → string → Json → Completion Json.

Local Abbreviation _parse_json_only := (ChatCli._parse_json_only json_loads).
Local Abbreviation _execute_tool := (ChatCli._execute_tool repr http_get http_post).
Local Abbreviation agent_loop :=
  (ChatCli.agent_loop json_loads json_dumps json_dumps_indent2 repr llm http_get http_post).
Local Abbreviation agent_turn :=
  (ChatCli.agent_turn json_loads json_dumps json_dumps_indent2 repr llm http_get http_post).
Local Abbreviation is_tool_call := (ChatCli.is_tool_call json_loads).
Local Abbreviation tool_not_allowed := (ChatCli.tool_not_allowed repr).

(** *** One tool execution *)

(** A tool execution adds at most one effect, and only a request to the
    bridge. *)
Lemma execute_tool_effects tool_name args hist :
  ∃ extra, snd (_execute_tool tool_name args hist) = hist ++ extra ∧
           model_calls extra = 0 ∧ tool_dispatches extra ≤ 1.
Proof.
  assert (Hnone : ∃ extra, hist = hist ++ extra ∧
                           model_calls extra = 0 ∧ tool_dispatches extra ≤ 1).
  { exists []. rewrite app_nil_r. repeat split. unfold tool_dispatches. simpl. lia. }
  unfold ChatCli._execute_tool.
  destruct (hashable tool_name); [|done].
  destruct tool_name as [| | |name| |]; try done.
  destruct (assoc name TOOL_ROUTER) as [[verb target]|]; [|done].
  simpl. destruct (String.eqb verb "GET").
  - exists [HttpGet target]. repeat split. unfold tool_dispatches. simpl. lia.
  - exists [HttpPost target (or_ args (JObj []))]. repeat split.
    unfold tool_dispatches. simpl. lia.
Qed.

(** *** One cycle *)

Lemma agent_loop_parse_failure steps messages hist e :
  _parse_json_only (strip (default EmptyString (llm messages))) = Raised e →
  agent_loop (S steps) messages hist =
    (Normal (JStr (parse_failure (strip (default EmptyString (llm messages))) e),
             messages ++ [mkMessage "assistant" (strip (default EmptyString (llm messages)))]),
     hist ++ [ModelCall messages]).
Proof. intros H. simpl. by rewrite H. Qed.

Lemma agent_loop_final steps messages hist fields :
  _parse_json_only (strip (default EmptyString (llm messages))) = Normal (JObj fields) →
  eq_str (get "action" fields) "final" = true →
  agent_loop (S steps) messages hist =
    (Normal (get_or "message" (JStr EmptyString) fields,
             messages ++ [mkMessage "assistant" (json_dumps (JObj fields))]),
     hist ++ [ModelCall messages]).
Proof. intros H Hf. simpl. by rewrite H, Hf. Qed.

Lemma agent_loop_tool steps messages hist fields :
  _parse_json_only (strip (default EmptyString (llm messages))) = Normal (JObj fields) →
  eq_str (get "action" fields) "tool" = true →
  truthy (get "tool_name" fields) = true →
  agent_loop (S steps) messages hist =
    agent_loop steps
      ((messages ++ [mkMessage "assistant" (json_dumps (JObj fields))]) ++
       [mkMessage "user"
          (json_dumps_indent2
             (tool_result (get "tool_name" fields) (or_ (get "args" fields) (JObj []))
                match fst (_execute_tool (get "tool_name" fields)
                             (or_ (get "args" fields) (JObj []))
                             (hist ++ [ModelCall messages])) with
                | Normal v => v
                | Raised e => JObj [("ok", JBool false); ("error", JStr (exc_str e))]
                end))])
      (snd (_execute_tool (get "tool_name" fields) (or_ (get "args" fields) (JObj []))
              (hist ++ [ModelCall messages]))).
Proof.
  intros H Ht Hn. simpl. rewrite H, Ht, Hn.
  apply eq_str_true in Ht. rewrite Ht. simpl.
  by destruct (_execute_tool _ _ _) as [r h].
Qed.

(** A cycle either ends the turn, with the model call as its only effect
    and one entry added, or runs a tool call. *)
Lemma agent_loop_cycle steps messages hist :
  (∃ res, agent_loop (S steps) messages hist = (res, hist ++ [ModelCall messages]) ∧
          (res = Raised AttributeError_get ∨
           ∃ reply m, res = Normal (reply, messages ++ [mkMessage "assistant" m]))) ∨
  (∃ fields,
     _parse_json_only (strip (default EmptyString (llm messages))) = Normal (JObj fields) ∧
     eq_str (get "action" fields) "tool" = true ∧
     truthy (get "tool_name" fields) = true).
Proof.
  destruct (_parse_json_only (strip (default EmptyString (llm messages))))
    as [cmd|e] eqn:Hparse.
  2:{ left. rewrite (agent_loop_parse_failure steps messages hist e Hparse).
      eexists. split; [done|]. right. by eexists _, _. }
  destruct cmd as [| | | | |fields];
    try (left; simpl; rewrite Hparse; eexists; split; [done|]; by left).
  destruct (eq_str (get "action" fields) "final") eqn:Hfinal.
  { left. rewrite (agent_loop_final steps messages hist fields Hparse Hfinal).
    eexists. split; [done|]. right. by eexists _, _. }
  destruct (eq_str (get "action" fields) "tool") eqn:Htool.
  2:{ left. simpl. rewrite Hparse, Hfinal, Htool. simpl.
      eexists. split; [done|]. right. by eexists _, _. }
  destruct (truthy (get "tool_name" fields)) eqn:Hname.
  2:{ left. simpl. rewrite Hparse, Hfinal, Htool, Hname. simpl.
      eexists. split; [done|]. right. by eexists _, _. }
  right. by exists fields.
Qed.

(** A tool call without a usable name ends the turn. *)
Lemma agent_loop_missing_tool_name steps messages hist fields :
  _parse_json_only (strip (default EmptyString (llm messages))) = Normal (JObj fields) →
  eq_str (get "action" fields) "tool" = true →
  truthy (get "tool_name" fields) = false →
  agent_loop (S steps) messages hist =
    (Normal (JStr ("Missing tool_name in: " +:+ repr (JObj fields)),
             messages ++ [mkMessage "assistant" (json_dumps (JObj fields))]),
     hist ++ [ModelCall messages]).
Proof.
  intros H Ht Hn. simpl. rewrite H, Ht, Hn.
  apply eq_str_true in Ht. by rewrite Ht.
Qed.

(** The loop only adds to the effects. *)
Lemma agent_loop_extends steps : ∀ messages hist,
  ∃ effects, snd (agent_loop steps messages hist) = hist ++ effects.
Proof.
  induction steps as [|steps IH]; intros messages hist.
  - exists []. simpl. by rewrite app_nil_r.
  - destruct (agent_loop_cycle steps messages hist)
      as [(res & -> & _)|(fields & Hparse & Htool & Hname)]; [by eexists|].
    rewrite (agent_loop_tool steps messages hist fields Hparse Htool Hname).
    destruct (execute_tool_effects (get "tool_name" fields)
                (or_ (get "args" fields) (JObj [])) (hist ++ [ModelCall messages]))
      as (extra & Hext & _).
    rewrite Hext.
    match goal with |- context [agent_loop steps ?m ?h] =>
      destruct (IH m h) as (effects & Heq)
    end.
    exists ([ModelCall messages] ++ extra ++ effects).
    by rewrite Heq, <- !app_assoc.
Qed.

(** Every cycle begins with a call of the model on the conversation as it
    is. *)
Lemma agent_loop_first_call steps messages hist :
  ∃ rest, snd (agent_loop (S steps) messages hist) = hist ++ ModelCall messages :: rest.
Proof.
  destruct (agent_loop_cycle steps messages hist)
    as [(res & -> & _)|(fields & Hparse & Htool & Hname)]; [by exists []|].
  rewrite (agent_loop_tool steps messages hist fields Hparse Htool Hname).
  destruct (execute_tool_effects (get "tool_name" fields)
              (or_ (get "args" fields) (JObj [])) (hist ++ [ModelCall messages]))
    as (extra & Hext & _).
  rewrite Hext.
  match goal with |- context [agent_loop steps ?m ?h] =>
    destruct (agent_loop_extends steps m h) as (effects & Heq)
  end.
  exists (extra ++ effects). rewrite Heq, <- !app_assoc. reflexivity.
Qed.

(** *** The step budget *)

Lemma agent_loop_budget steps : ∀ messages hist,
  (∀ conversation, is_tool_call (llm conversation)) →
  ∃ messages' effects,
    agent_loop steps messages hist =
      (Normal (JStr "Max steps reached without finishing.", messages'), hist ++ effects) ∧
    model_calls effects = steps ∧
    tool_dispatches effects ≤ steps ∧
    length messages' = length messages + 2 * steps.
Proof.
  induction steps as [|steps IH]; intros messages hist Hllm.
  - exists messages, []. simpl. rewrite app_nil_r. split; [done|]. split; [done|].
    split; [done|lia].
  - destruct (Hllm messages) as (fields & Hparse & Htool & Hname).
    rewrite (agent_loop_tool steps messages hist fields Hparse Htool Hname).
    destruct (execute_tool_effects (get "tool_name" fields)
                (or_ (get "args" fields) (JObj [])) (hist ++ [ModelCall messages]))
      as (extra & Hext & Hm & Ht).
    rewrite Hext.
    match goal with |- context [agent_loop steps ?m ?h] =>
      destruct (IH m h Hllm) as (messages' & effects & Heq & Hmc & Htd & Hlen)
    end.
    exists messages', ([ModelCall messages] ++ extra ++ effects).
    split; [by rewrite Heq, <- !app_assoc|].
    rewrite !model_calls_app, !tool_dispatches_app.
    split; [change (model_calls [ModelCall messages]) with 1; lia|].
    split; [change (tool_dispatches [ModelCall messages]) with 0; lia|].
    rewrite Hlen, !length_app. simpl. lia.
Qed.

(** C5.  With a model that answers every conversation with a tool call,
    [agent_turn] ends with the fixed message after 12 cycles: 12 model
    calls, at most 12 requests to the bridge, and two entries added to the
    conversation per cycle after the user's. *)
Theorem agent_turn_stops_after_12_cycles user_text messages hist :
  (∀ conversation, is_tool_call (llm conversation)) →
  ∃ messages' effects,
    agent_turn user_text messages hist =
      (Normal (JStr "Max steps reached without finishing.", messages'), hist ++ effects) ∧
    model_calls effects = 12 ∧
    tool_dispatches effects ≤ 12 ∧
    length messages' = length messages + 1 + 2 * 12.
Proof.
  intros Hllm. unfold ChatCli.agent_turn.
  destruct (agent_loop_budget 12 (messages ++ [mkMessage "user" user_text]) hist Hllm)
    as (messages' & effects & Heq & Hmc & Htd & Hlen).
  exists messages', effects. split; [done|]. split; [done|]. split; [done|].
  rewrite Hlen, length_app. simpl. lia.
Qed.

(** *** Extraction of the JSON object *)

Lemma parse_starts_with_brace text :
  startswith "{"%char (strip text) = true →
  _parse_json_only text = json_loads (strip text).
Proof. intros H. unfold ChatCli._parse_json_only. by rewrite H. Qed.

Lemma parse_extracts text :
  startswith "{"%char (strip text) = false →
  (0 ≤ find "{"%char (strip text))%Z →
  (find "{"%char (strip text) < rfind "}"%char (strip text))%Z →
  ∃ pre mid post,
    strip text = pre +:+ String "{"%char (mid +:+ "}") +:+ post ∧
    find "{"%char pre = (-1)%Z ∧
    rfind "}"%char post = (-1)%Z ∧
    _parse_json_only text = json_loads (String "{"%char (mid +:+ "}")).
Proof.
  intros Hs Hi Hij.
  destruct (slice_between "{"%char "}"%char (strip text) Hi Hij)
    as (pre & mid & post & Ht & Hsl & Hpre & Hpost).
  exists pre, mid, post. split; [done|]. split; [done|]. split; [done|].
  unfold ChatCli._parse_json_only. rewrite Hs. simpl negb. cbv iota.
  replace (negb (find "{"%char (strip text) =? -1)%Z) with true
    by (symmetry; apply negb_true_iff, Z.eqb_neq; lia).
  replace (negb (rfind "}"%char (strip text) =? -1)%Z) with true
    by (symmetry; apply negb_true_iff, Z.eqb_neq; lia).
  replace (find "{"%char (strip text) <? rfind "}"%char (strip text))%Z with true
    by (symmetry; apply Z.ltb_lt; lia).
  simpl andb. cbv iota. by rewrite Hsl.
Qed.

Lemma parse_without_braces text :
  startswith "{"%char (strip text) = false →
  ¬ ((0 ≤ find "{"%char (strip text))%Z ∧
     (find "{"%char (strip text) < rfind "}"%char (strip text))%Z) →
  _parse_json_only text = json_loads (strip text).
Proof.
  intros Hs Hno. unfold ChatCli._parse_json_only. rewrite Hs. simpl negb. cbv iota.
  destruct (find_range "{"%char (strip text)) as [Hi|Hi].
  - by rewrite Hi.
  - destruct (Z.ltb_spec (find "{"%char (strip text)) (rfind "}"%char (strip text)))
      as [Hlt|Hge]; [by destruct Hno|].
    by rewrite !andb_false_r.
Qed.

(** What [_parse_json_only] does with each kind of output.  Output that
    starts with [{] is parsed as it is.  Output that does not is cut down to the text from its first [{] to
    its last [}] when there is such a text, and that is parsed; otherwise it
    is parsed as it is.  The example output yields the reply ["ok"] after one
    model call.  When the one parse fails the turn ends at once with a reply
    that holds the raw text and the error. *)
Theorem parse_recovery_as_coded user_text messages hist :
  (∀ text, startswith "{"%char (strip text) = true →
           _parse_json_only text = json_loads (strip text)) ∧
  (∀ text, startswith "{"%char (strip text) = false →
           (0 ≤ find "{"%char (strip text))%Z →
           (find "{"%char (strip text) < rfind "}"%char (strip text))%Z →
           ∃ pre mid post,
             strip text = pre +:+ String "{"%char (mid +:+ "}") +:+ post ∧
             find "{"%char pre = (-1)%Z ∧
             rfind "}"%char post = (-1)%Z ∧
             _parse_json_only text = json_loads (String "{"%char (mid +:+ "}"))) ∧
  (∀ text, startswith "{"%char (strip text) = false →
           ¬ ((0 ≤ find "{"%char (strip text))%Z ∧
              (find "{"%char (strip text) < rfind "}"%char (strip text))%Z) →
           _parse_json_only text = json_loads (strip text)) ∧
  (json_loads Samples.final_ok_text = Normal Samples.final_ok →
   llm (messages ++ [mkMessage "user" user_text]) = Some Samples.sure_thanks →
   agent_turn user_text messages hist =
     (Normal (JStr "ok",
              (messages ++ [mkMessage "user" user_text]) ++
              [mkMessage "assistant" (json_dumps Samples.final_ok)]),
      hist ++ [ModelCall (messages ++ [mkMessage "user" user_text])])) ∧
  (∀ e,
   _parse_json_only
     (strip (default EmptyString (llm (messages ++ [mkMessage "user" user_text])))) = Raised e →
   agent_turn user_text messages hist =
     (Normal (JStr ("Model did not return valid JSON." +:+ nl +:+ "Raw:" +:+ nl +:+
                    strip (default EmptyString (llm (messages ++ [mkMessage "user" user_text]))) +:+
                    nl +:+ "Error: " +:+ exc_str e),
              (messages ++ [mkMessage "user" user_text]) ++
              [mkMessage "assistant"
                 (strip (default EmptyString (llm (messages ++ [mkMessage "user" user_text]))))]),
      hist ++ [ModelCall (messages ++ [mkMessage "user" user_text])])).
Proof.
  split; [exact parse_starts_with_brace|].
  split; [exact parse_extracts|].
  split; [exact parse_without_braces|].
  split.
  - intros Hjson Hllm. unfold ChatCli.agent_turn.
    apply (agent_loop_final 11 _ hist (("action", JStr "final") :: [("message", JStr "ok")])).
    + rewrite Hllm. transitivity (json_loads Samples.final_ok_text); [|exact Hjson].
      by vm_compute.
    + done.
  - intros e He. unfold ChatCli.agent_turn.
    by rewrite (agent_loop_parse_failure 11 _ hist e He).
Qed.

(** *** The tool router *)

Lemma router_verbs name verb target :
  assoc name TOOL_ROUTER = Some (verb, target) → verb = "GET" ∨ verb = "POST".
Proof.
  assert (H : Forall (λ kv, fst (snd kv) = "GET" ∨ fst (snd kv) = "POST") TOOL_ROUTER).
  { unfold TOOL_ROUTER. repeat (constructor; [simpl; auto|]). constructor. }
  intros Hin%ListenerClaims.assoc_Some_elem.
  rewrite Forall_forall in H. by apply H in Hin.
Qed.

(** C9, as the code has it.  For a [tool_name] that is not a key of
    [TOOL_ROUTER], [_execute_tool] makes no request.  What happens next
    depends on the name and on the loop.  In chat_cli.py a name that is
    missing, [null] or empty never reaches [_execute_tool]: the turn ends
    with [Missing tool_name in: ...] and nothing is fed back.  Any other
    name is answered with [{"ok": False, "error": "Tool not allowed: <name>"}]
    (with the [TypeError] of the lookup when the name is a list or an
    object), the answer is appended to the conversation as the
    [tool_result] of the cycle, and the next cycle calls the model with the
    conversation that ends with it.  In run_agent.py a name outside
    [ALLOWED_TOOLS] ends the run with [RuntimeError] (with [TypeError]
    when it is a list or an object), also without a request.  For a name
    that is a key, [_execute_tool] makes the one request that the entry
    names: a [GET] of the path, or a [POST /tool] with the tool and
    [args or {}]; in the loop that request is the next effect after the
    model call of the cycle. *)
Theorem unknown_tool_makes_no_request tool_name args hist :
  (∀ name, tool_name = JStr name → assoc name TOOL_ROUTER = None) →
  _execute_tool tool_name args hist =
    (if hashable tool_name then Normal (tool_not_allowed tool_name)
     else Raised TypeError_unhashable, hist) ∧
  (∀ name, tool_name = JStr name →
     tool_not_allowed tool_name =
       JObj [("ok", JBool false); ("error", JStr ("Tool not allowed: " +:+ name))]) ∧
  (∀ messages fields,
     _parse_json_only (strip (default EmptyString (llm messages))) = Normal (JObj fields) →
     eq_str (get "action" fields) "tool" = true →
     get "tool_name" fields = tool_name →
     (truthy tool_name = true →
      ∀ fed,
        fed = messages ++
              [mkMessage "assistant" (json_dumps (JObj fields));
               mkMessage "user"
                 (json_dumps_indent2
                    (tool_result tool_name (or_ (get "args" fields) (JObj []))
                       (if hashable tool_name then tool_not_allowed tool_name
                        else JObj [("ok", JBool false);
                                   ("error", JStr (exc_str TypeError_unhashable))])))] →
        agent_loop 1 messages hist =
          (Normal (JStr "Max steps reached without finishing.", fed),
           hist ++ [ModelCall messages]) ∧
        ∀ steps, ∃ rest,
          snd (agent_loop (S (S steps)) messages hist) =
            hist ++ ModelCall messages :: ModelCall fed :: rest) ∧
     (truthy tool_name = false →
      ∀ steps,
        agent_loop (S steps) messages hist =
          (Normal (JStr ("Missing tool_name in: " +:+ repr (JObj fields)),
                   messages ++ [mkMessage "assistant" (json_dumps (JObj fields))]),
           hist ++ [ModelCall messages]))) ∧
  (∀ steps messages fields,
     RunAgent.extract_json json_loads (strip (default EmptyString (llm messages)))
       = Normal (JObj fields) →
     eq_str (get "action" fields) "tool" = true →
     (∀ name, get "tool_name" fields = JStr name →
              assoc name RunAgent.ALLOWED_TOOLS = None) →
     RunAgent.main_loop json_loads json_dumps_indent2 repr llm http_get http_post
       (S steps) messages hist =
       (Raised (if hashable (get "tool_name" fields)
                then RuntimeError ("Tool not allowed: " +:+
                                   format_value repr (get "tool_name" fields))
                else TypeError_unhashable),
        hist ++ [ModelCall messages])) ∧
  (∀ name verb target,
     assoc name TOOL_ROUTER = Some (verb, target) →
     ((verb = "GET" ∧
       _execute_tool (JStr name) args hist =
         (http_get hist target, hist ++ [HttpGet target])) ∨
      (verb = "POST" ∧
       _execute_tool (JStr name) args hist =
         (http_post hist target (or_ args (JObj [])),
          hist ++ [HttpPost target (or_ args (JObj []))]))) ∧
     ∀ steps messages fields,
       _parse_json_only (strip (default EmptyString (llm messages)))
         = Normal (JObj fields) →
       eq_str (get "action" fields) "tool" = true →
       get "tool_name" fields = JStr name →
       ∃ rest,
         snd (agent_loop (S steps) messages hist) =
           hist ++ ModelCall messages
                :: (if String.eqb verb "GET" then HttpGet target
                    else HttpPost target (or_ (or_ (get "args" fields) (JObj [])) (JObj [])))
                :: rest).
Proof.
  intros Hunknown.
  assert (Hexec : ∀ args' hist',
            _execute_tool tool_name args' hist' =
              (if hashable tool_name then Normal (tool_not_allowed tool_name)
               else Raised TypeError_unhashable, hist')).
  { intros args' hist'. unfold ChatCli._execute_tool.
    destruct tool_name as [| | |name| |]; try done.
    simpl hashable. cbv iota. by rewrite (Hunknown name eq_refl). }
  split; [apply Hexec|].
  split; [by intros name ->|].
  split; [|split].
  - intros messages fields Hparse Htool Hname. split.
    + intros Htruthy fed Hfed.
      assert (Hstep : ∀ steps,
                agent_loop (S steps) messages hist =
                  agent_loop steps fed (hist ++ [ModelCall messages])).
      { intros steps.
        rewrite (agent_loop_tool steps messages hist fields Hparse Htool)
          by (by rewrite Hname).
        rewrite Hname, Hexec, Hfed, <- app_assoc. simpl.
        by destruct (hashable tool_name). }
      split; [by rewrite Hstep|].
      intros steps. rewrite Hstep.
      destruct (agent_loop_first_call steps fed (hist ++ [ModelCall messages]))
        as [rest Hrest].
      exists rest. by rewrite Hrest, <- app_assoc.
    + intros Hfalsy steps. apply agent_loop_missing_tool_name; [done|done|].
      by rewrite Hname.
  - intros steps messages fields Hparse Htool Hnone.
    simpl. rewrite Hparse, Htool.
    apply eq_str_true in Htool. rewrite Htool. simpl.
    unfold RunAgent.allowed.
    destruct (get "tool_name" fields) as [| | |name| |]; try done.
    simpl hashable. cbv iota. by rewrite (Hnone name eq_refl).
  - intros name verb target Hsome. split.
    { unfold ChatCli._execute_tool. simpl hashable. cbv iota. rewrite Hsome.
      destruct (router_verbs name verb target Hsome) as [-> | ->]; [by left|by right]. }
    intros steps messages fields Hparse Htool Hname.
    assert (Htruthy : truthy (get "tool_name" fields) = true).
    { rewrite Hname. simpl. apply negb_true_iff, String.eqb_neq.
      intros ->. by vm_compute in Hsome. }
    rewrite (agent_loop_tool steps messages hist fields Hparse Htool Htruthy).
    rewrite Hname. unfold ChatCli._execute_tool at 2. simpl hashable. cbv iota.
    rewrite Hsome. simpl fst. simpl snd.
    match goal with |- context [agent_loop steps ?m ?h] =>
      destruct (agent_loop_extends steps m h) as (effects & Heq)
    end.
    rewrite Heq. exists effects.
    destruct (String.eqb verb "GET"); unfold fusion_get, fusion_tool; simpl;
      by rewrite <- !app_assoc.
Qed.

End Agent.

Lemma agent_turn_stops_after_12_cycles_witness :
  (∀ conversation,
     is_tool_call JsonText.loads (Samples.always Samples.ping_call conversation)) ∧
  ∃ messages' effects,
    agent_turn JsonText.loads JsonText.dumps JsonText.dumps JsonText.repr
      (Samples.always Samples.ping_call) Samples.bridge_get Samples.bridge_post
      "Ping Fusion." Samples.system_only []
    = (Normal (JStr "Max steps reached without finishing.", messages'), [] ++ effects) ∧
    model_calls effects = 12 ∧
    tool_dispatches effects ≤ 12 ∧
    length messages' = length Samples.system_only + 1 + 2 * 12.
Proof.
  assert (H : ∀ conversation,
            is_tool_call JsonText.loads (Samples.always Samples.ping_call conversation)).
  { intros conversation. eexists. vm_compute. repeat split. }
  split; [exact H|].
  apply (agent_turn_stops_after_12_cycles JsonText.loads JsonText.dumps JsonText.dumps
           JsonText.repr (Samples.always Samples.ping_call)
           Samples.bridge_get Samples.bridge_post "Ping Fusion." Samples.system_only []).
  exact H.
Defined.

(** C6, at a failing input.  The model output is an object followed by
    prose.  It is not JSON as it stands, and the text from its first [{] to
    its last [}] is the object, which holds a [final] action.  The comment
    in [_parse_json_only] says that surrounding text is to be cut away, and
    prose in front of the object is; here the text starts with [{], the
    extraction is skipped, and the turn ends with the parse failure instead
    of the reply ["ok"]. *)
Theorem object_followed_by_prose_is_not_recovered :
  JsonText.loads Samples.object_then_prose = Raised (JSONDecodeError "Extra data") ∧
  spec_parse_with_recovery JsonText.loads Samples.object_then_prose
    = Normal Samples.final_ok ∧
  _parse_json_only JsonText.loads Samples.object_then_prose
    = Raised (JSONDecodeError "Extra data") ∧
  _parse_json_only JsonText.loads Samples.object_then_prose
    ≠ spec_parse_with_recovery JsonText.loads Samples.object_then_prose ∧
  fst (agent_turn JsonText.loads JsonText.dumps JsonText.dumps JsonText.repr
         (Samples.always Samples.object_then_prose) Samples.bridge_get Samples.bridge_post
         "hi" Samples.system_only [])
    = Normal (JStr (parse_failure Samples.object_then_prose (JSONDecodeError "Extra data")),
              Samples.system_only ++
              [mkMessage "user" "hi"; mkMessage "assistant" Samples.object_then_prose]).
Proof. vm_compute. repeat split. discriminate. Qed.

Lemma parse_recovery_as_coded_witness :
  JsonText.loads Samples.final_ok_text = Normal Samples.final_ok ∧
  agent_turn JsonText.loads JsonText.dumps JsonText.dumps JsonText.repr
    (Samples.always Samples.sure_thanks) Samples.bridge_get Samples.bridge_post
    "hi" Samples.system_only []
  = (Normal (JStr "ok",
             (Samples.system_only ++ [mkMessage "user" "hi"]) ++
             [mkMessage "assistant" (JsonText.dumps Samples.final_ok)]),
     [] ++ [ModelCall (Samples.system_only ++ [mkMessage "user" "hi"])]).
Proof.
  split; [by vm_compute|].
  apply (proj1 (proj2 (proj2 (proj2
           (parse_recovery_as_coded JsonText.loads JsonText.dumps JsonText.dumps
              JsonText.repr (Samples.always Samples.sure_thanks)
              Samples.bridge_get Samples.bridge_post "hi" Samples.system_only []))))).
  - by vm_compute.
  - reflexivity.
Defined.

(** C9, counterexample.  The model asks for a tool with the empty name,
    which is no key of [TOOL_ROUTER].  The turn of chat_cli.py ends with
    [Missing tool_name in: ...] after the one model call: the conversation
    has the command as its last entry and no [tool_result], and the model
    is not called again.  In run_agent.py the name [fusion_teleport], which
    is not in [ALLOWED_TOOLS], ends the run with [RuntimeError]. *)
Lemma unrouted_tool_name_is_not_fed_back :
  assoc EmptyString TOOL_ROUTER = None ∧
  _parse_json_only JsonText.loads MoreSamples.empty_name_call
    = Normal (JObj [("action", JStr "tool"); ("tool_name", JStr EmptyString);
                    ("args", JObj [])]) ∧
  agent_turn JsonText.loads JsonText.dumps JsonText.dumps JsonText.repr
    (Samples.always MoreSamples.empty_name_call) Samples.bridge_get Samples.bridge_post
    "hi" Samples.system_only []
  = (Normal (JStr ("Missing tool_name in: " +:+
                   JsonText.repr (JObj [("action", JStr "tool");
                                        ("tool_name", JStr EmptyString);
                                        ("args", JObj [])])),
             Samples.system_only ++
             [mkMessage "user" "hi";
              mkMessage "assistant"
                (JsonText.dumps (JObj [("action", JStr "tool");
                                       ("tool_name", JStr EmptyString);
                                       ("args", JObj [])]))]),
     [ModelCall (Samples.system_only ++ [mkMessage "user" "hi"])]) ∧
  assoc "fusion_teleport" RunAgent.ALLOWED_TOOLS = None ∧
  RunAgent.main JsonText.loads JsonText.dumps JsonText.repr
    (Samples.always Samples.bogus_call) Samples.bridge_get Samples.bridge_post 8
  = (Raised (RuntimeError "Tool not allowed: fusion_teleport"),
     [ModelCall [mkMessage "system" RunAgent.SYSTEM; mkMessage "user" RunAgent.GOAL]]).
Proof. vm_compute. repeat split. Qed.

Lemma unknown_tool_makes_no_request_witness :
  (∀ name, JStr "fusion_teleport" = JStr name → assoc name TOOL_ROUTER = None) ∧
  _execute_tool JsonText.repr Samples.bridge_get Samples.bridge_post
    (JStr "fusion_teleport") (JObj []) []
  = (Normal (tool_not_allowed JsonText.repr (JStr "fusion_teleport")), []) ∧
  tool_not_allowed JsonText.repr (JStr "fusion_teleport")
  = JObj [("ok", JBool false); ("error", JStr "Tool not allowed: fusion_teleport")] ∧
  ∃ rest,
    snd (agent_loop JsonText.loads JsonText.dumps JsonText.dumps JsonText.repr
           (Samples.always Samples.bogus_call) Samples.bridge_get Samples.bridge_post
           12 Samples.system_only [])
    = [] ++ ModelCall Samples.system_only
         :: ModelCall
              (Samples.system_only ++
               [mkMessage "assistant"
                  (JsonText.dumps (JObj [("action", JStr "tool");
                                         ("tool_name", JStr "fusion_teleport");
                                         ("args", JObj [])]));
                mkMessage "user"
                  (JsonText.dumps
                     (tool_result (JStr "fusion_teleport") (JObj [])
                        (tool_not_allowed JsonText.repr (JStr "fusion_teleport"))))])
         :: rest.
Proof.
  assert (Hunknown : ∀ name, JStr "fusion_teleport" = JStr name →
                             assoc name TOOL_ROUTER = None)
    by (by intros name [= <-]).
  destruct (unknown_tool_makes_no_request JsonText.loads JsonText.dumps JsonText.dumps
              JsonText.repr (Samples.always Samples.bogus_call)
              Samples.bridge_get Samples.bridge_post
              (JStr "fusion_teleport") (JObj []) [] Hunknown)
    as (Hexec & Hmsg & Hfed & _).
  split; [exact Hunknown|]. split; [exact Hexec|].
  split; [exact (Hmsg _ eq_refl)|].
  destruct (Hfed Samples.system_only
              [("action", JStr "tool"); ("tool_name", JStr "fusion_teleport");
               ("args", JObj [])])
    as [Htruthy _]; [by vm_compute|reflexivity|reflexivity|].
  destruct (Htruthy eq_refl _ eq_refl) as [_ Hnext].
  exact (Hnext 10).
Defined.

End ChatClaims.

(** ** The scripted loop of run_agent.py *)

Module RunAgentFacts.
Import Py ChatCli RunAgent.

Section Agent.

Variable json_loads : string → Completion Json.
Variable json_dumps_indent2 : Json → string.
Variable repr : Json → string.
Variable llm : list Message → option string.
Variable http_get : list Effect → string → Completion Json.
Variable http_post : list Effect → string → Json → Completion Json.

Local Abbreviation main_loop :=
  (RunAgent.main_loop json_loads json_dumps_indent2 repr llm http_get http_post).

(** Here a tool name outside [ALLOWED_TOOLS] ends the run with
    [RuntimeError], before any request. *)
Lemma main_raises_on_unknown_tool steps messages hist fields name :
  extract_json json_loads (strip (default EmptyString (llm messages))) = Normal (JObj fields) →
  eq_str (get "action" fields) "tool" = true →
  get "tool_name" fields = JStr name →
  assoc name ALLOWED_TOOLS = None →
  main_loop (S steps) messages hist =
    (Raised (RuntimeError ("Tool not allowed: " +:+ name)), hist ++ [ModelCall messages]).
Proof.
  intros Hparse Htool Hname Hnone. simpl. rewrite Hparse, Htool.
  apply ChatClaims.eq_str_true in Htool. rewrite Htool. simpl.
  rewrite Hname. unfold allowed. simpl hashable. cbv iota. by rewrite Hnone.
Qed.

End Agent.

(** The script runs [main()] with 8 steps, and running out of them raises. *)
Lemma main_default_stops_after_8_cycles :
  fst (main_default JsonText.loads JsonText.dumps JsonText.repr
         (Samples.always Samples.ping_call) Samples.bridge_get Samples.bridge_post)
    = Raised (RuntimeError "Max steps reached without finishing.") ∧
  model_calls (snd (main_default JsonText.loads JsonText.dumps JsonText.repr
                      (Samples.always Samples.ping_call)
                      Samples.bridge_get Samples.bridge_post)) = 8 ∧
  tool_dispatches (snd (main_default JsonText.loads JsonText.dumps JsonText.repr
                          (Samples.always Samples.ping_call)
                          Samples.bridge_get Samples.bridge_post)) = 8.
Proof. vm_compute. repeat split. Qed.

End RunAgentFacts.

(** ** More on the bridge *)

Module BridgeExtras.
Import Py BridgeServer BridgeSystem BridgeFacts.

Section Extras.

Context {Host : Type}.
Variable uuid4 : nat → string.
Variable tb_frames : PyException → string.

Local Abbreviation World := (@BridgeServer.World Host).
Local Abbreviation Handler := (@BridgeServer.Handler Host).
Local Abbreviation Action := (@BridgeServer.Action Host).
Local Abbreviation exec_task := (BridgeServer.exec_task tb_frames).
Local Abbreviation drain := (BridgeServer.drain tb_frames).
Local Abbreviation notify := (BridgeServer.notify tb_frames).
Local Abbreviation others := (BridgeServer.others uuid4 tb_frames).
Local Abbreviation post_and_wait := (BridgeServer.post_and_wait uuid4 tb_frames).
Local Abbreviation _run_on_fusion_thread := (BridgeServer._run_on_fusion_thread uuid4 tb_frames).
Local Abbreviation outcome := (BridgeServer.outcome tb_frames).
Local Abbreviation WF := (BridgeServer.WF uuid4).
Local Abbreviation drawn_before := (BridgeServer.drawn_before uuid4).
Local Abbreviation Sound := (BridgeSystem.Sound uuid4).
Local Abbreviation run := (BridgeSystem.run uuid4 tb_frames).

(** *** One notification, every slot in place *)

Lemma drain_serves (q : list Task) : ∀ fuel (w : World),
  _task_queue w = q →
  (∀ t, t ∈ q → is_Some (_task_results w !! task_id_of t)) →
  NoDup (task_id_of <$> q) →
  length q ≤ fuel →
  ∃ w', drain fuel w = (Normal tt, w') ∧
        _task_queue w' = [] ∧
        host w' = handlers_in_order q (host w) ∧
        message_boxes w' = message_boxes w ∧
        (∀ i task_id fn payload, q !! i = Some (task_id, fn, payload) →
           _task_results w' !! task_id =
             Some (mkSlot true
                     (Some (outcome (fst (fn payload
                                            (handlers_in_order (take i q) (host w)))))))) ∧
        (∀ task_id, task_id ∉ task_id_of <$> q →
           _task_results w' !! task_id = _task_results w !! task_id).
Proof.
  induction q as [|t q IH]; intros fuel w Hq Hall Hnd Hlen.
  - exists w. rewrite drain_nil by done. repeat split; done.
  - destruct fuel as [|fuel]; [simpl in Hlen; lia|].
    rewrite (drain_cons _ _ _ t q) by done.
    destruct t as [[tid f] p].
    destruct (Hall (tid, f, p)) as [s Hs]; [by left|].
    unfold task_id_of in Hs. simpl in Hs.
    rewrite (exec_task_present _ _ _ _ _ s) by done.
    set (w1 := with_results _ _).
    rewrite fmap_cons in Hnd. apply NoDup_cons in Hnd as [Hnotin Hnd].
    unfold task_id_of at 1 in Hnotin. simpl in Hnotin.
    destruct (IH fuel w1) as (w' & Hd & Hq' & Hh & Hb & Hres & Hoth).
    { done. }
    { intros t Ht. unfold w1. wsimpl. rewrite lookup_insert.
      case_decide; [by eauto|]. apply Hall. by right. }
    { done. }
    { simpl in Hlen. lia. }
    exists w'. split; [done|]. split; [done|]. split; [by rewrite Hh|].
    split; [by rewrite Hb|]. split.
    + intros [|i] tid' f' p' Hi; simpl in Hi.
      * injection Hi as <- <- <-. rewrite Hoth by done.
        unfold w1. wsimpl. by rewrite lookup_insert_eq.
      * by rewrite (Hres i tid' f' p' Hi).
    + intros tid' Hnot. rewrite fmap_cons in Hnot.
      apply not_elem_of_cons in Hnot as [Hne Hnot].
      unfold task_id_of at 1 in Hne. simpl in Hne.
      rewrite Hoth by done. unfold w1. wsimpl. by rewrite lookup_insert_ne.
Qed.

(** What one pass of the loop leaves alone. *)
Lemma drain_frame fuel : ∀ (w : World),
  (∃ done_, _task_queue w = done_ ++ _task_queue (snd (drain fuel w))) ∧
  (∀ task_id, is_Some (_task_results (snd (drain fuel w)) !! task_id) ↔
              is_Some (_task_results w !! task_id)) ∧
  uuids_drawn (snd (drain fuel w)) = uuids_drawn w ∧
  events_fired (snd (drain fuel w)) = events_fired w ∧
  waiting (snd (drain fuel w)) = waiting w ∧
  ui (snd (drain fuel w)) = ui w ∧
  message_boxes (snd (drain fuel w)) = message_boxes w.
Proof.
  induction fuel as [|fuel IH]; intros w.
  - simpl. split; [by exists []|]. done.
  - destruct (_task_queue w) as [|[[tid f] p] q] eqn:Hq.
    + rewrite drain_nil by done. simpl. rewrite Hq. split; [by exists []|]. done.
    + rewrite (drain_cons _ _ _ _ q) by done.
      destruct (_task_results w !! tid) as [s|] eqn:Hs.
      * rewrite (exec_task_present _ _ _ _ _ s) by done.
        set (w1 := with_results _ _).
        assert (Hdom1 : ∀ task_id, is_Some (_task_results w1 !! task_id) ↔
                                   is_Some (_task_results w !! task_id)).
        { intros task_id. unfold w1. wsimpl. rewrite lookup_insert.
          case_decide as Heq; [|done]. subst. rewrite Hs. split; eauto. }
        destruct (IH w1) as ([d Hd] & Hdom & H1 & H2 & H3 & H4 & H5).
        split; [exists ((tid, f, p) :: d); simpl; by rewrite <- Hd|].
        split; [|done].
        intros task_id. by rewrite Hdom.
      * rewrite exec_task_absent by done. simpl.
        split; [by exists [(tid, f, p)]|]. done.
Qed.

Lemma notify_frame (w : World) :
  (∃ taken, _task_queue w = taken ++ _task_queue (snd (notify w))) ∧
  (∀ task_id, is_Some (_task_results (snd (notify w)) !! task_id) ↔
              is_Some (_task_results w !! task_id)) ∧
  uuids_drawn (snd (notify w)) = uuids_drawn w ∧
  events_fired (snd (notify w)) = events_fired w ∧
  waiting (snd (notify w)) = waiting w.
Proof.
  unfold BridgeServer.notify, try_except.
  destruct (drain_frame (length (_task_queue w)) w) as (H0 & H1 & H2 & H3 & H4 & _).
  destruct (drain (length (_task_queue w)) w) as [[[]|e] w']; simpl in *; [done|].
  by destruct (ui w').
Qed.

(** *** The invariant of the globals *)

Lemma elem_of_delete_NoDup (l : list string) i x y :
  NoDup l → l !! i = Some x → y ∈ delete i l ↔ y ∈ l ∧ y ≠ x.
Proof.
  intros Hnd Hi. rewrite delete_take_drop.
  rewrite <- (take_drop_middle l i x Hi) in Hnd at 1.
  apply NoDup_app in Hnd as (_ & Hdisj & Hnd').
  apply NoDup_cons in Hnd' as [Hx _].
  rewrite <- (take_drop_middle l i x Hi) at 3.
  rewrite !elem_of_app, elem_of_cons. split.
  - intros [Hy|Hy].
    + split; [by left|]. intros ->. apply (Hdisj x Hy). by left.
    + split; [by right; right|]. by intros ->.
  - intros [[Hy|[->|Hy]] Hne]; [by left|done|by right].
Qed.

Lemma Sound_exec_task (w : World) t q :
  _task_queue w = t :: q →
  Sound w → Sound (snd (exec_task t (with_queue q w))).
Proof.
  intros Hq [H1 H2 H3 H4 H5 H6 H7 H8]. rewrite Hq in *.
  destruct t as [[tid f] p]. rewrite fmap_cons in *.
  change (task_id_of (tid, f, p)) with tid in *.
  apply NoDup_cons in H2 as [Hnotin Hnd].
  destruct (_task_results w !! tid) as [s|] eqn:Hs.
  - rewrite (exec_task_present _ _ _ _ _ s) by done. simpl.
    constructor; wsimpl; try done.
    + intros x. rewrite lookup_insert. case_decide as Heq; [|apply H3].
      subst x. split; [intros _|by eauto]. apply H3. by rewrite Hs.
    + intros x [Hx|Hx]; apply H4; [by left|by right; right].
    + intros x s'. rewrite lookup_insert. case_decide as Heq.
      * intros [= <-] _. by eauto.
      * apply H5.
    + intros x s'. rewrite lookup_insert. case_decide as Heq.
      * intros _ _. by subst x.
      * intros Hx Hr Hin. eapply H6; [exact Hx|exact Hr|by right].
    + intros x s'. rewrite lookup_insert. case_decide as Heq.
      * by intros [= <-].
      * intros Hx Hr. pose proof (H7 _ _ Hx Hr) as Hin.
        apply elem_of_cons in Hin as [->|Hin]; done.
  - rewrite exec_task_absent by done. simpl.
    constructor; wsimpl; try done.
    + intros x [Hx|Hx]; apply H4; [by left|by right; right].
    + intros x s' Hx Hr Hin. eapply H6; [exact Hx|exact Hr|by right].
    + intros x s' Hx Hr. pose proof (H7 _ _ Hx Hr) as Hin.
      apply elem_of_cons in Hin as [->|Hin]; [|done].
      congruence.
Qed.

Lemma Sound_drain fuel : ∀ (w : World), Sound w → Sound (snd (drain fuel w)).
Proof.
  induction fuel as [|fuel IH]; intros w HS; [done|].
  destruct (_task_queue w) as [|t q] eqn:Hq.
  - by rewrite drain_nil.
  - rewrite (drain_cons _ _ _ t q) by done.
    pose proof (Sound_exec_task w t q Hq HS) as HS'.
    destruct (exec_task t (with_queue q w)) as [[[]|e] w']; simpl in *; auto.
Qed.

Lemma Sound_notify (w : World) : Sound w → Sound (snd (notify w)).
Proof.
  intros HS. unfold BridgeServer.notify, try_except.
  pose proof (Sound_drain (length (_task_queue w)) w HS) as HS'.
  destruct (drain (length (_task_queue w)) w) as [[[]|e] w']; simpl in *; [done|].
  destruct (ui w'); simpl; [|done].
  destruct HS'. by constructor.
Qed.

Lemma Sound_loaded (h : Host) (u : bool) : Sound (loaded h u).
Proof.
  constructor; simpl; try done.
  - apply NoDup_nil_2.
  - apply NoDup_nil_2.
  - intros x. rewrite lookup_empty. split; [by intros [? ?]|by intros ?%elem_of_nil].
  - intros x [?%elem_of_nil|?%elem_of_nil]; done.
Qed.

Section Unique.

Hypothesis uuid4_inj : ∀ j k, uuid4 j = uuid4 k → j = k.

Lemma Sound_post fn payload (w : World) :
  Sound w → Sound (others (RequestArrives fn payload) w).
Proof.
  intros [H1 H2 H3 H4 H5 H6 H7 H8].
  assert (Hfresh : ∀ x, drawn_before (uuids_drawn w) x → x ≠ uuid4 (uuids_drawn w)).
  { intros x (k & Hk & ->) Heq. apply uuid4_inj in Heq. lia. }
  assert (Hw : uuid4 (uuids_drawn w) ∉ waiting w).
  { intros Hin. eapply Hfresh; [|done]. apply H4. by left. }
  assert (Hqn : uuid4 (uuids_drawn w) ∉ task_id_of <$> _task_queue w).
  { intros Hin. eapply Hfresh; [|done]. apply H4. by right. }
  unfold BridgeServer.others, post, bind, str_uuid4, new_slot, queue_put, fireCustomEvent, ret.
  constructor; wsimpl.
  - apply NoDup_app. split; [done|]. split; [|apply NoDup_singleton].
    intros x Hx ->%list_elem_of_singleton. done.
  - rewrite fmap_app. apply NoDup_app. split; [done|].
    split; [|apply NoDup_singleton].
    intros x Hx ->%list_elem_of_singleton. done.
  - intros x. rewrite lookup_insert, elem_of_app, list_elem_of_singleton.
    case_decide as Heq.
    + subst x. split; [by right|by eauto].
    + rewrite H3. split; [by left|]. intros [?|?]; done.
  - intros x. rewrite fmap_app. simpl. rewrite !elem_of_app, !list_elem_of_singleton.
    unfold task_id_of at 2. simpl.
    intros [[Hx|Hx]|[Hx|Hx]].
    + destruct (H4 x) as (k & Hk & Hk'); [by left|]. exists k. split; [lia|done].
    + exists (uuids_drawn w). split; [lia|done].
    + destruct (H4 x) as (k & Hk & Hk'); [by right|]. exists k. split; [lia|done].
    + exists (uuids_drawn w). split; [lia|done].
  - intros x s. rewrite lookup_insert. case_decide as Heq.
    + by intros [= <-].
    + apply H5.
  - intros x s. rewrite lookup_insert. case_decide as Heq.
    + intros [= <-] [? ?]. done.
    + intros Hx Hr. rewrite fmap_app. simpl.
      rewrite elem_of_app, list_elem_of_singleton. unfold task_id_of at 2. simpl.
      intros [Hin|Hin]; [by eapply H6|]. by subst x.
  - intros x s. rewrite lookup_insert, fmap_app. simpl.
    rewrite elem_of_app, list_elem_of_singleton. unfold task_id_of at 2. simpl.
    case_decide as Heq.
    + intros _ _. by right.
    + intros Hx Hr. left. by eapply H7.
  - by rewrite H8.
Qed.

Lemma Sound_collect i (w : World) :
  Sound w → Sound (others (RequestLeaves i) w).
Proof.
  intros HS. pose proof HS as [H1 H2 H3 H4 H5 H6 H7 H8].
  unfold BridgeServer.others. destruct (waiting w !! i) as [tid|] eqn:Hi; [|done].
  destruct (proj2 (H3 tid)) as [s Hs]; [by eapply list_elem_of_lookup_2|].
  rewrite (collect_present _ _ s) by done. simpl.
  constructor; wsimpl; try done.
  - eapply sublist_NoDup; [exact H1|apply sublist_delete].
  - intros x. rewrite (elem_of_delete_NoDup _ _ tid) by done.
    rewrite lookup_delete. case_decide as Heq.
    + subst x. split; [by intros [? ?]|by intros [_ ?]].
    + rewrite H3. split; [done|by intros [? _]].
  - intros x [Hx|Hx]; apply H4; [left|by right].
    by apply (elem_of_delete_NoDup _ _ tid) in Hx as [? _].
  - intros x s'. rewrite lookup_delete. case_decide; [done|]. apply H5.
  - intros x s'. rewrite lookup_delete. case_decide; [done|]. apply H6.
  - intros x s'. rewrite lookup_delete. case_decide; [done|]. apply H7.
Qed.

Lemma Sound_others a (w : World) : Sound w → Sound (others a w).
Proof.
  destruct a as [|fn payload|i].
  - apply Sound_notify.
  - apply Sound_post.
  - apply Sound_collect.
Qed.

Lemma Sound_run actions : ∀ (w : World), Sound w → Sound (run actions w).
Proof.
  unfold BridgeSystem.run.
  induction actions as [|a l IH]; intros w HS; simpl; [done|].
  by apply IH, Sound_others.
Qed.

Lemma Sound_WF (w : World) : Sound w → WF w.
Proof.
  intros [H1 H2 H3 H4 H5 H6 H7 H8]. constructor; [| | |done].
  - intros x Hx. apply H4. left. by apply H3.
  - apply Forall_forall. intros t Ht. apply H4. right.
    apply list_elem_of_fmap. by exists t.
  - apply Forall_forall. intros x Hx. apply H4. by left.
Qed.

End Unique.

(** *** The wait *)

Lemma ev_wait_timed task_id sched : ∀ timeout (w : World),
  ∃ signalled w',
    BridgeServer.ev_wait uuid4 tb_frames timeout task_id sched w = (Normal signalled, w') ∧
    (signalled = false → clock w' = clock w + timeout) ∧
    (signalled = true → event_is_set task_id w' = true) ∧
    clock w' ≤ clock w + timeout.
Proof.
  induction sched as [|[d a] rest IH]; intros timeout w; simpl.
  - destruct (event_is_set task_id w) eqn:He.
    + exists true, w. split; [done|]. split; [done|]. split; [done|lia].
    + exists false, (tick timeout w). split; [done|]. split; [done|]. split; [done|done].
  - destruct (event_is_set task_id w) eqn:He.
    + exists true, w. split; [done|]. split; [done|]. split; [done|lia].
    + destruct (d <? timeout) eqn:Hd.
      * apply Nat.ltb_lt in Hd.
        destruct (IH (timeout - d) (others a (tick d w)))
          as (sg & w' & Heq & Hf & Ht & Hle).
        rewrite others_clock in Hf, Hle. simpl in Hf, Hle.
        exists sg, w'. split; [done|]. split; [|split; [done|lia]].
        intros Hsg. rewrite (Hf Hsg). lia.
      * exists false, (tick timeout w). split; [done|]. split; [done|]. split; [done|done].
Qed.


(** X2.  Whatever the handlers do, a notification neither adds nor
    removes a slot, writes only into slots of tasks that were queued when
    it began, only takes tasks off the front of the queue, and draws no
    identifier, fires no event and parks or wakes no request thread. *)
Theorem notify_keeps_to_the_queued_tasks (w : World) :
  (∃ taken, _task_queue w = taken ++ _task_queue (snd (notify w))) ∧
  (∀ task_id, is_Some (_task_results (snd (notify w)) !! task_id) ↔
              is_Some (_task_results w !! task_id)) ∧
  (∀ task_id, task_id ∉ task_id_of <$> _task_queue w →
              _task_results (snd (notify w)) !! task_id = _task_results w !! task_id) ∧
  uuids_drawn (snd (notify w)) = uuids_drawn w ∧
  events_fired (snd (notify w)) = events_fired w ∧
  waiting (snd (notify w)) = waiting w ∧
  clock (snd (notify w)) = clock w.
Proof.
  destruct (notify_frame w) as (H0 & H1 & H2 & H3 & H4).
  split; [done|]. split; [done|].
  split; [intros task_id; apply notify_other_slots|].
  split; [done|]. split; [done|]. split; [done|].
  apply (others_clock uuid4 tb_frames FusionNotifies w).
Qed.

(** X3.  No result is delivered to the wrong caller.  Whatever else the
    process does meanwhile, a call of [_run_on_fusion_thread] returns
    either the timeout dict or the outcome of its own handler on its own
    payload, and the latter whenever [ev.wait] returned [True]; so a
    handler that returns [out] on every document gives
    [{"ok": True, "result": out}] to a caller that was signalled. *)
Theorem submit_returns_its_own_outcome
    (fn : Handler) (payload : Json) (il : Interleaving) (w : World) :
  (∀ j k, uuid4 j = uuid4 k → j = k) →
  WF w →
  ∃ signalled w1 r w',
    post_and_wait fn payload il w = (Normal (uuid4 (uuids_drawn w), signalled), w1) ∧
    _run_on_fusion_thread fn payload il w = (Normal r, w') ∧
    (r = timeout_result ∨ ∃ h, r = outcome (fst (fn payload h))) ∧
    (signalled = true → ∃ h, r = outcome (fst (fn payload h))) ∧
    (∀ out, (∀ h, fst (fn payload h) = Normal out) → signalled = true →
            r = JObj [("ok", JBool true); ("result", out)]).
Proof.
  intros Hinj HWF.
  destruct (run_on_fusion_thread_spec uuid4 tb_frames Hinj fn payload
              (λ r, ∃ h, r = outcome (fst (fn payload h))))
    with (il := il) (w := w)
    as (sg & w1 & s & r & w' & Hpw & _ & _ & _ & _ & [Hev HP] & Hsg & Hr & Hrun & _);
    [by eauto|done|].
  assert (Hmine : sg = true → ∃ h, r = outcome (fst (fn payload h))).
  { intros Htrue. destruct (Hev (Hsg Htrue)) as [r0 Hr0].
    rewrite Hr0 in Hr. subst r. by apply HP. }
  exists sg, w1, r, w'. split; [done|]. split; [done|].
  split; [|split; [done|]].
  - destruct (result s) as [r0|] eqn:Hr0; [right|by left]. subst r. by apply HP.
  - intros out Hout Htrue. destruct (Hmine Htrue) as [h ->]. by rewrite Hout.
Qed.

(** X4.  A call that Fusion does not serve, with nothing else going on:
    it returns the timeout dict after exactly 30 time units, has fired one
    event, leaves the map as it found it, and leaves its task in the queue,
    so the handler still runs at the next notification. *)
Theorem unserved_call_times_out_and_stays_queued
    (fn : Handler) (payload : Json) (w : World) :
  (∀ j k, uuid4 j = uuid4 k → j = k) →
  WF w →
  _run_on_fusion_thread fn payload (mkInterleaving [] [] [] [] [] []) w =
    (Normal (JObj [("ok", JBool false);
                   ("error", JStr "Timeout waiting for Fusion execution.")]),
     mkWorld (_task_queue w ++ [(uuid4 (uuids_drawn w), fn, payload)])
             (_task_results w) (host w) (ui w) (message_boxes w)
             (S (uuids_drawn w)) (S (events_fired w)) (waiting w) (clock w + 30)).
Proof.
  intros Hinj HWF.
  pose proof (Mine_fresh uuid4 Hinj fn payload (λ _, True) w HWF) as HM0.
  pose proof (mine_slot _ _ _ _ _ _ _ HM0) as Hnone. simpl in Hnone.
  unfold BridgeServer._run_on_fusion_thread, BridgeServer.post_and_wait, run_others,
    str_uuid4, new_slot, queue_put, fireCustomEvent, get_result, del_slot, get_slot,
    bind, ret. simpl.
  unfold event_is_set. wsimpl. repeat (rewrite lookup_insert_eq; simpl).
  rewrite delete_insert_eq, delete_id by done. done.
Qed.

(** X5.  The bookkeeping between the steps of the process.  A step is one
    whole run of [notify], one whole posting of a task by a request thread
    (lines 75-80) or one whole collecting of a result (lines 83-85), and
    the steps are taken one after the other, in any order and any number.
    From the loading of the add-in on, after every step: no identifier is
    queued twice or held by two parked request threads; the map holds one
    slot per parked request thread and nothing else, so it is empty when no
    request is in flight; a slot whose event is set has its result; a task
    whose result is in has left the queue, so no handler runs twice for one
    request; a slot that is still empty has its task in the queue, so no
    request is lost; and one event has been fired per request.  Nothing is
    said of the moments inside a step: while a handler runs, its task has
    left the queue and its slot is still empty. *)
Theorem bridge_bookkeeping_invariant (actions : list Action) (h : Host) (u : bool) :
  (∀ j k, uuid4 j = uuid4 k → j = k) →
  Sound (run actions (loaded h u)) ∧
  WF (run actions (loaded h u)) ∧
  (waiting (run actions (loaded h u)) = [] →
   _task_results (run actions (loaded h u)) = ∅).
Proof.
  intros Hinj.
  pose proof (Sound_run Hinj actions (loaded h u) (Sound_loaded h u)) as HS.
  split; [done|]. split; [by apply Sound_WF|].
  intros Hw. apply map_eq. intros x. rewrite lookup_empty.
  destruct (_task_results (run actions (loaded h u)) !! x) as [s|] eqn:Hx; [|done].
  assert (Hin : x ∈ waiting (run actions (loaded h u))).
  { apply (sound_slots _ _ HS). by rewrite Hx. }
  rewrite Hw in Hin. by apply elem_of_nil in Hin.
Qed.

(** X6.  The wait of a call is never cut short.  When [ev.wait] returns
    [False], exactly 30 time units have passed since the call began,
    whatever else the process did meanwhile; when it returns [True], the
    event of the slot is set and at most 30 units have passed. *)
Theorem a_timeout_is_never_reported_early
    (fn : Handler) (payload : Json) (il : Interleaving) (w : World) :
  ∃ signalled w1,
    post_and_wait fn payload il w = (Normal (uuid4 (uuids_drawn w), signalled), w1) ∧
    (signalled = false → clock w1 = clock w + 30) ∧
    (signalled = true →
     event_is_set (uuid4 (uuids_drawn w)) w1 = true ∧ clock w1 ≤ clock w + 30).
Proof.
  set (k0 := uuids_drawn w).
  set (wa := foldl (λ (w : World) a, others a w) (with_drawn (S k0) w) (after_uuid il)).
  set (wb := foldl (λ (w : World) a, others a w)
               (with_results (<[uuid4 k0 := mkSlot false None]> (_task_results wa)) wa)
               (after_slot il)).
  set (wc := foldl (λ (w : World) a, others a w)
               (with_queue (_task_queue wb ++ [(uuid4 k0, fn, payload)]) wb)
               (after_put il)).
  destruct (ev_wait_timed (uuid4 k0) (during_wait il) 30
              (with_fired (S (events_fired wc)) wc))
    as (sg & w1 & Hwait & Hf & Ht & Hle).
  assert (Hc : clock (with_fired (S (events_fired wc)) wc) = clock w).
  { unfold wc, wb, wa. wsimpl. by rewrite !run_others_clock. }
  rewrite Hc in Hf, Hle.
  exists sg, w1. split; [|split; [done|by auto]].
  unfold BridgeServer.post_and_wait, run_others, str_uuid4, new_slot, queue_put,
    fireCustomEvent, bind, ret. simpl.
  change ((let (c, w') := BridgeServer.ev_wait uuid4 tb_frames 30 (uuid4 k0) (during_wait il)
                            (with_fired (S (events_fired wc)) wc) in
           match c with
           | Normal a => (Normal (uuid4 k0, a), w')
           | Raised e => (Raised e, w')
           end) = (Normal (uuid4 k0, sg), w1)).
  by rewrite Hwait.
Qed.

End Extras.


Lemma submit_returns_its_own_outcome_witness :
  (∀ j k, Samples.uuid j = Samples.uuid k → j = k) ∧
  WF Samples.uuid Samples.idle ∧
  ∃ signalled w1 r w',
    post_and_wait Samples.uuid Samples.frames (Samples.returns "A" (JStr "a")) JNull
      Samples.served_in_time Samples.idle
      = (Normal (Samples.uuid (uuids_drawn Samples.idle), signalled), w1) ∧
    _run_on_fusion_thread Samples.uuid Samples.frames (Samples.returns "A" (JStr "a")) JNull
      Samples.served_in_time Samples.idle = (Normal r, w') ∧
    (r = timeout_result ∨
     ∃ h, r = outcome Samples.frames (fst (Samples.returns "A" (JStr "a") JNull h))) ∧
    (signalled = true →
     ∃ h, r = outcome Samples.frames (fst (Samples.returns "A" (JStr "a") JNull h))) ∧
    (∀ out, (∀ h, fst (Samples.returns "A" (JStr "a") JNull h) = Normal out) →
            signalled = true →
            r = JObj [("ok", JBool true); ("result", out)]).
Proof.
  split; [exact BridgeClaims.uuid_inj|]. split; [exact BridgeClaims.idle_WF|].
  apply (submit_returns_its_own_outcome Samples.uuid Samples.frames
           (Samples.returns "A" (JStr "a")) JNull Samples.served_in_time Samples.idle
           BridgeClaims.uuid_inj BridgeClaims.idle_WF).
Defined.

Lemma unserved_call_times_out_and_stays_queued_witness :
  (∀ j k, Samples.uuid j = Samples.uuid k → j = k) ∧
  WF Samples.uuid Samples.idle ∧
  _run_on_fusion_thread Samples.uuid Samples.frames (Samples.returns "A" (JStr "a")) JNull
    (mkInterleaving [] [] [] [] [] []) Samples.idle =
    (Normal (JObj [("ok", JBool false);
                   ("error", JStr "Timeout waiting for Fusion execution.")]),
     mkWorld (_task_queue Samples.idle ++
              [(Samples.uuid (uuids_drawn Samples.idle), Samples.returns "A" (JStr "a"), JNull)])
             (_task_results Samples.idle) (host Samples.idle) (ui Samples.idle)
             (message_boxes Samples.idle)
             (S (uuids_drawn Samples.idle)) (S (events_fired Samples.idle))
             (waiting Samples.idle) (clock Samples.idle + 30)).
Proof.
  split; [exact BridgeClaims.uuid_inj|]. split; [exact BridgeClaims.idle_WF|].
  apply (unserved_call_times_out_and_stays_queued Samples.uuid Samples.frames
           (Samples.returns "A" (JStr "a")) JNull Samples.idle
           BridgeClaims.uuid_inj BridgeClaims.idle_WF).
Defined.

Lemma bridge_bookkeeping_invariant_witness :
  (∀ j k, Samples.uuid j = Samples.uuid k → j = k) ∧
  Sound Samples.uuid
    (run Samples.uuid Samples.frames MoreSamples.busy_day (loaded ([] : Samples.Doc) true)) ∧
  WF Samples.uuid
    (run Samples.uuid Samples.frames MoreSamples.busy_day (loaded ([] : Samples.Doc) true)) ∧
  (waiting (run Samples.uuid Samples.frames MoreSamples.busy_day
              (loaded ([] : Samples.Doc) true)) = [] →
   _task_results (run Samples.uuid Samples.frames MoreSamples.busy_day
                    (loaded ([] : Samples.Doc) true)) = ∅).
Proof.
  split; [exact BridgeClaims.uuid_inj|].
  apply (bridge_bookkeeping_invariant Samples.uuid Samples.frames MoreSamples.busy_day
           ([] : Samples.Doc) true BridgeClaims.uuid_inj).
Defined.

Lemma notify_keeps_to_the_queued_tasks_witness :
  ("task-7" ∉ task_id_of <$> _task_queue MoreSamples.two_parked) ∧
  _task_results (snd (notify Samples.frames MoreSamples.two_parked)) !! "task-7"
    = _task_results MoreSamples.two_parked !! "task-7".
Proof.
  assert (H : "task-7" ∉ task_id_of <$> _task_queue MoreSamples.two_parked).
  { change (task_id_of <$> _task_queue MoreSamples.two_parked) with ["task-0"; "task-1"].
    intros Hin. apply elem_of_cons in Hin as [Hin|Hin]; [discriminate Hin|].
    apply elem_of_cons in Hin as [Hin|Hin]; [discriminate Hin|].
    by apply elem_of_nil in Hin. }
  split; [exact H|].
  apply (proj1 (proj2 (proj2
           (notify_keeps_to_the_queued_tasks Samples.uuid Samples.frames
              MoreSamples.two_parked)))).
  exact H.
Defined.

Lemma a_timeout_is_never_reported_early_witness :
  ∃ signalled w1,
    post_and_wait Samples.uuid Samples.frames (Samples.returns "A" (JStr "a")) JNull
      Samples.second_request_arrives Samples.idle
      = (Normal (Samples.uuid (uuids_drawn Samples.idle), signalled), w1) ∧
    (signalled = false → clock w1 = clock Samples.idle + 30) ∧
    (signalled = true →
     event_is_set (Samples.uuid (uuids_drawn Samples.idle)) w1 = true ∧
     clock w1 ≤ clock Samples.idle + 30).
Proof.
  apply (a_timeout_is_never_reported_early Samples.uuid Samples.frames
           (Samples.returns "A" (JStr "a")) JNull
           Samples.second_request_arrives Samples.idle).
Defined.

End BridgeExtras.

(** ** More on the request listener *)

Module ListenerExtras.
Import Py BridgeServer BridgeFacts.

Section Listener.

Context {Host : Type}.
Variable uuid4 : nat → string.
Variable tb_frames : PyException → string.
Variable fusion_api : ToolFn → @Handler Host.
Variable repr : Json → string.
Variable json_loads : string → Completion Json.
Variable int_ : string → option Z.

Local Abbreviation World := (@BridgeServer.World Host).
Local Abbreviation _run_on_fusion_thread := (BridgeServer._run_on_fusion_thread uuid4 tb_frames).
Local Abbreviation _dispatch_tool := (BridgeServer._dispatch_tool uuid4 tb_frames fusion_api repr).
Local Abbreviation handle_one_request :=
  (BridgeServer.handle_one_request uuid4 tb_frames fusion_api repr json_loads int_).

(** What an authenticated [POST /tool] comes to once the length is read. *)
Lemma post_tool_unfold (r : Request) (il : Interleaving) (w : World) (length : Z) :
  command r = "POST" →
  path r = "/tool" →
  x_token r = Some AUTH_TOKEN →
  int_ (default "0" (content_length r)) = Some length →
  handle_one_request r il w =
    match json_loads (if (0 <? length)%Z
                      then String.substring 0 (Z.to_nat length) (rfile r)
                      else "{}") with
    | Raised _ => (Normal (400, JsonBody invalid_json), w)
    | Normal payload =>
      match _dispatch_tool payload il w with
      | (Normal res, w') => (Normal (200, JsonBody res), w')
      | (Raised e, w') => (Raised e, w')
      end
    end.
Proof.
  intros Hcmd Hpath Htok%ListenerClaims.auth_ok_iff Hlen.
  unfold BridgeServer.handle_one_request, BridgeServer.do_POST.
  rewrite Hcmd, Hpath, Htok. simpl. rewrite Hlen.
  destruct (json_loads _) as [payload|e]; [|done].
  unfold bind, _json_response, ret. reflexivity.
Qed.

(** X7.  The routes of an authenticated [GET].  [/ping] is answered by the
    listener itself, with the bridge untouched: it says nothing about
    Fusion.  [/state] submits [_get_state] with the payload [{}] and
    answers 200 with whatever dict the submission returned, the timeout
    dict included.  Any other path, [/ping/] or a path with a query among
    them, is answered 404 with the bridge untouched. *)
Theorem authenticated_get_routes (r : Request) (il : Interleaving) (w : World) :
  (∀ j k, uuid4 j = uuid4 k → j = k) →
  WF uuid4 w →
  command r = "GET" →
  x_token r = Some AUTH_TOKEN →
  (path r = "/ping" →
   handle_one_request r il w =
     (Normal (200, JsonBody (JObj [("ok", JBool true);
                                   ("result", JObj [("message", JStr "pong")])])), w)) ∧
  (path r = "/state" →
   ∃ res w',
     _run_on_fusion_thread (handler_of fusion_api _get_state) (JObj []) il w
       = (Normal res, w') ∧
     (res = timeout_result ∨
      ∃ h, res = outcome tb_frames (fst (fusion_api _get_state (JObj []) h))) ∧
     handle_one_request r il w = (Normal (200, JsonBody res), w')) ∧
  (path r ≠ "/ping" → path r ≠ "/state" →
   handle_one_request r il w =
     (Normal (404, JsonBody (JObj [("ok", JBool false); ("error", JStr "not found")])), w)).
Proof.
  intros Hinj HWF Hcmd Htok%ListenerClaims.auth_ok_iff.
  unfold BridgeServer.handle_one_request, BridgeServer.do_GET.
  rewrite Hcmd, Htok. simpl.
  split; [|split].
  - by intros ->.
  - intros ->. simpl.
    destruct (run_on_fusion_thread_spec uuid4 tb_frames Hinj
                (handler_of fusion_api _get_state) (JObj [])
                (λ r, ∃ h, r = outcome tb_frames (fst (fusion_api _get_state (JObj []) h))))
      with (il := il) (w := w)
      as (sg & w1 & s & res & w' & _ & _ & _ & _ & _ & [_ HP] & _ & Hres & Hrun & _);
      [by eauto|done|].
    exists res, w'. split; [done|].
    split; [destruct (result s) as [r0|]; [right; subst res; by apply HP|by left]|].
    change (handler_of fusion_api _get_state) with (fusion_api _get_state) in Hrun.
    unfold bind, _json_response, ret. by rewrite Hrun.
  - intros Hping%String.eqb_neq Hstate%String.eqb_neq. by rewrite Hping, Hstate.
Qed.


(** X9.  Three requests that an authenticated [POST /tool] does not
    answer at all: [do_POST] raises, with the bridge untouched.  A
    [Content-Length] that [int] rejects raises [ValueError]; a body that is
    JSON but not an object raises [AttributeError]; an object whose
    [tool] is a list or a dict raises [TypeError]. *)
Theorem post_raises_on_malformed_request (r : Request) (il : Interleaving) (w : World) :
  command r = "POST" →
  path r = "/tool" →
  x_token r = Some AUTH_TOKEN →
  (int_ (default "0" (content_length r)) = None →
   ∃ e, exc_type e = "ValueError" ∧ handle_one_request r il w = (Raised e, w)) ∧
  (∀ length payload,
     int_ (default "0" (content_length r)) = Some length →
     json_loads (if (0 <? length)%Z
                 then String.substring 0 (Z.to_nat length) (rfile r)
                 else "{}") = Normal payload →
     (∀ fields, payload ≠ JObj fields) →
     ∃ e, exc_type e = "AttributeError" ∧ handle_one_request r il w = (Raised e, w)) ∧
  (∀ length fields,
     int_ (default "0" (content_length r)) = Some length →
     json_loads (if (0 <? length)%Z
                 then String.substring 0 (Z.to_nat length) (rfile r)
                 else "{}") = Normal (JObj fields) →
     (∃ items, get "tool" fields = JArr items) ∨ (∃ inner, get "tool" fields = JObj inner) →
     ∃ e, exc_type e = "TypeError" ∧ handle_one_request r il w = (Raised e, w)).
Proof.
  intros Hcmd Hpath Htok. split; [|split].
  - intros Hlen. exists (ValueError_int (default "0" (content_length r))).
    split; [done|]. apply ListenerClaims.auth_ok_iff in Htok.
    unfold BridgeServer.handle_one_request, BridgeServer.do_POST.
    rewrite Hcmd, Hpath, Htok. simpl. by rewrite Hlen.
  - intros length payload Hlen Hjson Hnot. exists AttributeError_get. split; [done|].
    rewrite (post_tool_unfold r il w length) by done. rewrite Hjson.
    destruct payload as [| | | | |fields]; try done. by destruct (Hnot fields).
  - intros length fields Hlen Hjson Htool. exists TypeError_unhashable. split; [done|].
    rewrite (post_tool_unfold r il w length) by done. rewrite Hjson.
    unfold BridgeServer._dispatch_tool, registered.
    by destruct Htool as [[items ->]|[inner ->]].
Qed.

End Listener.

Lemma authenticated_get_routes_witness :
  (∀ j k, Samples.uuid j = Samples.uuid k → j = k) ∧
  WF Samples.uuid Samples.idle ∧
  command MoreSamples.get_ping = "GET" ∧
  x_token MoreSamples.get_ping = Some AUTH_TOKEN ∧
  path MoreSamples.get_ping = "/ping" ∧
  handle_one_request Samples.uuid Samples.frames Samples.api JsonText.repr
    JsonText.loads Samples.int_ MoreSamples.get_ping Samples.quiet Samples.idle =
    (Normal (200, JsonBody (JObj [("ok", JBool true);
                                  ("result", JObj [("message", JStr "pong")])])),
     Samples.idle) ∧
  command MoreSamples.get_ping_slash = "GET" ∧
  x_token MoreSamples.get_ping_slash = Some AUTH_TOKEN ∧
  path MoreSamples.get_ping_slash ≠ "/ping" ∧
  path MoreSamples.get_ping_slash ≠ "/state" ∧
  handle_one_request Samples.uuid Samples.frames Samples.api JsonText.repr
    JsonText.loads Samples.int_ MoreSamples.get_ping_slash Samples.quiet Samples.idle =
    (Normal (404, JsonBody (JObj [("ok", JBool false); ("error", JStr "not found")])),
     Samples.idle).
Proof.
  split; [exact BridgeClaims.uuid_inj|]. split; [exact BridgeClaims.idle_WF|].
  split; [reflexivity|]. split; [reflexivity|]. split; [reflexivity|].
  split.
  { apply (proj1 (authenticated_get_routes Samples.uuid Samples.frames Samples.api
                    JsonText.repr JsonText.loads Samples.int_
                    MoreSamples.get_ping Samples.quiet Samples.idle
                    BridgeClaims.uuid_inj BridgeClaims.idle_WF eq_refl eq_refl)).
    reflexivity. }
  split; [reflexivity|]. split; [reflexivity|].
  split; [discriminate|]. split; [discriminate|].
  apply (proj2 (proj2 (authenticated_get_routes Samples.uuid Samples.frames Samples.api
                         JsonText.repr JsonText.loads Samples.int_
                         MoreSamples.get_ping_slash Samples.quiet Samples.idle
                         BridgeClaims.uuid_inj BridgeClaims.idle_WF eq_refl eq_refl)));
    discriminate.
Defined.


Lemma post_raises_on_malformed_request_witness :
  command MoreSamples.post_array = "POST" ∧
  path MoreSamples.post_array = "/tool" ∧
  x_token MoreSamples.post_array = Some AUTH_TOKEN ∧
  Samples.int_ (default "0" (content_length MoreSamples.post_array)) = Some 3%Z ∧
  JsonText.loads (String.substring 0 3 (rfile MoreSamples.post_array))
    = Normal (JArr [JNum 1]) ∧
  (∃ e, exc_type e = "AttributeError" ∧
        handle_one_request Samples.uuid Samples.frames Samples.api JsonText.repr
          JsonText.loads Samples.int_ MoreSamples.post_array Samples.quiet Samples.idle
        = (Raised e, Samples.idle)) ∧
  command MoreSamples.post_bad_length = "POST" ∧
  path MoreSamples.post_bad_length = "/tool" ∧
  x_token MoreSamples.post_bad_length = Some AUTH_TOKEN ∧
  Samples.int_ (default "0" (content_length MoreSamples.post_bad_length)) = None ∧
  (∃ e, exc_type e = "ValueError" ∧
        handle_one_request Samples.uuid Samples.frames Samples.api JsonText.repr
          JsonText.loads Samples.int_ MoreSamples.post_bad_length Samples.quiet Samples.idle
        = (Raised e, Samples.idle)) ∧
  command MoreSamples.post_list_as_tool = "POST" ∧
  path MoreSamples.post_list_as_tool = "/tool" ∧
  x_token MoreSamples.post_list_as_tool = Some AUTH_TOKEN ∧
  Samples.int_ (default "0" (content_length MoreSamples.post_list_as_tool)) = Some 12%Z ∧
  JsonText.loads (String.substring 0 12 (rfile MoreSamples.post_list_as_tool))
    = Normal (JObj [("tool", JArr [JNum 1])]) ∧
  ∃ e, exc_type e = "TypeError" ∧
       handle_one_request Samples.uuid Samples.frames Samples.api JsonText.repr
         JsonText.loads Samples.int_ MoreSamples.post_list_as_tool Samples.quiet Samples.idle
       = (Raised e, Samples.idle).
Proof.
  split; [reflexivity|]. split; [reflexivity|]. split; [reflexivity|].
  split; [reflexivity|]. split; [reflexivity|].
  split.
  { apply (proj1 (proj2 (post_raises_on_malformed_request Samples.uuid Samples.frames
                           Samples.api JsonText.repr JsonText.loads Samples.int_
                           MoreSamples.post_array Samples.quiet Samples.idle
                           eq_refl eq_refl eq_refl))
             3%Z (JArr [JNum 1]) eq_refl eq_refl).
    discriminate. }
  split; [reflexivity|]. split; [reflexivity|]. split; [reflexivity|].
  split; [reflexivity|].
  split.
  { apply (proj1 (post_raises_on_malformed_request Samples.uuid Samples.frames
                    Samples.api JsonText.repr JsonText.loads Samples.int_
                    MoreSamples.post_bad_length Samples.quiet Samples.idle
                    eq_refl eq_refl eq_refl)).
    reflexivity. }
  split; [reflexivity|]. split; [reflexivity|]. split; [reflexivity|].
  split; [reflexivity|]. split; [reflexivity|].
  apply (proj2 (proj2 (post_raises_on_malformed_request Samples.uuid Samples.frames
                         Samples.api JsonText.repr JsonText.loads Samples.int_
                         MoreSamples.post_list_as_tool Samples.quiet Samples.idle
                         eq_refl eq_refl eq_refl))
           12%Z [("tool", JArr [JNum 1])] eq_refl eq_refl).
  left. by eexists.
Defined.

End ListenerExtras.

(** ** More on the agent loops *)

Module AgentExtras.
Import Py ChatCli EndToEnd StrFacts ChatClaims.

Lemma or_idempotent a : or_ (or_ a (JObj [])) (JObj []) = or_ a (JObj []).
Proof. unfold or_. by destruct (truthy a) eqn:H; [rewrite H|]. Qed.

(** Every entry of the router names a route of the listener. *)
Lemma router_targets name verb target :
  assoc name TOOL_ROUTER = Some (verb, target) →
  if String.eqb verb "GET"
  then target = "/ping" ∨ target = "/state"
  else is_Some (assoc target BridgeServer._TOOL_MAP).
Proof.
  assert (H : Forall (λ kv : string * (string * string),
                        if String.eqb (fst (snd kv)) "GET"
                        then snd (snd kv) = "/ping" ∨ snd (snd kv) = "/state"
                        else is_Some (assoc (snd (snd kv)) BridgeServer._TOOL_MAP))
                     TOOL_ROUTER).
  { unfold TOOL_ROUTER.
    repeat (constructor;
            [first [by left | by right | by (vm_compute; eexists)]|]).
    constructor. }
  intros Hin%ListenerClaims.assoc_Some_elem.
  rewrite Forall_forall in H. by apply H in Hin.
Qed.

Lemma sees_no_model_call messages effects :
  model_calls effects = 0 → Forall (sees messages) effects.
Proof.
  unfold model_calls. induction effects as [|[input|path|tool args] l IH]; simpl; intros H.
  - constructor.
  - done.
  - constructor; [done|by apply IH].
  - constructor; [done|by apply IH].
Qed.

Lemma sees_more messages more effects :
  Forall (sees (messages ++ more)) effects → Forall (sees messages) effects.
Proof.
  intros H. eapply Forall_impl; [exact H|].
  intros [input|path|tool args]; try done.
  intros [more' ->]. exists (more ++ more'). by rewrite <- app_assoc.
Qed.

Lemma model_inputs_app a b : model_inputs (a ++ b) = model_inputs a ++ model_inputs b.
Proof.
  induction a as [|[input|path|tool args] a IH]; simpl; [done| |done|done].
  by rewrite IH.
Qed.

Lemma model_inputs_no_calls effects : model_calls effects = 0 → model_inputs effects = [].
Proof.
  unfold model_calls.
  induction effects as [|[input|path|tool args] l IH]; simpl; intros H; [done|done| |];
    by apply IH.
Qed.

Lemma model_inputs_length effects : length (model_inputs effects) = model_calls effects.
Proof.
  unfold model_calls.
  induction effects as [|[input|path|tool args] l IH]; simpl; [done| |done|done].
  by rewrite IH.
Qed.

Lemma chain_impl {A} (R R' : A → A → Prop) l :
  (∀ a b, R a b → R' a b) → chain R l → chain R' l.
Proof.
  intros HR. induction l as [|a [|b l] IH]; simpl; [done|done|].
  intros [Hab Hrest]. split; [by apply HR|by apply IH].
Qed.

Lemma chain_app {A} (R : A → A → Prop) l1 a l2 :
  chain R l1 → chain R (a :: l2) →
  (∀ d, R (List.last l1 d) a) →
  chain R (l1 ++ a :: l2).
Proof.
  intros H1 H2 Hlink. induction l1 as [|x [|y l1] IH].
  - done.
  - simpl. split; [apply (Hlink x)|exact H2].
  - destruct H1 as [Hxy Hrest].
    change (R x y ∧ chain R ((y :: l1) ++ a :: l2)). split; [done|].
    apply IH; [done|]. intros d. apply (Hlink d).
Qed.

Lemma last_cons_head {A} (x : A) l d : List.last (x :: l) d = List.last l x.
Proof.
  revert x d. induction l as [|y l IH]; intros x d; [done|].
  change (List.last (y :: l) d = List.last (y :: l) x). by rewrite !IH.
Qed.

Section Agent.

Variable json_loads : string → Completion Json.
Variable json_dumps : Json → string.
Variable json_dumps_indent2 : Json → string.
Variable repr : Json → string.
Variable llm : list Message → option string.
Variable http_get : list Effect → string → Completion Json.
Variable http_post : list Effect → string → Json → Completion Json.

Local Abbreviation _parse_json_only := (ChatCli._parse_json_only json_loads).
Local Abbreviation _execute_tool := (ChatCli._execute_tool repr http_get http_post).
Local Abbreviation agent_loop :=
  (ChatCli.agent_loop json_loads json_dumps json_dumps_indent2 repr llm http_get http_post).
Local Abbreviation agent_turn :=
  (ChatCli.agent_turn json_loads json_dumps json_dumps_indent2 repr llm http_get http_post).
Local Abbreviation next_input :=
  (EndToEnd.next_input json_loads json_dumps json_dumps_indent2 llm).
Local Abbreviation turn_end :=
  (EndToEnd.turn_end json_loads json_dumps json_dumps_indent2 llm).

(** A tool execution makes no model call and at most one request, and the
    request has a route. *)
Lemma execute_tool_routed tool_name args hist :
  ∃ extra, snd (_execute_tool tool_name args hist) = hist ++ extra ∧
           model_calls extra = 0 ∧ tool_dispatches extra ≤ 1 ∧
           Forall routed extra.
Proof.
  assert (Hnone : ∃ extra, hist = hist ++ extra ∧
                           model_calls extra = 0 ∧ tool_dispatches extra ≤ 1 ∧
                           Forall routed extra).
  { exists []. rewrite app_nil_r. repeat split; [|constructor].
    unfold tool_dispatches. simpl. lia. }
  unfold ChatCli._execute_tool.
  destruct (hashable tool_name); [|done].
  destruct tool_name as [| | |name| |]; try done.
  destruct (assoc name TOOL_ROUTER) as [[verb target]|] eqn:Hr; [|done].
  apply router_targets in Hr.
  simpl. destruct (String.eqb verb "GET").
  - exists [HttpGet target]. repeat split; [unfold tool_dispatches; simpl; lia|].
    by constructor.
  - exists [HttpPost target (or_ args (JObj []))].
    repeat split; [unfold tool_dispatches; simpl; lia|].
    constructor; [|constructor]. split; [done|apply or_idempotent].
Qed.

(** What holds of the loop for every model and every bridge. *)
Lemma agent_loop_any steps : ∀ messages hist,
  ∃ effects,
    snd (agent_loop steps messages hist) = hist ++ effects ∧
    model_calls effects ≤ steps ∧
    (0 < steps → 0 < model_calls effects) ∧
    tool_dispatches effects ≤ model_calls effects ∧
    Forall routed effects ∧
    Forall (sees messages) effects ∧
    (fst (agent_loop steps messages hist) = Raised AttributeError_get ∨
     ∃ reply added,
       fst (agent_loop steps messages hist) = Normal (reply, messages ++ added) ∧
       length added ≤ 2 * steps ∧
       (0 < steps → 0 < length added) ∧
       Forall from_the_loop added ∧
       Reply repr reply).
Proof.
  induction steps as [|steps IH]; intros messages hist.
  - exists []. simpl. rewrite app_nil_r.
    split; [done|]. split; [done|]. split; [lia|]. split; [done|].
    split; [constructor|]. split; [constructor|].
    right. exists (JStr "Max steps reached without finishing."), [].
    rewrite app_nil_r. split; [done|]. split; [done|]. split; [lia|].
    split; constructor.
  - assert (Hone : ∀ res : Completion (Json * list Message),
              (res = Raised AttributeError_get ∨
               ∃ reply m, res = Normal (reply, messages ++ [mkMessage "assistant" m]) ∧
                          Reply repr reply) →
              ∃ effects,
                hist ++ [ModelCall messages] = hist ++ effects ∧
                model_calls effects ≤ S steps ∧
                (0 < S steps → 0 < model_calls effects) ∧
                tool_dispatches effects ≤ model_calls effects ∧
                Forall routed effects ∧
                Forall (sees messages) effects ∧
                (res = Raised AttributeError_get ∨
                 ∃ reply added,
                   res = Normal (reply, messages ++ added) ∧
                   length added ≤ 2 * S steps ∧
                   (0 < S steps → 0 < length added) ∧
                   Forall from_the_loop added ∧
                   Reply repr reply)).
    { intros res Hres. exists [ModelCall messages].
      split; [done|]. unfold model_calls, tool_dispatches. simpl.
      split; [lia|]. split; [lia|]. split; [lia|].
      split; [by repeat constructor|].
      split; [constructor; [exists []; by rewrite app_nil_r|constructor]|].
      destruct Hres as [->|(reply & m & -> & Hreply)]; [by left|].
      right. exists reply, [mkMessage "assistant" m].
      split; [done|]. simpl. split; [lia|]. split; [lia|].
      split; [constructor; [by left|constructor]|done]. }
    destruct (_parse_json_only (strip (default EmptyString (llm messages))))
      as [cmd|e] eqn:Hparse.
    2:{ rewrite (agent_loop_parse_failure _ _ _ _ _ _ _ steps messages hist e Hparse).
        apply Hone. right. eexists _, _. split; [done|]. constructor. }
    destruct cmd as [| | | | |fields];
      try (simpl; rewrite Hparse; apply Hone; by left).
    destruct (eq_str (get "action" fields) "final") eqn:Hfinal.
    { rewrite (agent_loop_final _ _ _ _ _ _ _ steps messages hist fields Hparse Hfinal).
      apply Hone. right. eexists _, _. split; [done|]. by constructor. }
    destruct (eq_str (get "action" fields) "tool") eqn:Htool.
    2:{ simpl. rewrite Hparse, Hfinal, Htool. simpl.
        apply Hone. right. eexists _, _. split; [done|]. constructor. }
    destruct (truthy (get "tool_name" fields)) eqn:Hname.
    2:{ simpl. rewrite Hparse, Hfinal, Htool, Hname. simpl.
        apply Hone. right. eexists _, _. split; [done|]. constructor. }
    rewrite (agent_loop_tool _ _ _ _ _ _ _ steps messages hist fields Hparse Htool Hname).
    destruct (execute_tool_routed (get "tool_name" fields)
                (or_ (get "args" fields) (JObj [])) (hist ++ [ModelCall messages]))
      as (extra & Hext & Hm & Ht & Hr).
    rewrite Hext.
    match goal with |- context [agent_loop steps ?m ?h] =>
      destruct (IH m h) as (effects & Heq & Hmc & _ & Htd & Hrt & Hsees & Hres)
    end.
    exists ([ModelCall messages] ++ extra ++ effects).
    split; [by rewrite Heq, <- !app_assoc|].
    rewrite !model_calls_app, !tool_dispatches_app.
    change (model_calls [ModelCall messages]) with 1.
    change (tool_dispatches [ModelCall messages]) with 0.
    split; [lia|]. split; [lia|]. split; [lia|].
    split; [apply Forall_app; split; [by repeat constructor|by apply Forall_app]|].
    split.
    { apply Forall_app. split; [constructor; [exists []; by rewrite app_nil_r|constructor]|].
      apply Forall_app. split; [by apply sees_no_model_call|].
      eapply sees_more, sees_more. exact Hsees. }
    destruct Hres as [Hraised|(reply & added & Hnormal & Hlen & _ & Hroles & Hreply)];
      [by left|].
    right. eexists reply, (_ :: _ :: added).
    split; [rewrite Hnormal, <- !app_assoc; reflexivity|].
    simpl. split; [lia|]. split; [lia|].
    split; [|done].
    constructor; [by left|]. constructor; [by right|done].
Qed.

(** The inputs of the model calls of a turn: the first is the conversation
    that the loop was given, each further one is the one before it with
    the two entries of the cycle between them, and what the loop returns
    is the last one with the entries of the last cycle. *)
Lemma agent_loop_inputs steps : ∀ messages hist,
  ∃ effects inputs,
    snd (agent_loop (S steps) messages hist) = hist ++ effects ∧
    model_inputs effects = messages :: inputs ∧
    chain next_input (messages :: inputs) ∧
    (fst (agent_loop (S steps) messages hist) = Raised AttributeError_get ∨
     ∃ reply final,
       fst (agent_loop (S steps) messages hist) = Normal (reply, final) ∧
       turn_end (List.last inputs messages) final).
Proof.
  induction steps as [|steps IH]; intros messages hist.
  - destruct (agent_loop_cycle json_loads json_dumps json_dumps_indent2 repr llm http_get http_post 0 messages hist)
      as [(res & Heq & Hres)|(fields & Hparse & Htool & Hname)].
    + rewrite Heq. exists [ModelCall messages], []. split; [done|]. split; [done|].
      split; [done|]. destruct Hres as [->|(reply & m & ->)]; [by left|].
      right. exists reply, (messages ++ [mkMessage "assistant" m]).
      split; [done|]. left. by exists m.
    + rewrite (agent_loop_tool _ _ _ _ _ _ _ 0 messages hist fields Hparse Htool Hname).
      destruct (execute_tool_routed (get "tool_name" fields)
                  (or_ (get "args" fields) (JObj [])) (hist ++ [ModelCall messages]))
        as (extra & Hext & Hm & _).
      rewrite Hext. simpl.
      exists ([ModelCall messages] ++ extra), [].
      split; [by rewrite <- !app_assoc|].
      split; [by rewrite model_inputs_app, (model_inputs_no_calls extra Hm)|].
      split; [done|]. right. eexists _, _. split; [done|].
      right. eexists fields, _. split; [done|]. split; [done|].
      by rewrite <- app_assoc.
  - destruct (agent_loop_cycle json_loads json_dumps json_dumps_indent2 repr llm http_get http_post (S steps) messages hist)
      as [(res & Heq & Hres)|(fields & Hparse & Htool & Hname)].
    + rewrite Heq. exists [ModelCall messages], []. split; [done|]. split; [done|].
      split; [done|]. destruct Hres as [->|(reply & m & ->)]; [by left|].
      right. exists reply, (messages ++ [mkMessage "assistant" m]).
      split; [done|]. left. by exists m.
    + rewrite (agent_loop_tool _ _ _ _ _ _ _ (S steps) messages hist fields
                 Hparse Htool Hname).
      destruct (execute_tool_routed (get "tool_name" fields)
                  (or_ (get "args" fields) (JObj [])) (hist ++ [ModelCall messages]))
        as (extra & Hext & Hm & _).
      rewrite Hext.
      match goal with |- context [agent_loop (S steps) ?m ?h] =>
        destruct (IH m h) as (effects & inputs & Heq & Hin & Hchain & Hres);
        set (fed := m) in *
      end.
      exists ([ModelCall messages] ++ extra ++ effects), (fed :: inputs).
      split; [by rewrite Heq, <- !app_assoc|].
      split.
      { rewrite !model_inputs_app, (model_inputs_no_calls extra Hm), Hin. done. }
      split.
      { split; [|exact Hchain].
        eexists fields, _. split; [done|]. split; [done|].
        unfold fed. by rewrite <- app_assoc. }
      destruct Hres as [Hraised|(reply & final & Hnormal & Hend)]; [by left|].
      right. exists reply, final. split; [done|].
      by rewrite last_cons_head.
Qed.

(** X10.  Whatever the model answers and whatever the bridge does, one
    turn of the chat agent calls the model at least once and at most 12
    times, each time with the whole conversation so far: the first call is
    given the conversation of the caller followed by the user's text, and
    every further call is given the input of the call before it followed
    by the tool call that the model answered with and by the [tool_result]
    for it.  The turn sends at most one request per model call, and either
    raises the [AttributeError] of a model output that is JSON but not an
    object, or returns: then the conversation is the input of the last
    model call followed by the one or two entries of the last cycle, so
    that it is the one it was given, followed by the user's text and by
    between 1 and 24 [assistant] and [user] entries (nothing is removed or
    rewritten), and the reply is the budget message, a parse failure
    report, the [message] of a [final] action, or one of the two reports
    of a command that cannot be run. *)
Theorem agent_turn_for_any_model user_text messages hist :
  ∃ effects inputs,
    snd (agent_turn user_text messages hist) = hist ++ effects ∧
    1 ≤ model_calls effects ∧
    model_calls effects ≤ 12 ∧
    tool_dispatches effects ≤ model_calls effects ∧
    Forall (sees (messages ++ [mkMessage "user" user_text])) effects ∧
    model_inputs effects = (messages ++ [mkMessage "user" user_text]) :: inputs ∧
    chain next_input ((messages ++ [mkMessage "user" user_text]) :: inputs) ∧
    ((∃ e, exc_type e = "AttributeError" ∧
           fst (agent_turn user_text messages hist) = Raised e) ∨
     ∃ reply added,
       fst (agent_turn user_text messages hist) =
         Normal (reply, messages ++ mkMessage "user" user_text :: added) ∧
       turn_end (List.last inputs (messages ++ [mkMessage "user" user_text]))
         (messages ++ mkMessage "user" user_text :: added) ∧
       1 ≤ length added ∧
       length added ≤ 24 ∧
       Forall from_the_loop added ∧
       Reply repr reply).
Proof.
  unfold ChatCli.agent_turn.
  destruct (agent_loop_any 12 (messages ++ [mkMessage "user" user_text]) hist)
    as (effects & Heq & Hmc & Hpos & Htd & _ & Hsees & Hres).
  destruct (agent_loop_inputs 11 (messages ++ [mkMessage "user" user_text]) hist)
    as (effects' & inputs & Heq' & Hin & Hchain & Hres').
  assert (effects' = effects) as -> by (rewrite Heq in Heq'; by apply app_inv_head in Heq').
  exists effects, inputs.
  split; [done|]. split; [lia|]. split; [done|]. split; [done|].
  split; [done|]. split; [done|]. split; [done|].
  destruct Hres as [Hraised|(reply & added & Hnormal & Hlen & Hlen' & Hroles & Hreply)].
  - left. by exists AttributeError_get.
  - right. exists reply, added. rewrite Hnormal, <- app_assoc.
    split; [done|].
    destruct Hres' as [Hraised|(reply' & final & Hnormal' & Hend)]; [congruence|].
    rewrite Hnormal in Hnormal'. injection Hnormal' as _ <-.
    rewrite <- app_assoc in Hend.
    split; [exact Hend|]. split; [lia|]. split; [simpl in Hlen; lia|]. done.
Qed.

(** X11.  A request that fails is fed back, it does not end the turn.
    When the request of a tool call raises [e], the cycle makes the model
    call and the request and adds two entries to the conversation: the
    command, and a [tool_result] whose result is
    [{"ok": False, "error": str(e)}].  When this was the last step, the turn
    returns the conversation with these two entries; otherwise the next
    thing the loop does is to call the model with it. *)
Theorem failed_request_is_fed_back steps messages hist fields name verb target e :
  _parse_json_only (strip (default EmptyString (llm messages))) = Normal (JObj fields) →
  eq_str (get "action" fields) "tool" = true →
  get "tool_name" fields = JStr name →
  name ≠ EmptyString →
  assoc name TOOL_ROUTER = Some (verb, target) →
  (if String.eqb verb "GET"
   then http_get (hist ++ [ModelCall messages]) target
   else http_post (hist ++ [ModelCall messages]) target
          (or_ (or_ (get "args" fields) (JObj [])) (JObj []))) = Raised e →
  ∀ fed request,
    fed = messages ++
          [mkMessage "assistant" (json_dumps (JObj fields));
           mkMessage "user"
             (json_dumps_indent2
                (JObj [("tool_result",
                        JObj [("tool_name", JStr name);
                              ("args", or_ (get "args" fields) (JObj []));
                              ("result", JObj [("ok", JBool false);
                                               ("error", JStr (exc_str e))])])]))] →
    request = (if String.eqb verb "GET" then HttpGet target
               else HttpPost target (or_ (get "args" fields) (JObj []))) →
    agent_loop (S steps) messages hist =
      agent_loop steps fed (hist ++ [ModelCall messages; request]) ∧
    agent_loop 1 messages hist =
      (Normal (JStr "Max steps reached without finishing.", fed),
       hist ++ [ModelCall messages; request]) ∧
    ∃ rest,
      snd (agent_loop (S (S steps)) messages hist) =
        hist ++ ModelCall messages :: request :: ModelCall fed :: rest.
Proof.
  intros Hparse Htool Hname Hne Hroute Hfail fed request Hfed Hrequest.
  assert (Hstep : ∀ n, agent_loop (S n) messages hist =
                       agent_loop n fed (hist ++ [ModelCall messages; request])).
  { intros n.
    rewrite (agent_loop_tool _ _ _ _ _ _ _ n messages hist fields Hparse Htool).
    2:{ rewrite Hname. simpl. by apply negb_true_iff, String.eqb_neq. }
    rewrite Hname. unfold ChatCli._execute_tool. simpl hashable. cbv iota.
    rewrite Hroute. simpl fst. simpl snd. rewrite Hfed, Hrequest.
    destruct (String.eqb verb "GET").
    - unfold fusion_get. simpl. rewrite Hfail. by rewrite <- !app_assoc.
    - unfold fusion_tool. simpl. rewrite Hfail. rewrite or_idempotent.
      by rewrite <- !app_assoc. }
  split; [apply Hstep|]. split; [by rewrite Hstep|].
  rewrite Hstep.
  destruct (agent_loop_first_call json_loads json_dumps json_dumps_indent2 repr llm http_get http_post steps fed
              (hist ++ [ModelCall messages; request])) as [rest Hrest].
  exists rest. by rewrite Hrest, <- app_assoc.
Qed.

End Agent.

Section WithBridge.

Context {Host : Type}.
Variable uuid4 : nat → string.
Variable tb_frames : PyException → string.
Variable fusion_api : BridgeServer.ToolFn → @BridgeServer.Handler Host.
Variable bridge_repr : Json → string.

Variable json_loads : string → Completion Json.
Variable json_dumps : Json → string.
Variable json_dumps_indent2 : Json → string.
Variable repr : Json → string.
Variable llm : list Message → option string.
Variable http_get : list Effect → string → Completion Json.
Variable http_post : list Effect → string → Json → Completion Json.

Local Abbreviation agent_turn :=
  (ChatCli.agent_turn json_loads json_dumps json_dumps_indent2 repr llm http_get http_post).
Local Abbreviation _dispatch_tool :=
  (BridgeServer._dispatch_tool uuid4 tb_frames fusion_api bridge_repr).
Local Abbreviation _run_on_fusion_thread :=
  (BridgeServer._run_on_fusion_thread uuid4 tb_frames).

(** X12.  The router and the registry fit together.  Whatever the model
    answers, every request that a turn of the chat agent sends is one the
    listener has a route for: a [GET] goes to [/ping] or [/state], and a
    [POST /tool] names a registered tool, so that [_dispatch_tool] never
    answers it with [Unknown tool] but submits the registered handler with
    the arguments as they were sent. *)
Theorem every_request_of_a_turn_has_a_route user_text messages hist :
  ∃ effects,
    snd (agent_turn user_text messages hist) = hist ++ effects ∧
    (∀ path, HttpGet path ∈ effects → path = "/ping" ∨ path = "/state") ∧
    (∀ tool args, HttpPost tool args ∈ effects →
       ∃ f, assoc tool BridgeServer._TOOL_MAP = Some f ∧
            ∀ il (w : @BridgeServer.World Host),
              _dispatch_tool (request_body tool args) il w =
                _run_on_fusion_thread (BridgeServer.handler_of fusion_api f) args il w).
Proof.
  unfold ChatCli.agent_turn.
  destruct (agent_loop_any json_loads json_dumps json_dumps_indent2 repr llm
              http_get http_post 12 (messages ++ [mkMessage "user" user_text]) hist)
    as (effects & Heq & _ & _ & _ & Hrouted & _).
  exists effects. split; [done|]. rewrite Forall_forall in Hrouted.
  split.
  - intros path Hin. exact (Hrouted _ Hin).
  - intros tool args Hin. destruct (Hrouted _ Hin) as [[f Hf] Hargs].
    exists f. split; [done|]. intros il w.
    unfold BridgeServer._dispatch_tool, request_body, BridgeServer.registered.
    change (get "tool" [("tool", JStr tool); ("args", args)]) with (JStr tool).
    change (get_or "args" (JObj []) [("tool", JStr tool); ("args", args)]) with args.
    change (hashable (JStr tool)) with true. cbv iota.
    by rewrite Hf, Hargs.
Qed.

End WithBridge.

Lemma failed_request_is_fed_back_witness :
  ChatCli._parse_json_only JsonText.loads
    (strip (default EmptyString (Samples.always Samples.ping_call Samples.system_only)))
    = Normal (JObj [("action", JStr "tool"); ("tool_name", JStr "fusion_ping");
                    ("args", JObj [])]) ∧
  assoc "fusion_ping" TOOL_ROUTER = Some ("GET", "/ping") ∧
  MoreSamples.bridge_down [ModelCall Samples.system_only] "/ping"
    = Raised MoreSamples.ConnectError ∧
  ∃ rest,
    snd (ChatCli.agent_loop JsonText.loads JsonText.dumps JsonText.dumps JsonText.repr
           (Samples.always Samples.ping_call) MoreSamples.bridge_down Samples.bridge_post
           3 Samples.system_only [])
    = [] ++ ModelCall Samples.system_only :: HttpGet "/ping"
         :: ModelCall
              (Samples.system_only ++
               [mkMessage "assistant"
                  (JsonText.dumps (JObj [("action", JStr "tool");
                                         ("tool_name", JStr "fusion_ping");
                                         ("args", JObj [])]));
                mkMessage "user"
                  (JsonText.dumps
                     (JObj [("tool_result",
                             JObj [("tool_name", JStr "fusion_ping");
                                   ("args", JObj []);
                                   ("result",
                                    JObj [("ok", JBool false);
                                          ("error",
                                           JStr (exc_str MoreSamples.ConnectError))])])]))])
         :: rest.
Proof.
  split; [by vm_compute|]. split; [reflexivity|]. split; [reflexivity|].
  apply (failed_request_is_fed_back JsonText.loads JsonText.dumps JsonText.dumps
           JsonText.repr (Samples.always Samples.ping_call)
           MoreSamples.bridge_down Samples.bridge_post
           1 Samples.system_only []
           [("action", JStr "tool"); ("tool_name", JStr "fusion_ping"); ("args", JObj [])]
           "fusion_ping" "GET" "/ping" MoreSamples.ConnectError).
  - by vm_compute.
  - reflexivity.
  - reflexivity.
  - discriminate.
  - reflexivity.
  - reflexivity.
  - reflexivity.
  - reflexivity.
Defined.

Lemma every_request_of_a_turn_has_a_route_witness :
  ∃ effects,
    snd (ChatCli.agent_turn JsonText.loads JsonText.dumps JsonText.dumps JsonText.repr
           (Samples.always Samples.ping_call) Samples.bridge_get Samples.bridge_post
           "Ping Fusion." Samples.system_only []) = [] ++ effects ∧
    (∀ path, HttpGet path ∈ effects → path = "/ping" ∨ path = "/state") ∧
    (∀ tool args, HttpPost tool args ∈ effects →
       ∃ f, assoc tool BridgeServer._TOOL_MAP = Some f ∧
            ∀ il (w : @BridgeServer.World Samples.Doc),
              BridgeServer._dispatch_tool Samples.uuid Samples.frames Samples.api
                JsonText.repr (request_body tool args) il w =
              BridgeServer._run_on_fusion_thread Samples.uuid Samples.frames
                (BridgeServer.handler_of Samples.api f) args il w).
Proof.
  apply (every_request_of_a_turn_has_a_route Samples.uuid Samples.frames Samples.api
           JsonText.repr JsonText.loads JsonText.dumps JsonText.dumps JsonText.repr
           (Samples.always Samples.ping_call) Samples.bridge_get Samples.bridge_post
           "Ping Fusion." Samples.system_only []).
Defined.

End AgentExtras.

(** ** More on the scripted loop of run_agent.py *)

Module RunAgentExtras.
Import Py ChatCli RunAgent EndToEnd ChatClaims.

Section Agent.

Variable json_loads : string → Completion Json.
Variable json_dumps_indent2 : Json → string.
Variable repr : Json → string.
Variable llm : list Message → option string.
Variable http_get : list Effect → string → Completion Json.
Variable http_post : list Effect → string → Json → Completion Json.

Local Abbreviation extract_json := (RunAgent.extract_json json_loads).
Local Abbreviation run_call := (RunAgent.run_call http_get http_post).
Local Abbreviation main_loop :=
  (RunAgent.main_loop json_loads json_dumps_indent2 repr llm http_get http_post).
Local Abbreviation main :=
  (RunAgent.main json_loads json_dumps_indent2 repr llm http_get http_post).

Lemma allowed_entries name c :
  assoc name ALLOWED_TOOLS = Some c →
  (name = "fusion_ping" ∧ c = Get "/ping") ∨
  (name = "fusion_get_state" ∧ c = Get "/state") ∨
  (name = "fusion_create_sketch_rect_xy" ∧ c = Post "create_sketch_rect_xy") ∨
  (name = "fusion_extrude_last_profile" ∧ c = Post "extrude_last_profile").
Proof.
  unfold ALLOWED_TOOLS. simpl.
  destruct (String.eqb_spec name "fusion_ping") as [->|_];
    [intros [= <-]; by left|].
  destruct (String.eqb_spec name "fusion_get_state") as [->|_];
    [intros [= <-]; by right; left|].
  destruct (String.eqb_spec name "fusion_create_sketch_rect_xy") as [->|_];
    [intros [= <-]; by right; right; left|].
  destruct (String.eqb_spec name "fusion_extrude_last_profile") as [->|_];
    [intros [= <-]; by right; right; right|].
  done.
Qed.

(** The call behind an entry makes no model call and exactly one request,
    to one of four places. *)
Lemma run_call_on_allowlist name c args hist :
  assoc name ALLOWED_TOOLS = Some c →
  ∃ extra, snd (run_call c args hist) = hist ++ extra ∧
           model_calls extra = 0 ∧ tool_dispatches extra = 1 ∧
           Forall on_allowlist extra.
Proof.
  intros [[_ ->]|[[_ ->]|[[_ ->]|[_ ->]]]]%allowed_entries; simpl.
  - exists [HttpGet "/ping"]. repeat split. constructor; [by left|constructor].
  - exists [HttpGet "/state"]. repeat split. constructor; [by right|constructor].
  - eexists [HttpPost _ _]. repeat split. constructor; [by left|constructor].
  - eexists [HttpPost _ _]. repeat split. constructor; [by right|constructor].
Qed.

Lemma main_loop_tool steps messages hist fields name c :
  extract_json (strip (default EmptyString (llm messages))) = Normal (JObj fields) →
  eq_str (get "action" fields) "tool" = true →
  get "tool_name" fields = JStr name →
  assoc name ALLOWED_TOOLS = Some c →
  main_loop (S steps) messages hist =
    main_loop steps
      (messages ++
       [mkMessage "assistant" (strip (default EmptyString (llm messages)));
        mkMessage "user"
          (json_dumps_indent2
             (tool_result (JStr name) (or_ (get "args" fields) (JObj []))
                match fst (run_call c (or_ (get "args" fields) (JObj []))
                             (hist ++ [ModelCall messages])) with
                | Normal v => v
                | Raised e => JObj [("ok", JBool false); ("error", JStr (exc_str e))]
                end))])
      (snd (run_call c (or_ (get "args" fields) (JObj [])) (hist ++ [ModelCall messages]))).
Proof.
  intros Hparse Htool Hname Hc. simpl. rewrite Hparse, Htool.
  apply eq_str_true in Htool. rewrite Htool. simpl.
  rewrite Hname. unfold allowed. simpl hashable. cbv iota. rewrite Hc.
  by destruct (run_call _ _ _) as [r h].
Qed.

(** What holds of the loop for every model and every bridge. *)
Lemma main_loop_any steps : ∀ messages hist,
  ∃ effects,
    snd (main_loop steps messages hist) = hist ++ effects ∧
    model_calls effects ≤ steps ∧
    tool_dispatches effects ≤ model_calls effects ∧
    Forall on_allowlist effects ∧
    ((∃ fields, eq_str (get "action" fields) "final" = true ∧
                fst (main_loop steps messages hist) =
                  Normal (get_or "message" (JStr EmptyString) fields)) ∨
     ∃ e, fst (main_loop steps messages hist) = Raised e ∧
          (exc_type e = "RuntimeError" ∨ exc_type e = "AttributeError" ∨
           exc_type e = "TypeError")).
Proof.
  induction steps as [|steps IH]; intros messages hist.
  - exists []. simpl. rewrite app_nil_r.
    split; [done|]. split; [done|]. split; [done|]. split; [constructor|].
    right. eexists. split; [done|]. by left.
  - assert (Hone : ∀ res : Completion Json,
              ((∃ fields, eq_str (get "action" fields) "final" = true ∧
                          res = Normal (get_or "message" (JStr EmptyString) fields)) ∨
               ∃ e, res = Raised e ∧
                    (exc_type e = "RuntimeError" ∨ exc_type e = "AttributeError" ∨
                     exc_type e = "TypeError")) →
              ∃ effects,
                hist ++ [ModelCall messages] = hist ++ effects ∧
                model_calls effects ≤ S steps ∧
                tool_dispatches effects ≤ model_calls effects ∧
                Forall on_allowlist effects ∧
                ((∃ fields, eq_str (get "action" fields) "final" = true ∧
                            res = Normal (get_or "message" (JStr EmptyString) fields)) ∨
                 ∃ e, res = Raised e ∧
                      (exc_type e = "RuntimeError" ∨ exc_type e = "AttributeError" ∨
                       exc_type e = "TypeError"))).
    { intros res Hres. exists [ModelCall messages].
      split; [done|]. unfold model_calls, tool_dispatches. simpl.
      split; [lia|]. split; [lia|]. split; [by repeat constructor|done]. }
    destruct (extract_json (strip (default EmptyString (llm messages))))
      as [cmd|e] eqn:Hparse.
    2:{ simpl. rewrite Hparse. apply Hone. right. eexists. split; [done|]. by left. }
    destruct cmd as [| | | | |fields];
      try (simpl; rewrite Hparse; apply Hone; right; eexists; split; [done|];
           by right; left).
    destruct (eq_str (get "action" fields) "final") eqn:Hfinal.
    { simpl. rewrite Hparse, Hfinal. apply Hone. left. by exists fields. }
    destruct (eq_str (get "action" fields) "tool") eqn:Htool.
    2:{ simpl. rewrite Hparse, Hfinal, Htool. simpl.
        apply Hone. right. eexists. split; [done|]. by left. }
    destruct (allowed (get "tool_name" fields)) as [[c|]|e] eqn:Hallowed.
    3:{ simpl. rewrite Hparse, Hfinal, Htool, Hallowed. simpl.
        apply Hone. right. eexists. split; [done|].
        unfold allowed in Hallowed.
        destruct (hashable (get "tool_name" fields)); [done|].
        injection Hallowed as <-. by right; right. }
    2:{ simpl. rewrite Hparse, Hfinal, Htool, Hallowed. simpl.
        apply Hone. right. eexists. split; [done|]. by left. }
    assert (∃ name, get "tool_name" fields = JStr name ∧ assoc name ALLOWED_TOOLS = Some c)
      as (name & Hname & Hc).
    { unfold allowed in Hallowed.
      destruct (get "tool_name" fields) as [| | |name| |]; try done.
      exists name. split; [done|]. simpl in Hallowed. by injection Hallowed. }
    rewrite (main_loop_tool steps messages hist fields name c Hparse Htool Hname Hc).
    destruct (run_call_on_allowlist name c (or_ (get "args" fields) (JObj []))
                (hist ++ [ModelCall messages]) Hc)
      as (extra & Hext & Hm & Ht & Hr).
    rewrite Hext.
    match goal with |- context [main_loop steps ?m ?h] =>
      destruct (IH m h) as (effects & Heq & Hmc & Htd & Hal & Hres)
    end.
    exists ([ModelCall messages] ++ extra ++ effects).
    split; [by rewrite Heq, <- !app_assoc|].
    rewrite !model_calls_app, !tool_dispatches_app.
    change (model_calls [ModelCall messages]) with 1.
    change (tool_dispatches [ModelCall messages]) with 0.
    split; [lia|]. split; [lia|].
    split; [apply Forall_app; split; [by repeat constructor|by apply Forall_app]|].
    done.
Qed.

Lemma main_loop_budget steps : ∀ messages hist,
  (∀ conversation, ∃ fields name c,
     extract_json (strip (default EmptyString (llm conversation))) = Normal (JObj fields) ∧
     eq_str (get "action" fields) "tool" = true ∧
     get "tool_name" fields = JStr name ∧
     assoc name ALLOWED_TOOLS = Some c) →
  ∃ effects,
    main_loop steps messages hist =
      (Raised (RuntimeError "Max steps reached without finishing."), hist ++ effects) ∧
    model_calls effects = steps ∧
    tool_dispatches effects = steps.
Proof.
  induction steps as [|steps IH]; intros messages hist Hllm.
  - exists []. simpl. by rewrite app_nil_r.
  - destruct (Hllm messages) as (fields & name & c & Hparse & Htool & Hname & Hc).
    rewrite (main_loop_tool steps messages hist fields name c Hparse Htool Hname Hc).
    destruct (run_call_on_allowlist name c (or_ (get "args" fields) (JObj []))
                (hist ++ [ModelCall messages]) Hc)
      as (extra & Hext & Hm & Ht & _).
    rewrite Hext.
    match goal with |- context [main_loop steps ?m ?h] =>
      destruct (IH m h Hllm) as (effects & Heq & Hmc & Htd)
    end.
    exists ([ModelCall messages] ++ extra ++ effects).
    split; [by rewrite Heq, <- !app_assoc|].
    rewrite !model_calls_app, !tool_dispatches_app.
    change (model_calls [ModelCall messages]) with 1.
    change (tool_dispatches [ModelCall messages]) with 0.
    lia.
Qed.

(** X13.  The allow-list of the scripted agent holds for every model.
    Whatever the model answers, [main(max_steps)] calls it at most
    [max_steps] times and sends at most one request per model call, each of
    them a [GET] of [/ping] or [/state] or a [POST] of
    [create_sketch_rect_xy] or [extrude_last_profile]; it returns normally
    only on a [final] action, with its [message], and in every other case
    it ends by raising a [RuntimeError], or the [AttributeError] or
    [TypeError] of a malformed command. *)
Theorem scripted_run_for_any_model (max_steps : nat) :
  ∃ effects,
    snd (main max_steps) = effects ∧
    model_calls effects ≤ max_steps ∧
    tool_dispatches effects ≤ model_calls effects ∧
    Forall on_allowlist effects ∧
    ((∃ fields, eq_str (get "action" fields) "final" = true ∧
                fst (main max_steps) = Normal (get_or "message" (JStr EmptyString) fields)) ∨
     ∃ e, fst (main max_steps) = Raised e ∧
          (exc_type e = "RuntimeError" ∨ exc_type e = "AttributeError" ∨
           exc_type e = "TypeError")).
Proof.
  unfold RunAgent.main.
  destruct (main_loop_any max_steps [mkMessage "system" SYSTEM; mkMessage "user" GOAL] [])
    as (effects & Heq & H).
  exists effects. by split.
Qed.

(** X14.  With a model that answers every conversation with a call of an
    allowed tool, [main(max_steps)] ends by raising
    [RuntimeError("Max steps reached without finishing.")] after exactly
    [max_steps] model calls and [max_steps] requests: running out of steps
    is an error here, not a reply. *)
Theorem scripted_run_uses_up_its_steps (max_steps : nat) :
  (∀ conversation, ∃ fields name c,
     extract_json (strip (default EmptyString (llm conversation))) = Normal (JObj fields) ∧
     eq_str (get "action" fields) "tool" = true ∧
     get "tool_name" fields = JStr name ∧
     assoc name ALLOWED_TOOLS = Some c) →
  ∃ effects,
    main max_steps =
      (Raised (RuntimeError "Max steps reached without finishing."), effects) ∧
    model_calls effects = max_steps ∧
    tool_dispatches effects = max_steps.
Proof.
  intros Hllm. unfold RunAgent.main.
  destruct (main_loop_budget max_steps
              [mkMessage "system" SYSTEM; mkMessage "user" GOAL] [] Hllm)
    as (effects & Heq & H).
  exists effects. by split.
Qed.

(** X15.  The two agents agree on the tools they share.  Each of the four
    names of [ALLOWED_TOOLS] is a key of [TOOL_ROUTER], and the scripted
    agent sends for it the very request that the chat agent sends. *)
Theorem allowed_tools_are_routed_alike name c args hist :
  assoc name ALLOWED_TOOLS = Some c →
  is_Some (assoc name TOOL_ROUTER) ∧
  run_call c args hist = ChatCli._execute_tool repr http_get http_post (JStr name) args hist.
Proof.
  intros [[-> ->]|[[-> ->]|[[-> ->]|[-> ->]]]]%allowed_entries;
    (split; [by vm_compute; eexists|reflexivity]).
Qed.

End Agent.

Lemma scripted_run_uses_up_its_steps_witness :
  (∀ conversation, ∃ fields name c,
     RunAgent.extract_json JsonText.loads
       (strip (default EmptyString (Samples.always Samples.ping_call conversation)))
       = Normal (JObj fields) ∧
     eq_str (get "action" fields) "tool" = true ∧
     get "tool_name" fields = JStr name ∧
     assoc name ALLOWED_TOOLS = Some c) ∧
  ∃ effects,
    RunAgent.main JsonText.loads JsonText.dumps JsonText.repr
      (Samples.always Samples.ping_call) Samples.bridge_get Samples.bridge_post 3 =
      (Raised (RuntimeError "Max steps reached without finishing."), effects) ∧
    model_calls effects = 3 ∧
    tool_dispatches effects = 3.
Proof.
  assert (H : ∀ conversation, ∃ fields name c,
     RunAgent.extract_json JsonText.loads
       (strip (default EmptyString (Samples.always Samples.ping_call conversation)))
       = Normal (JObj fields) ∧
     eq_str (get "action" fields) "tool" = true ∧
     get "tool_name" fields = JStr name ∧
     assoc name ALLOWED_TOOLS = Some c).
  { intros conversation. eexists _, _, _. vm_compute. repeat split. }
  split; [exact H|].
  apply (scripted_run_uses_up_its_steps JsonText.loads JsonText.dumps JsonText.repr
           (Samples.always Samples.ping_call) Samples.bridge_get Samples.bridge_post 3 H).
Defined.

Lemma allowed_tools_are_routed_alike_witness :
  assoc "fusion_extrude_last_profile" ALLOWED_TOOLS = Some (Post "extrude_last_profile") ∧
  is_Some (assoc "fusion_extrude_last_profile" TOOL_ROUTER) ∧
  RunAgent.run_call Samples.bridge_get Samples.bridge_post
    (Post "extrude_last_profile") JNull [] =
  ChatCli._execute_tool JsonText.repr Samples.bridge_get Samples.bridge_post
    (JStr "fusion_extrude_last_profile") JNull [].
Proof.
  split; [reflexivity|].
  apply (allowed_tools_are_routed_alike JsonText.repr Samples.bridge_get Samples.bridge_post
           "fusion_extrude_last_profile" (Post "extrude_last_profile") JNull []).
  reflexivity.
Defined.

End RunAgentExtras.

(** ** The chat session *)

Module SessionExtras.
Import Py ChatCli EndToEnd ChatSession ChatClaims AgentExtras.

Section Session.

Variable json_loads : string → Completion Json.
Variable json_dumps : Json → string.
Variable json_dumps_indent2 : Json → string.
Variable repr : Json → string.
Variable llm : list Message → option string.
Variable http_get : list Effect → string → Completion Json.
Variable http_post : list Effect → string → Json → Completion Json.
Variable SYSTEM : string.

Local Abbreviation agent_turn :=
  (ChatCli.agent_turn json_loads json_dumps json_dumps_indent2 repr llm http_get http_post).
Local Abbreviation session :=
  (ChatSession.session json_loads json_dumps json_dumps_indent2 repr llm http_get http_post).
Local Abbreviation main :=
  (ChatSession.main json_loads json_dumps json_dumps_indent2 repr llm http_get http_post SYSTEM).
Local Abbreviation next_in_session :=
  (EndToEnd.next_in_session json_loads json_dumps json_dumps_indent2 llm).

Lemma session_any inputs : ∀ messages hist printed,
  ∃ effects,
    snd (session inputs messages hist printed) = hist ++ effects ∧
    model_calls effects ≤ 12 * length inputs ∧
    tool_dispatches effects ≤ model_calls effects ∧
    Forall (sees messages) effects ∧
    Forall routed effects ∧
    match fst (session inputs messages hist printed) with
    | Normal out =>
      ∃ replies, out = printed ++ replies ∧ length replies < length inputs ∧
                 Forall (Reply repr) replies
    | Raised e => exc_type e = "EOFError" ∨ exc_type e = "AttributeError"
    end.
Proof.
  induction inputs as [|line rest IH]; intros messages hist printed.
  - exists []. simpl. rewrite app_nil_r.
    split; [done|]. split; [done|]. split; [done|]. split; [constructor|].
    split; [constructor|]. by left.
  - simpl.
    destruct (String.eqb (lower (strip line)) "exit" || String.eqb (lower (strip line)) "quit").
    { exists []. simpl. rewrite app_nil_r.
      split; [done|]. split; [unfold model_calls; simpl; lia|].
      split; [done|]. split; [constructor|].
      split; [constructor|]. exists []. rewrite app_nil_r.
      split; [done|]. split; [simpl; lia|constructor]. }
    unfold ChatCli.agent_turn.
    destruct (agent_loop_any json_loads json_dumps json_dumps_indent2 repr llm
                http_get http_post 12 (messages ++ [mkMessage "user" (strip line)]) hist)
      as (effects & Heq & Hmc & _ & Htd & Hrouted & Hsees & Hres).
    destruct (ChatCli.agent_loop json_loads json_dumps json_dumps_indent2 repr llm
                http_get http_post 12 (messages ++ [mkMessage "user" (strip line)]) hist)
      as [[[reply messages']|e] hist'] eqn:Hturn; simpl in Heq, Hres; subst hist'.
    2:{ exists effects. split; [done|]. split; [lia|]. split; [done|].
        split; [by eapply sees_more|]. split; [done|].
        destruct Hres as [[= ->]|(? & ? & ? & _)]; [by right|done]. }
    destruct Hres as [?|(reply' & added & [= -> ->] & _ & _ & _ & Hreply)]; [done|].
    destruct (IH ((messages ++ [mkMessage "user" (strip line)]) ++ added)
                (hist ++ effects) (printed ++ [reply']))
      as (effects' & Heq' & Hmc' & Htd' & Hsees' & Hrouted' & Hres').
    exists (effects ++ effects').
    split; [by rewrite Heq', <- app_assoc|].
    rewrite model_calls_app, tool_dispatches_app.
    split; [lia|]. split; [lia|].
    split; [apply Forall_app; split; eapply sees_more; [exact Hsees|];
            eapply sees_more; exact Hsees'|].
    split; [by apply Forall_app|].
    destruct (fst (session rest _ _ _)) as [out|e]; [|done].
    destruct Hres' as (replies & -> & Hlen & Hreplies).
    exists (reply' :: replies). rewrite <- app_assoc.
    split; [done|]. split; [simpl; lia|by constructor].
Qed.

(** The model inputs of a session form one chain. *)
Lemma session_inputs inputs : ∀ messages hist printed,
  ∃ effects,
    snd (session inputs messages hist printed) = hist ++ effects ∧
    match inputs with
    | [] => model_inputs effects = []
    | line :: _ =>
      if leaves line then model_inputs effects = []
      else ∃ more, model_inputs effects
                   = (messages ++ [mkMessage "user" (strip line)]) :: more
    end ∧
    chain (next_in_session (strip <$> inputs)) (model_inputs effects).
Proof.
  induction inputs as [|line rest IH]; intros messages hist printed.
  - exists []. simpl. by rewrite app_nil_r.
  - simpl. fold (leaves line). destruct (leaves line) eqn:Hleaves.
    { exists []. simpl. by rewrite app_nil_r. }
    unfold ChatCli.agent_turn.
    destruct (agent_loop_inputs json_loads json_dumps json_dumps_indent2 repr llm
                http_get http_post 11 (messages ++ [mkMessage "user" (strip line)]) hist)
      as (effects & ins & Heq & Hin & Hchain & Hres).
    assert (Hown : chain (next_in_session (strip line :: (strip <$> rest)))
                     ((messages ++ [mkMessage "user" (strip line)]) :: ins)).
    { eapply chain_impl; [|exact Hchain]. intros a b Hab. by left. }
    destruct (ChatCli.agent_loop json_loads json_dumps json_dumps_indent2 repr llm
                http_get http_post 12 (messages ++ [mkMessage "user" (strip line)]) hist)
      as [[[reply final]|e] hist'] eqn:Hturn; simpl in Heq, Hres; subst hist'.
    2:{ exists effects. split; [done|]. split; [by exists ins|]. by rewrite Hin. }
    destruct Hres as [?|(reply' & final' & [= <- <-] & Hend)]; [done|].
    destruct (IH final (hist ++ effects) (printed ++ [reply]))
      as (effects' & Heq' & Hfirst & Hchain').
    exists (effects ++ effects').
    split; [by rewrite Heq', <- app_assoc|].
    rewrite model_inputs_app, Hin.
    split; [by eexists|].
    assert (Hrest : chain (next_in_session (strip line :: (strip <$> rest)))
                      (model_inputs effects')).
    { eapply chain_impl; [|exact Hchain'].
      intros a b [Hab|(fin & text & Hfin & Htext & ->)]; [by left|].
      right. exists fin, text. split; [done|]. split; [by right|done]. }
    destruct rest as [|line' rest'].
    { rewrite Hfirst, app_nil_r. exact Hown. }
    destruct (leaves line').
    { rewrite Hfirst, app_nil_r. exact Hown. }
    destruct Hfirst as [more Hmore]. rewrite Hmore in Hrest |- *.
    apply chain_app; [exact Hown|exact Hrest|].
    intros d. rewrite last_cons_head. right.
    exists final, (strip line'). split; [done|]. split; [|done].
    right. by left.
Qed.

(** A line that reads [exit] or [quit] ends the session wherever it comes. *)
Lemma session_exit before : ∀ line after messages hist printed,
  Forall (λ l, leaves l = false) before →
  leaves line = true →
  session (before ++ line :: after) messages hist printed
    = session (before ++ [line]) messages hist printed ∧
  snd (session (before ++ line :: after) messages hist printed)
    = snd (session before messages hist printed) ∧
  match fst (session (before ++ line :: after) messages hist printed) with
  | Normal out => ∃ replies, out = printed ++ replies ∧ length replies = length before
  | Raised e => exc_type e = "AttributeError"
  end.
Proof.
  induction before as [|l before IH]; intros line after messages hist printed Hbefore Hline.
  - simpl. fold (leaves line). rewrite Hline. split; [done|]. split; [done|].
    exists []. by rewrite app_nil_r.
  - apply Forall_cons in Hbefore as [Hl Hbefore].
    simpl. fold (leaves l). rewrite Hl.
    unfold ChatCli.agent_turn.
    destruct (agent_loop_any json_loads json_dumps json_dumps_indent2 repr llm
                http_get http_post 12 (messages ++ [mkMessage "user" (strip l)]) hist)
      as (effects & _ & _ & _ & _ & _ & _ & Hres).
    destruct (ChatCli.agent_loop json_loads json_dumps json_dumps_indent2 repr llm
                http_get http_post 12 (messages ++ [mkMessage "user" (strip l)]) hist)
      as [[[reply final]|e] hist'] eqn:Hturn; simpl in Hres.
    2:{ split; [done|]. split; [done|].
        destruct Hres as [[= ->]|(? & ? & ? & _)]; done. }
    destruct (IH line after final hist' (printed ++ [reply]) Hbefore Hline)
      as (Hsame & Heff & Hout).
    split; [done|]. split; [done|].
    destruct (fst (session (before ++ line :: after) final hist' (printed ++ [reply])))
      as [out|e]; [|done].
    destruct Hout as (replies & -> & Hlen).
    exists (reply :: replies). rewrite <- app_assoc. split; [done|].
    simpl. by rewrite Hlen.
Qed.

(** Without such a line the session ends with an exception. *)
Lemma session_without_exit inputs : ∀ messages hist printed,
  Forall (λ l, leaves l = false) inputs →
  ∃ e, fst (session inputs messages hist printed) = Raised e.
Proof.
  induction inputs as [|l rest IH]; intros messages hist printed Hall.
  - by eexists.
  - apply Forall_cons in Hall as [Hl Hall].
    simpl. fold (leaves l). rewrite Hl.
    destruct (agent_turn (strip l) messages hist) as [[[reply final]|e] hist'].
    + apply IH, Hall.
    + by eexists.
Qed.

(** X16.  A whole chat session, whatever the model answers and whatever is
    typed.  The model is called at most 12 times per line typed.  The
    first call is given the system prompt and the first line, stripped;
    every further call is given the input of the call before it followed
    by what was added since: the two entries of a cycle, or the last
    entries of the turn before and the next line, so that nothing an
    earlier turn added is ever missing.  Every request has a route at the
    bridge.  A line that reads [exit] or [quit], in any case and with
    blanks around it, ends the session at once wherever it comes: the
    lines after it are not read, no model call is made for it, and
    unless a turn before it raised, one reply has been printed for each
    line before it.  Without such a line the session ends with an
    exception, and the only exceptions are the [EOFError] of the exhausted
    input and the [AttributeError] of a model output that is JSON but not
    an object. *)
Theorem session_for_any_model (inputs : list string) :
  ∃ effects,
    snd (main inputs) = effects ∧
    model_calls effects ≤ 12 * length inputs ∧
    tool_dispatches effects ≤ model_calls effects ∧
    Forall (sees [mkMessage "system" SYSTEM]) effects ∧
    Forall routed effects ∧
    match fst (main inputs) with
    | Normal printed => length printed < length inputs ∧ Forall (Reply repr) printed
    | Raised e => exc_type e = "EOFError" ∨ exc_type e = "AttributeError"
    end ∧
    (∀ line rest,
       inputs = line :: rest →
       lower (strip line) = "exit" ∨ lower (strip line) = "quit" →
       main inputs = (Normal [], [])) ∧
    (∀ line rest,
       inputs = line :: rest →
       leaves line = false →
       ∃ more,
         model_inputs effects
         = [mkMessage "system" SYSTEM; mkMessage "user" (strip line)] :: more) ∧
    chain (next_in_session (strip <$> inputs)) (model_inputs effects) ∧
    (∀ before line after,
       inputs = before ++ line :: after →
       Forall (λ l, leaves l = false) before →
       leaves line = true →
       main inputs = main (before ++ [line]) ∧
       effects = snd (main before) ∧
       match fst (main inputs) with
       | Normal printed => length printed = length before
       | Raised e => exc_type e = "AttributeError"
       end) ∧
    (Forall (λ l, leaves l = false) inputs → ∃ e, fst (main inputs) = Raised e).
Proof.
  unfold ChatSession.main.
  destruct (session_any inputs [mkMessage "system" SYSTEM] [] [])
    as (effects & Heq & Hmc & Htd & Hsees & Hrouted & Hres).
  destruct (session_inputs inputs [mkMessage "system" SYSTEM] [] [])
    as (effects' & Heq' & Hfirst & Hchain).
  assert (effects' = effects) as -> by (by rewrite Heq in Heq').
  exists effects. split; [done|]. split; [done|]. split; [done|]. split; [done|].
  split; [done|]. split.
  { destruct (fst (session inputs _ _ _)) as [out|e]; [|done].
    by destruct Hres as (replies & -> & Hlen & Hreplies). }
  split.
  { intros line rest -> Hexit. simpl.
    by destruct Hexit as [-> | ->]; simpl; rewrite ?orb_true_r. }
  split.
  { intros line rest -> Hstay. by rewrite Hstay in Hfirst. }
  split; [done|].
  split.
  { intros before line after -> Hbefore Hline.
    destruct (session_exit before line after [mkMessage "system" SYSTEM] [] []
                Hbefore Hline) as (Hsame & Heff & Hout).
    split; [done|]. split; [by rewrite <- Heff, Heq|].
    destruct (fst (session (before ++ line :: after) _ _ _)) as [out|e]; [|done].
    by destruct Hout as (replies & -> & Hlen). }
  apply session_without_exit.
Qed.

End Session.

Lemma session_for_any_model_witness :
  Forall (λ l, leaves l = false) ["Ping Fusion."] ∧
  leaves ("  QUIT" +:+ String (ascii_of_nat 160) EmptyString) = true ∧
  ∃ reply,
    fst (ChatSession.main JsonText.loads JsonText.dumps JsonText.dumps JsonText.repr
           (Samples.always Samples.final_ok_text) Samples.bridge_get Samples.bridge_post
           "You are a CAD agent."
           (["Ping Fusion."] ++
            ("  QUIT" +:+ String (ascii_of_nat 160) EmptyString) :: ["Delete everything."]))
    = Normal [reply].
Proof.
  assert (Hbefore : Forall (λ l, leaves l = false) ["Ping Fusion."])
    by (constructor; [by vm_compute|constructor]).
  assert (Hline : leaves ("  QUIT" +:+ String (ascii_of_nat 160) EmptyString) = true)
    by (by vm_compute).
  split; [exact Hbefore|]. split; [exact Hline|].
  destruct (session_for_any_model JsonText.loads JsonText.dumps JsonText.dumps
              JsonText.repr (Samples.always Samples.final_ok_text)
              Samples.bridge_get Samples.bridge_post
              "You are a CAD agent."
              (["Ping Fusion."] ++
               ("  QUIT" +:+ String (ascii_of_nat 160) EmptyString)
                 :: ["Delete everything."]))
    as (effects & _ & _ & _ & _ & _ & _ & _ & _ & _ & Hexit & _).
  destruct (Hexit ["Ping Fusion."] _ ["Delete everything."] eq_refl Hbefore Hline)
    as (_ & _ & Hout).
  revert Hout.
  destruct (fst (ChatSession.main _ _ _ _ _ _ _ _ _)) as [[|reply [|]]|e] eqn:Hmain;
    simpl; intros Hout; try discriminate.
  by exists reply.
Defined.

End SessionExtras.

(** ** From a client to a handler *)

Module EndToEndExtras.
Import Py BridgeServer BridgeFacts McpServer EndToEnd.

Lemma substring_all s : String.substring 0 (String.length s) s = s.
Proof. induction s as [|c s IH]; simpl; [done|by rewrite IH]. Qed.

Section EndToEnd.

Context {Host : Type}.
Variable uuid4 : nat → string.
Variable tb_frames : PyException → string.
Variable fusion_api : ToolFn → @Handler Host.
Variable repr : Json → string.
Variable json_loads : string → Completion Json.
Variable int_ : string → option Z.
Variable json_dumps : Json → string.
Variable FUSION_TOKEN : string.
Variable http_get : list Sent → string → Completion Json.
Variable http_post : list Sent → string → Json → Completion Json.

Local Abbreviation World := (@BridgeServer.World Host).
Local Abbreviation _run_on_fusion_thread := (BridgeServer._run_on_fusion_thread uuid4 tb_frames).
Local Abbreviation _dispatch_tool := (BridgeServer._dispatch_tool uuid4 tb_frames fusion_api repr).
Local Abbreviation handle_one_request :=
  (BridgeServer.handle_one_request uuid4 tb_frames fusion_api repr json_loads int_).
Local Abbreviation fusion_ping := (McpServer.fusion_ping FUSION_TOKEN http_get).
Local Abbreviation fusion_create_sketch_rect_xy :=
  (McpServer.fusion_create_sketch_rect_xy FUSION_TOKEN http_post).
Local Abbreviation fusion_extrude_last_profile :=
  (McpServer.fusion_extrude_last_profile FUSION_TOKEN http_post).

(** A [POST /tool] that names a registered tool and carries arguments
    that are not empty, as the listener serves it. *)
Lemma posted_tool_is_served tool args f il (w : World) :
  (∀ j k, uuid4 j = uuid4 k → j = k) →
  WF uuid4 w →
  int_ (pretty (String.length (json_dumps (request_body tool args))))
    = Some (Z.of_nat (String.length (json_dumps (request_body tool args)))) →
  json_dumps (request_body tool args) ≠ EmptyString →
  json_loads (json_dumps (request_body tool args)) = Normal (request_body tool args) →
  assoc tool _TOOL_MAP = Some f →
  truthy args = true →
  (FUSION_TOKEN ≠ AUTH_TOKEN →
   handle_one_request
     (received json_dumps (SentPost "/tool" FUSION_TOKEN (request_body tool args))) il w
   = (Normal (401, JsonBody (JObj [("ok", JBool false); ("error", JStr "unauthorized")])), w)) ∧
  (FUSION_TOKEN = AUTH_TOKEN →
   ∃ res w',
     _run_on_fusion_thread (handler_of fusion_api f) args il w = (Normal res, w') ∧
     handle_one_request
       (received json_dumps (SentPost "/tool" FUSION_TOKEN (request_body tool args))) il w
     = (Normal (200, JsonBody res), w')).
Proof.
  intros Hinj HWF Hlen Hne Hjson Hf Hargs. split.
  - intros Htok.
    unfold BridgeServer.handle_one_request, BridgeServer.do_POST, received, _auth_ok. simpl.
    by apply String.eqb_neq in Htok as ->.
  - intros Htok.
    destruct (run_on_fusion_thread_spec uuid4 tb_frames Hinj (handler_of fusion_api f) args
                (λ _, True)) with (il := il) (w := w)
      as (sg & w1 & s & res & w' & _ & _ & _ & _ & _ & _ & _ & _ & Hrun & _);
      [done|done|].
    exists res, w'. split; [done|].
    rewrite (ListenerExtras.post_tool_unfold uuid4 tb_frames fusion_api repr json_loads int_
               (received json_dumps (SentPost "/tool" FUSION_TOKEN (request_body tool args)))
               il w _ eq_refl eq_refl (f_equal Some Htok) Hlen).
    replace (0 <? Z.of_nat (String.length (json_dumps (request_body tool args))))%Z
      with true.
    2:{ symmetry. apply Z.ltb_lt.
        destruct (json_dumps (request_body tool args)); [done|simpl; lia]. }
    rewrite Nat2Z.id. simpl rfile. rewrite substring_all, Hjson.
    unfold BridgeServer._dispatch_tool, request_body, registered.
    change (get "tool" [("tool", JStr tool); ("args", args)]) with (JStr tool).
    change (get_or "args" (JObj []) [("tool", JStr tool); ("args", args)]) with args.
    change (hashable (JStr tool)) with true. cbv iota.
    rewrite Hf. unfold or_. rewrite Hargs. by rewrite Hrun.
Qed.

(** X19.  The tools of the MCP server, end to end.  [fusion_ping] sends
    one [GET /ping], which the listener answers itself.  Each of the two
    geometry tools sends one [POST /tool] whose body names a registered
    tool; when the encoded body decodes to itself, the listener answers it
    401 if [FUSION_BRIDGE_TOKEN] is not the token of the add-in (the unset
    variable counts as the empty token), and otherwise submits the handler
    of that name with the two arguments of the call and answers 200 with
    what the submission returned. *)
Theorem mcp_tools_end_to_end
    (call : list Sent → Completion Json * list Sent) (tool : string) (f : ToolFn)
    (args a b : Json) (hist : list Sent) (il : Interleaving) (w : World) :
  (call = fusion_create_sketch_rect_xy a b ∧ tool = "create_sketch_rect_xy" ∧
   f = _create_sketch_rect_xy ∧ args = JObj [("x_mm", a); ("y_mm", b)]) ∨
  (call = fusion_extrude_last_profile a b ∧ tool = "extrude_last_profile" ∧
   f = _extrude_last_profile ∧ args = JObj [("distance_mm", a); ("operation", b)]) →
  (∀ j k, uuid4 j = uuid4 k → j = k) →
  WF uuid4 w →
  int_ (pretty (String.length (json_dumps (request_body tool args))))
    = Some (Z.of_nat (String.length (json_dumps (request_body tool args)))) →
  json_dumps (request_body tool args) ≠ EmptyString →
  json_loads (json_dumps (request_body tool args)) = Normal (request_body tool args) →
  snd (fusion_ping hist) = hist ++ [SentGet "/ping" FUSION_TOKEN] ∧
  (FUSION_TOKEN = AUTH_TOKEN →
   handle_one_request (received json_dumps (SentGet "/ping" FUSION_TOKEN)) il w
   = (Normal (200, JsonBody (JObj [("ok", JBool true);
                                   ("result", JObj [("message", JStr "pong")])])), w)) ∧
  snd (call hist) = hist ++ [SentPost "/tool" FUSION_TOKEN (request_body tool args)] ∧
  (FUSION_TOKEN ≠ AUTH_TOKEN →
   handle_one_request
     (received json_dumps (SentPost "/tool" FUSION_TOKEN (request_body tool args))) il w
   = (Normal (401, JsonBody (JObj [("ok", JBool false); ("error", JStr "unauthorized")])), w)) ∧
  (FUSION_TOKEN = AUTH_TOKEN →
   ∃ res w',
     _run_on_fusion_thread (fusion_api f) args il w = (Normal res, w') ∧
     handle_one_request
       (received json_dumps (SentPost "/tool" FUSION_TOKEN (request_body tool args))) il w
     = (Normal (200, JsonBody res), w')).
Proof.
  intros Hcall Hinj HWF Hlen Hne Hjson.
  split; [done|]. split.
  { intros Htok.
    unfold BridgeServer.handle_one_request, BridgeServer.do_GET, received, _auth_ok. simpl.
    rewrite Htok. by rewrite String.eqb_refl. }
  assert (Hf : assoc tool _TOOL_MAP = Some f ∧ truthy args = true ∧
               handler_of fusion_api f = fusion_api f ∧
               snd (call hist) =
                 hist ++ [SentPost "/tool" FUSION_TOKEN (request_body tool args)]).
  { by destruct Hcall as [(-> & -> & -> & ->)|(-> & -> & -> & ->)]. }
  destruct Hf as (Hf & Hargs & Hh & Hsent).
  split; [done|].
  destruct (posted_tool_is_served tool args f il w Hinj HWF Hlen Hne Hjson Hf Hargs)
    as [H401 H200].
  split; [done|]. rewrite <- Hh. exact H200.
Qed.

(** X20.  Three tools that are on offer and cannot succeed.  The router of
    the chat agent lists [fusion_create_helical_gear],
    [fusion_create_internal_gear] and [fusion_create_bevel_gear], and the
    registry has a handler for each; whatever the arguments and the state
    of the document, a request for one of them is submitted and comes back
    with [ok] false: as the timeout dict, or as the error dict of the
    handler that raises. *)
Theorem unimplemented_gear_tools_never_succeed
    (tool : string) (args : Json) (il : Interleaving) (w : World) :
  (∀ j k, uuid4 j = uuid4 k → j = k) →
  WF uuid4 w →
  tool = "create_helical_gear" ∨ tool = "create_internal_gear" ∨
  tool = "create_bevel_gear" →
  assoc ("fusion_" +:+ tool) ChatCli.TOOL_ROUTER = Some ("POST", tool) ∧
  is_Some (assoc tool _TOOL_MAP) ∧
  ∃ res w',
    _dispatch_tool (request_body tool args) il w = (Normal res, w') ∧
    (res = timeout_result ∨
     ∃ message trace,
       res = JObj [("ok", JBool false); ("error", JStr message); ("trace", JStr trace)]) ∧
    ∃ fields, res = JObj fields ∧ get "ok" fields = JBool false.
Proof.
  intros Hinj HWF Htool.
  assert (∃ f, assoc ("fusion_" +:+ tool) ChatCli.TOOL_ROUTER = Some ("POST", tool) ∧
               assoc tool _TOOL_MAP = Some f ∧
               ∀ payload h, ∃ e, fst (handler_of fusion_api f payload h) = Raised e)
    as (f & Hrouter & Hf & Hraises).
  { destruct Htool as [-> | [-> | ->]];
      [exists _create_helical_gear|exists _create_internal_gear|exists _create_bevel_gear];
      (split; [reflexivity|]; split; [reflexivity|]; intros payload h; by eexists). }
  split; [done|]. split; [by eauto|].
  destruct (run_on_fusion_thread_spec uuid4 tb_frames Hinj (handler_of fusion_api f)
              (or_ args (JObj [])) (λ r, ∃ e, r = error_result tb_frames e))
    with (il := il) (w := w)
    as (sg & w1 & s & res & w' & _ & _ & _ & _ & _ & [_ HP] & _ & Hres & Hrun & _);
    [|done|].
  { intros h. destruct (Hraises (or_ args (JObj [])) h) as [e ->]. by exists e. }
  exists res, w'. split.
  { unfold BridgeServer._dispatch_tool, request_body, registered.
    change (get "tool" [("tool", JStr tool); ("args", args)]) with (JStr tool).
    change (get_or "args" (JObj []) [("tool", JStr tool); ("args", args)]) with args.
    change (hashable (JStr tool)) with true. cbv iota.
    by rewrite Hf. }
  destruct (result s) as [r0|] eqn:Hr0.
  - destruct (HP r0 eq_refl) as [e He]. subst res r0.
    split; [right; by eexists _, _|]. by eexists.
  - subst res. split; [by left|]. by eexists.
Qed.

End EndToEnd.

Lemma mcp_tools_end_to_end_witness :
  ((McpServer.fusion_create_sketch_rect_xy AUTH_TOKEN MoreSamples.mcp_post (JNum 40) (JNum 30)
      = McpServer.fusion_create_sketch_rect_xy AUTH_TOKEN MoreSamples.mcp_post
          (JNum 40) (JNum 30) ∧
    "create_sketch_rect_xy" = "create_sketch_rect_xy" ∧
    _create_sketch_rect_xy = _create_sketch_rect_xy ∧
    JObj [("x_mm", JNum 40); ("y_mm", JNum 30)]
      = JObj [("x_mm", JNum 40); ("y_mm", JNum 30)]) ∨
   (McpServer.fusion_create_sketch_rect_xy AUTH_TOKEN MoreSamples.mcp_post (JNum 40) (JNum 30)
      = McpServer.fusion_extrude_last_profile AUTH_TOKEN MoreSamples.mcp_post
          (JNum 40) (JNum 30) ∧
    "create_sketch_rect_xy" = "extrude_last_profile" ∧
    _create_sketch_rect_xy = _extrude_last_profile ∧
    JObj [("x_mm", JNum 40); ("y_mm", JNum 30)]
      = JObj [("distance_mm", JNum 40); ("operation", JNum 30)])) ∧
  (∀ j k, Samples.uuid j = Samples.uuid k → j = k) ∧
  WF Samples.uuid Samples.idle ∧
  Samples.int_
    (pretty (String.length
               (JsonText.dumps
                  (request_body "create_sketch_rect_xy"
                     (JObj [("x_mm", JNum 40); ("y_mm", JNum 30)])))))
    = Some (Z.of_nat (String.length
                        (JsonText.dumps
                           (request_body "create_sketch_rect_xy"
                              (JObj [("x_mm", JNum 40); ("y_mm", JNum 30)]))))) ∧
  JsonText.dumps
    (request_body "create_sketch_rect_xy" (JObj [("x_mm", JNum 40); ("y_mm", JNum 30)]))
    ≠ EmptyString ∧
  JsonText.loads
    (JsonText.dumps
       (request_body "create_sketch_rect_xy" (JObj [("x_mm", JNum 40); ("y_mm", JNum 30)])))
    = Normal (request_body "create_sketch_rect_xy"
                (JObj [("x_mm", JNum 40); ("y_mm", JNum 30)])) ∧
  ∃ res w',
    _run_on_fusion_thread Samples.uuid Samples.frames
      (Samples.api _create_sketch_rect_xy)
      (JObj [("x_mm", JNum 40); ("y_mm", JNum 30)]) Samples.served_in_time Samples.idle
      = (Normal res, w') ∧
    handle_one_request Samples.uuid Samples.frames Samples.api JsonText.repr
      JsonText.loads Samples.int_
      (received JsonText.dumps
         (SentPost "/tool" AUTH_TOKEN
            (request_body "create_sketch_rect_xy"
               (JObj [("x_mm", JNum 40); ("y_mm", JNum 30)]))))
      Samples.served_in_time Samples.idle
    = (Normal (200, JsonBody res), w').
Proof.
  assert (Hlen : Samples.int_
    (pretty (String.length
               (JsonText.dumps
                  (request_body "create_sketch_rect_xy"
                     (JObj [("x_mm", JNum 40); ("y_mm", JNum 30)])))))
    = Some (Z.of_nat (String.length
                        (JsonText.dumps
                           (request_body "create_sketch_rect_xy"
                              (JObj [("x_mm", JNum 40); ("y_mm", JNum 30)]))))))
    by (vm_compute; reflexivity).
  assert (Hne : JsonText.dumps
                  (request_body "create_sketch_rect_xy"
                     (JObj [("x_mm", JNum 40); ("y_mm", JNum 30)])) ≠ EmptyString)
    by (vm_compute; discriminate).
  assert (Hjson : JsonText.loads
    (JsonText.dumps
       (request_body "create_sketch_rect_xy" (JObj [("x_mm", JNum 40); ("y_mm", JNum 30)])))
    = Normal (request_body "create_sketch_rect_xy"
                (JObj [("x_mm", JNum 40); ("y_mm", JNum 30)])))
    by (vm_compute; reflexivity).
  split; [by left|].
  split; [exact BridgeClaims.uuid_inj|]. split; [exact BridgeClaims.idle_WF|].
  split; [exact Hlen|]. split; [exact Hne|]. split; [exact Hjson|].
  apply (proj2 (proj2 (proj2 (proj2
           (mcp_tools_end_to_end Samples.uuid Samples.frames Samples.api JsonText.repr
              JsonText.loads Samples.int_ JsonText.dumps AUTH_TOKEN
              MoreSamples.mcp_get MoreSamples.mcp_post
              (McpServer.fusion_create_sketch_rect_xy AUTH_TOKEN MoreSamples.mcp_post
                 (JNum 40) (JNum 30))
              "create_sketch_rect_xy" _create_sketch_rect_xy
              (JObj [("x_mm", JNum 40); ("y_mm", JNum 30)]) (JNum 40) (JNum 30)
              [] Samples.served_in_time Samples.idle
              (or_introl (conj eq_refl (conj eq_refl (conj eq_refl eq_refl))))
              BridgeClaims.uuid_inj BridgeClaims.idle_WF Hlen Hne Hjson))))).
  reflexivity.
Defined.

Lemma unimplemented_gear_tools_never_succeed_witness :
  (∀ j k, Samples.uuid j = Samples.uuid k → j = k) ∧
  WF Samples.uuid Samples.idle ∧
  ("create_bevel_gear" = "create_helical_gear" ∨
   "create_bevel_gear" = "create_internal_gear" ∨
   "create_bevel_gear" = "create_bevel_gear") ∧
  assoc ("fusion_" +:+ "create_bevel_gear") ChatCli.TOOL_ROUTER
    = Some ("POST", "create_bevel_gear") ∧
  is_Some (assoc "create_bevel_gear" _TOOL_MAP) ∧
  ∃ res w',
    _dispatch_tool Samples.uuid Samples.frames Samples.api JsonText.repr
      (request_body "create_bevel_gear" (JObj [("teeth", JNum 20)]))
      Samples.served_in_time Samples.idle = (Normal res, w') ∧
    (res = timeout_result ∨
     ∃ message trace,
       res = JObj [("ok", JBool false); ("error", JStr message); ("trace", JStr trace)]) ∧
    ∃ fields, res = JObj fields ∧ get "ok" fields = JBool false.
Proof.
  split; [exact BridgeClaims.uuid_inj|]. split; [exact BridgeClaims.idle_WF|].
  split; [by right; right|].
  apply (unimplemented_gear_tools_never_succeed Samples.uuid Samples.frames Samples.api
           JsonText.repr "create_bevel_gear" (JObj [("teeth", JNum 20)])
           Samples.served_in_time Samples.idle
           BridgeClaims.uuid_inj BridgeClaims.idle_WF).
  by right; right.
Defined.

End EndToEndExtras.

(** ** Loading and unloading the add-in *)

Module AddInExtras.
Import Py AddIn.

Ltac absent H :=
  repeat (apply elem_of_cons in H as [H|H]; [discriminate H|]);
  by apply elem_of_nil in H.

Ltac stop_case :=
  simpl;
  repeat match goal with
         | |- _ ∧ _ => split
         | |- _ ↔ _ => split
         | |- _ → _ => intros ?
         end;
  first [ done
        | discriminate
        | by repeat constructor
        | by left; eauto
        | by right; eauto
        | by eauto
        | match goal with H : _ ∈ _ |- _ => absent H end ].

Section AddIn.

Variable Application_get : list ApiCall → Completion (option bool).
Variable registerCustomEvent : list ApiCall → Completion bool.
Variable fails : list ApiCall → ApiCall → option PyException.
Variable tb_frames : PyException → string.

Local Abbreviation start := (AddIn.start Application_get registerCustomEvent fails).
Local Abbreviation stop := (AddIn.stop fails).
Local Abbreviation run := (AddIn.run Application_get registerCustomEvent fails tb_frames).
Local Abbreviation stop_addin := (AddIn.stop_addin fails).

Lemma stop_returns (s : State) : fst (stop s) = Normal tt.
Proof.
  unfold AddIn.stop, try_except, bind, globals, api, assign, ret.
  destruct s as [g log]. simpl.
  destruct (_server g); simpl.
  - destruct (fails log ServerShutdown); simpl;
      [|destruct (fails (log ++ [ServerShutdown]) ServerClose); simpl];
      (destruct (app g); simpl; [|done]);
      by match goal with |- context [fails ?l ?c] => destruct (fails l c) end.
  - destruct (app g); simpl; [|done].
    by destruct (fails log (UnregisterCustomEvent BridgeServer.CUSTOM_EVENT_ID)).
Qed.

Lemma start_without_application (s : State) :
  Application_get (snd s) = Normal None →
  start s =
    (Raised (RuntimeError "Fusion Application not available."),
     (mkGlobals None (ui (fst s)) (_custom_event (fst s)) (_handlers (fst s))
                (_server (fst s)) (_server_thread (fst s)),
      snd s ++ [ApplicationGet])).
Proof.
  intros H. unfold AddIn.start, bind, get_Application, assign, raise. simpl.
  by rewrite H.
Qed.

(** X17.  Fusion never sees an exception from the add-in.  [run] and
    [stop] of FusionBridge.py return normally whatever the calls into
    Fusion, the HTTP server and the thread library do.  When Fusion hands
    out no application, [run] has started nothing and shows no message box:
    the failure of [start] goes unreported. *)
Theorem the_add_in_never_raises (s : State) :
  fst (run s) = Normal tt ∧
  fst (stop_addin s) = Normal tt ∧
  ((∀ log, Application_get log = Normal None) →
   run s =
     (Normal tt,
      (mkGlobals None (ui (fst s)) (_custom_event (fst s)) (_handlers (fst s))
                 (_server (fst s)) (_server_thread (fst s)),
       snd s ++ [ApplicationGet; ApplicationGet; ApplicationGet]))).
Proof.
  split; [|split].
  - unfold AddIn.run, try_except.
    match goal with |- context [bind ?m ?k s] => destruct (bind m k s) as [[[]|e] s'] end;
      [done|].
    match goal with |- context [bind ?m ?k s'] => destruct (bind m k s') as [[[]|e'] s''] end;
      done.
  - unfold AddIn.stop_addin, try_except.
    pose proof (stop_returns s) as H.
    destruct (stop s) as [[[]|e] s']; [done|discriminate].
  - intros Hnone. destruct s as [g log].
    unfold AddIn.run, try_except.
    unfold bind at 1. unfold get_Application at 1. rewrite Hnone.
    change (ui_of None) with false. cbv iota.
    unfold bind at 1. unfold ret at 1. unfold bind at 1.
    rewrite start_without_application by apply Hnone.
    unfold bind at 1. unfold get_Application at 1. rewrite Hnone.
    change (ui_of None) with false. cbv iota. unfold ret. simpl.
    by rewrite <- !app_assoc.
Qed.

(** X18.  What [stop] of bridge_server.py does and leaves.  It never
    raises.  When no server is set and no application is known, as before
    the first [start], it makes no call and changes nothing.  When a
    server is set it is shut down, and [_server] is cleared unless
    [shutdown] or [server_close] raised.  When an application is known the
    custom event is unregistered, also when shutting the server down
    raised.  It never touches [app], [ui], [_custom_event], [_handlers] or
    [_server_thread]. *)
Theorem stop_releases_the_server_and_the_event (s : State) :
  ∃ calls g',
    stop s = (Normal tt, (g', snd s ++ calls)) ∧
    app g' = app (fst s) ∧ ui g' = ui (fst s) ∧
    _custom_event g' = _custom_event (fst s) ∧ _handlers g' = _handlers (fst s) ∧
    _server_thread g' = _server_thread (fst s) ∧
    (_server (fst s) = false → app (fst s) = None → calls = [] ∧ g' = fst s) ∧
    (_server (fst s) = true →
     ServerShutdown ∈ calls ∧
     (_server g' = true →
      is_Some (fails (snd s) ServerShutdown) ∨
      is_Some (fails (snd s ++ [ServerShutdown]) ServerClose))) ∧
    (_server (fst s) = false → _server g' = false) ∧
    (is_Some (app (fst s)) ↔ UnregisterCustomEvent BridgeServer.CUSTOM_EVENT_ID ∈ calls).
Proof.
  destruct s as [[a u ev n srv th] log].
  unfold AddIn.stop, try_except, bind, globals, api, assign, ret. simpl.
  destruct srv; simpl.
  - destruct (fails log ServerShutdown) as [e1|] eqn:H1; simpl;
      [|destruct (fails (log ++ [ServerShutdown]) ServerClose) as [e2|] eqn:H2; simpl];
      (destruct a as [has_ui|]; simpl;
       [match goal with |- context [fails ?l (UnregisterCustomEvent ?i)] =>
          destruct (fails l (UnregisterCustomEvent i)) end; simpl|]);
      rewrite <- ?app_assoc; simpl;
      (eexists _, _; split; [reflexivity|]); stop_case.
  - destruct a as [has_ui|]; simpl.
    + destruct (fails log (UnregisterCustomEvent BridgeServer.CUSTOM_EVENT_ID)); simpl;
        (eexists _, _; split; [reflexivity|]); stop_case.
    + exists [], (mkGlobals None u ev n false th). rewrite app_nil_r.
      split; [reflexivity|]. stop_case.
Qed.

End AddIn.

Lemma the_add_in_never_raises_witness :
  (∀ log, MoreSamples.no_application log = Normal None) ∧
  AddIn.run MoreSamples.no_application MoreSamples.no_event MoreSamples.nothing_fails
    Samples.frames (unloaded, []) =
    (Normal tt,
     (mkGlobals None false false 0 false false,
      [] ++ [ApplicationGet; ApplicationGet; ApplicationGet])).
Proof.
  split; [reflexivity|].
  apply (proj2 (proj2 (the_add_in_never_raises MoreSamples.no_application
                         MoreSamples.no_event MoreSamples.nothing_fails Samples.frames
                         (unloaded, [])))).
  reflexivity.
Defined.

Lemma stop_releases_the_server_and_the_event_witness :
  _server (fst (unloaded, ([] : list ApiCall))) = false ∧
  app (fst (unloaded, ([] : list ApiCall))) = None ∧
  AddIn.stop MoreSamples.nothing_fails (unloaded, []) = (Normal tt, (unloaded, [])).
Proof.
  split; [reflexivity|]. split; [reflexivity|].
  destruct (stop_releases_the_server_and_the_event MoreSamples.nothing_fails (unloaded, []))
    as (calls & g' & Heq & _ & _ & _ & _ & _ & Hnothing & _).
  destruct (Hnothing eq_refl eq_refl) as [Hcalls Hg].
  rewrite Hcalls, Hg in Heq. exact Heq.
Defined.

End AddInExtras.
